(** * recur_scan.features: a shallow embedding and its verified properties

    The development follows [src/recur_scan/features.py] function by
    function.  Python values are embedded as follows:

    - [int] is [Z]; [float] is the kernel's binary64 type [PrimFloat.float],
      so that every floating-point operation of the source is evaluated
      with the IEEE 754 rounding the interpreter uses;
    - [str] is [string]; names and dates are taken to be ASCII, on which
      [str.lower], [re.IGNORECASE] and [\b] behave as modelled here;
    - an exception is a value of [exn]; a computation that may raise has
      type [result A];
    - a [dict] is an association list in insertion order;
    - the [functools.lru_cache] around [_parse_date] is an explicit state,
      threaded through the functions that reach it. *)

From Stdlib Require Import ZArith List String Ascii Bool Lia.
From Stdlib Require Import PrimFloat FloatOps SpecFloat.
From Stdlib Require Import Sorting.Sorted Sorting.Permutation.
Import ListNotations.

(* Decimal literals such as [9.99] denote the nearest binary64 value, as
   they do in the source. *)
Set Warnings "-inexact-float".

Local Open Scope string_scope.
Local Open Scope list_scope.
Local Open Scope Z_scope.

(** ** Exceptions and the error monad *)

Inductive exn : Set :=
| ValueError
| ZeroDivisionError
| OverflowError
| IndexError.

Inductive result (A : Type) : Type :=
| Ok (a : A)
| Err (e : exn).

Arguments Ok {A} a.
Arguments Err {A} e.

Definition bind {A B : Type} (r : result A) (f : A -> result B) : result B :=
  match r with
  | Ok a => f a
  | Err e => Err e
  end.

Definition fmap {A B : Type} (f : A -> B) (r : result A) : result B :=
  bind r (fun a => Ok (f a)).

Notation "x <- r ;; k" := (bind r (fun x => k))
  (at level 61, r at next level, right associativity).

Definition is_ok {A : Type} (r : result A) : bool :=
  match r with Ok _ => true | Err _ => false end.

(** [[f(x) for x in l]] with a body that may raise: elements are visited
    left to right and the first exception aborts the comprehension. *)
Fixpoint mapM {A B : Type} (f : A -> result B) (l : list A) : result (list B) :=
  match l with
  | [] => Ok []
  | x :: l' => y <- f x ;; ys <- mapM f l' ;; Ok (y :: ys)
  end.

(** [[x for x in l if p(x)]] with a condition that may raise. *)
Fixpoint filterM {A : Type} (p : A -> result bool) (l : list A) : result (list A) :=
  match l with
  | [] => Ok []
  | x :: l' =>
      b <- p x ;; ys <- filterM p l' ;; Ok (if b then x :: ys else ys)
  end.

Definition len {A : Type} (l : list A) : Z := Z.of_nat (List.length l).

(** [l[i]] for a non-negative index. *)
Definition list_get {A : Type} (l : list A) (i : Z) : result A :=
  if i <? 0 then Err IndexError
  else match nth_error l (Z.to_nat i) with
       | Some x => Ok x
       | None => Err IndexError
       end.

(** [l.index(x)]: position of the first element equal to [x]. *)
Fixpoint list_index {A : Type} (eqb : A -> A -> bool) (x : A) (l : list A) : result Z :=
  match l with
  | [] => Err ValueError
  | y :: l' => if eqb y x then Ok 0 else fmap Z.succ (list_index eqb x l')
  end.

(** [sorted]: a stable sort.  [leb x y] says that [x] may stay in front
    of [y]; an element moves only past those it must follow, so equal keys
    keep their order, as with Python's sort. *)
Section Sorting.
Context {A : Type} (leb : A -> A -> bool).

Fixpoint insert_sorted (x : A) (l : list A) : list A :=
  match l with
  | [] => [x]
  | y :: l' => if leb x y then x :: l else y :: insert_sorted x l'
  end.

Fixpoint sorted (l : list A) : list A :=
  match l with
  | [] => []
  | x :: l' => insert_sorted x (sorted l')
  end.
End Sorting.

(** The distinct elements of a list, in first-seen order: the content of
    the [set] built from it. *)
Fixpoint distinct {A : Type} (eqb : A -> A -> bool) (l : list A) : list A :=
  match l with
  | [] => []
  | x :: l' => x :: filter (fun y => negb (eqb x y)) (distinct eqb l')
  end.

Definition sum_Z (l : list Z) : Z := fold_left Z.add l 0.

Definition max_Z (l : list Z) : result Z :=
  match l with
  | [] => Err ValueError
  | x :: l' => Ok (fold_left Z.max l' x)
  end.

Definition min_Z (l : list Z) : result Z :=
  match l with
  | [] => Err ValueError
  | x :: l' => Ok (fold_left Z.min l' x)
  end.

(** ** Strings *)

Definition is_upper (c : ascii) : bool :=
  let n := nat_of_ascii c in (65 <=? n)%nat && (n <=? 90)%nat.

Definition lower_ascii (c : ascii) : ascii :=
  if is_upper c then ascii_of_nat (nat_of_ascii c + 32) else c.

(** [str.lower()]. *)
Fixpoint lower (s : string) : string :=
  match s with
  | EmptyString => EmptyString
  | String c s' => String (lower_ascii c) (lower s')
  end.

Definition is_digit (c : ascii) : bool :=
  let n := nat_of_ascii c in (48 <=? n)%nat && (n <=? 57)%nat.

Definition digit_val (c : ascii) : Z := Z.of_nat (nat_of_ascii c) - 48.

(** A word character of the regular-expression engine: [[a-zA-Z0-9_]]. *)
Definition is_word (c : ascii) : bool :=
  let n := nat_of_ascii c in
  is_digit c || is_upper c || ((97 <=? n)%nat && (n <=? 122)%nat) || (n =? 95)%nat.

Definition is_space (c : ascii) : bool :=
  let n := nat_of_ascii c in
  (n =? 32)%nat || ((9 <=? n)%nat && (n <=? 13)%nat).

(** [s.split(sep)] for a one-character separator. *)
Fixpoint split_on (sep : ascii) (s : string) : list string :=
  match s with
  | EmptyString => [EmptyString]
  | String c s' =>
      if Ascii.eqb c sep then EmptyString :: split_on sep s'
      else match split_on sep s' with
           | [] => [String c EmptyString]
           | w :: ws => String c w :: ws
           end
  end.

Fixpoint lstrip (s : string) : string :=
  match s with
  | String c s' => if is_space c then lstrip s' else s
  | EmptyString => EmptyString
  end.

(** Digits of an integer literal, single underscores allowed between
    digits, trailing white space allowed.  [acc] is the value read so
    far; [prev_digit] tells whether the previous character was a digit. *)
Fixpoint int_digits (s : string) (acc : Z) (prev_digit : bool) : result Z :=
  match s with
  | EmptyString => if prev_digit then Ok acc else Err ValueError
  | String c s' =>
      if is_digit c then int_digits s' (10 * acc + digit_val c) true
      else if (Ascii.eqb c "_"%char && prev_digit)%bool then
        match s' with
        | String d _ => if is_digit d then int_digits s' acc false else Err ValueError
        | EmptyString => Err ValueError
        end
      else if (is_space c && prev_digit)%bool then
        match lstrip s' with
        | EmptyString => Ok acc
        | _ => Err ValueError
        end
      else Err ValueError
  end.

(** [int(s)] for a string [s] in base ten. *)
Definition int_of_string (s : string) : result Z :=
  match lstrip s with
  | String "-"%char s' => fmap Z.opp (int_digits s' 0 false)
  | String "+"%char s' => int_digits s' 0 false
  | s' => int_digits s' 0 false
  end.

(** *** Word-boundary search

    [re.search(r"\b(a1|a2|...)\b", s, re.IGNORECASE)] only feeds [bool]:
    what matters is whether some alternative occurs in [s], letter case
    ignored, with a word boundary on both sides. *)

Definition word_opt (c : option ascii) : bool :=
  match c with
  | Some c => is_word c
  | None => false
  end.

Definition head_char (s : string) : option ascii :=
  match s with
  | String c _ => Some c
  | EmptyString => None
  end.

(** [\b] between the characters [prev] and [next]; [None] is an end of
    the string. *)
Definition boundary (prev next : option ascii) : bool :=
  xorb (word_opt prev) (word_opt next).

(** Matches the literal [lit] at the head of [s]; gives the last
    character consumed and what follows. *)
Fixpoint match_literal (lit s : string) (last : option ascii)
  : option (option ascii * string) :=
  match lit with
  | EmptyString => Some (last, s)
  | String p lit' =>
      match s with
      | String c s' =>
          if Ascii.eqb (lower_ascii c) (lower_ascii p)
          then match_literal lit' s' (Some c)
          else None
      | EmptyString => None
      end
  end.

Definition match_here (alts : list string) (prev : option ascii) (s : string) : bool :=
  boundary prev (head_char s)
  && existsb (fun lit =>
                match match_literal lit s prev with
                | Some (last, rest) => boundary last (head_char rest)
                | None => false
                end) alts.

Fixpoint search_from (alts : list string) (prev : option ascii) (s : string) : bool :=
  match_here alts prev s
  || match s with
     | String c s' => search_from alts (Some c) s'
     | EmptyString => false
     end.

Definition re_search_words (alts : list string) (s : string) : bool :=
  search_from alts None s.

(** ** Floating point

    The arithmetic operators are those of [PrimFloat].  What Python adds
    on top of the hardware (conversions, [round], [int], [//], [%]) is
    written out below over the exact decomposition [Prim2SF]. *)

Module Float.
Local Open Scope float_scope.

(** [float(z)] for an integer that fits: rounding to nearest, ties to
    even.  Every integer converted in this module is a list length, a
    number of days or the integer part of a float. *)
Definition of_Z (z : Z) : float := SF2Prim (binary_normalize prec emax z 0 false).

Definition sign_bit (x : float) : bool :=
  match Prim2SF x with
  | S754_zero s | S754_infinity s | S754_finite s _ _ => s
  | S754_nan => false
  end.

(** [copysign(0.0, x)]. *)
Definition zero_like (x : float) : float := if sign_bit x then neg_zero else zero.

(** The integer [m * 2^e] rounded to an integer: towards zero, and to
    nearest with ties to even. *)
Definition trunc_mag (m : positive) (e : Z) : Z :=
  if (0 <=? e)%Z then (Zpos m * 2 ^ e)%Z else (Zpos m / 2 ^ (- e))%Z.

Definition round_mag (m : positive) (e : Z) : Z :=
  if (0 <=? e)%Z then (Zpos m * 2 ^ e)%Z
  else
    let d := (2 ^ (- e))%Z in
    let q := (Zpos m / d)%Z in
    match (2 * (Zpos m mod d) ?= d)%Z with
    | Lt => q
    | Gt => (q + 1)%Z
    | Eq => if Z.even q then q else (q + 1)%Z
    end.

Definition signed (s : bool) (z : Z) : Z := if s then (- z)%Z else z.

(** [round(x)] with one argument. *)
Definition round (x : float) : result Z :=
  match Prim2SF x with
  | S754_nan => Err ValueError
  | S754_infinity _ => Err OverflowError
  | S754_zero _ => Ok 0%Z
  | S754_finite s m e => Ok (signed s (round_mag m e))
  end.

(** [int(x)]. *)
Definition to_int (x : float) : result Z :=
  match Prim2SF x with
  | S754_nan => Err ValueError
  | S754_infinity _ => Err OverflowError
  | S754_zero _ => Ok 0%Z
  | S754_finite s m e => Ok (signed s (trunc_mag m e))
  end.

(** C's [floor]. *)
Definition floor (x : float) : float :=
  match Prim2SF x with
  | S754_finite s m e =>
      if (0 <=? e)%Z then x
      else
        let n := (signed s (Zpos m) / 2 ^ (- e))%Z in
        if (n =? 0)%Z then zero else of_Z n
  | _ => x
  end.

(** C's [fmod]: the exact remainder, with the sign of [x]. *)
Definition fmod (x y : float) : float :=
  match Prim2SF x, Prim2SF y with
  | S754_nan, _ | _, S754_nan => nan
  | S754_infinity _, _ => nan
  | _, S754_zero _ => nan
  | S754_zero _, _ => x
  | S754_finite _ _ _, S754_infinity _ => x
  | S754_finite sx mx ex, S754_finite _ my ey =>
      let e0 := Z.min ex ey in
      let r := ((Zpos mx * 2 ^ (ex - e0)) mod (Zpos my * 2 ^ (ey - e0)))%Z in
      if (r =? 0)%Z then (if sx then neg_zero else zero)
      else SF2Prim (binary_normalize prec emax (signed sx r) e0 false)
  end.

(** [x % y] on floats. *)
Definition rem (x y : float) : result float :=
  if y =? 0 then Err ZeroDivisionError
  else
    let m := fmod x y in
    if m =? 0 then Ok (zero_like y)
    else if negb (Bool.eqb (y <? 0) (m <? 0)) then Ok (m + y)
    else Ok m.

(** [x // y] on floats. *)
Definition floordiv (x y : float) : result float :=
  if y =? 0 then Err ZeroDivisionError
  else
    let m := fmod x y in
    let d := (x - m) / y in
    let d := if negb (m =? 0) && negb (Bool.eqb (y <? 0) (m <? 0))
             then d - 1 else d in
    if d =? 0 then Ok (zero_like (x / y))
    else
      let f := floor d in
      Ok (if 0.5 <? d - f then f + 1 else f).

(** [x / n] for a float and an integer: the integer is converted, and
    is zero as a float exactly when it is zero. *)
Definition div_int (x : float) (n : Z) : result float :=
  if (n =? 0)%Z then Err ZeroDivisionError else Ok (x / of_Z n).

(** Quotients of this size and above round to infinity: half an ulp
    above the largest double. *)
Definition overflow_threshold : Z := (2 ^ 1024 - 2 ^ 970)%Z.

(** [a / b] on integers: the exact quotient, rounded once.  The
    quotient is computed to 64 significant bits and a sticky bit. *)
Definition int_truediv (a b : Z) : result float :=
  if (b =? 0)%Z then Err ZeroDivisionError
  else if (a =? 0)%Z then Ok zero
  else if (Z.abs b * overflow_threshold <=? Z.abs a)%Z then Err OverflowError
  else
    let k := Z.max 0 (64 + Z.log2 (Z.abs b) - Z.log2 (Z.abs a))%Z in
    let n := (Z.abs a * 2 ^ k)%Z in
    let q := (n / Z.abs b)%Z in
    let sticky := if (n mod Z.abs b =? 0)%Z then 0%Z else 1%Z in
    let neg := xorb (a <? 0)%Z (b <? 0)%Z in
    Ok (SF2Prim (binary_normalize prec emax
                   (signed neg (2 * q + sticky)) (- k - 1) false)).

(** [x ** 2], approximated by the product.  The interpreter calls C's
    [pow], whose result may differ from the product in the last place,
    and raises [OverflowError] when the square leaves the range of a
    double (beyond [1e154]), where the product is infinite.  No statement
    below asserts the value of a square or of a standard deviation. *)
Definition square (x : float) : float := x * x.

(** [x ** 0.5] for [x >= 0], approximated by the correctly rounded
    square root: C's [pow(x, 0.5)] may differ from it in the last place.
    No statement below asserts the value of a standard deviation. *)
Definition sqrt_pow (x : float) : float := sqrt x.

(** [sum(l)] over floats, starting from the integer [0] and adding
    from left to right (CPython 3.12 adds a compensation term to this
    sum; no statement below depends on a sum of amounts). *)
Definition sum (l : list float) : float := fold_left add l zero.

(** [x in {c1, c2, ...}] and [x in [c1, c2, ...]]. *)
Definition mem (x : float) (l : list float) : bool := existsb (eqb x) l.
End Float.

(** ** Calendar dates

    [datetime.datetime.strptime(s, "%Y-%m-%d")] and its [.date()] carry a
    year, a month and a day; the time of day is always midnight. *)

Record datetime : Set := mkdate { year : Z; month : Z; day : Z }.

Definition date_eqb (a b : datetime) : bool :=
  (year a =? year b) && (month a =? month b) && (day a =? day b).

(** Dates compare as the tuples [(year, month, day)]. *)
Definition date_leb (a b : datetime) : bool :=
  (year a <? year b)
  || ((year a =? year b)
      && ((month a <? month b) || ((month a =? month b) && (day a <=? day b)))).

Definition is_leap (y : Z) : bool :=
  (y mod 4 =? 0) && (negb (y mod 100 =? 0) || (y mod 400 =? 0)).

Definition days_in_month (y m : Z) : Z :=
  if m =? 2 then (if is_leap y then 29 else 28)
  else if (m =? 4) || (m =? 6) || (m =? 9) || (m =? 11) then 30
  else 31.

Definition days_before_year (y : Z) : Z :=
  let p := y - 1 in p * 365 + p / 4 - p / 100 + p / 400.

Fixpoint days_before_month_from (y : Z) (m : nat) : Z :=
  match m with
  | O => 0
  | S m' => days_before_month_from y m' + days_in_month y (Z.of_nat m)
  end.

Definition days_before_month (y m : Z) : Z :=
  days_before_month_from y (Z.to_nat (m - 1)).

(** [d.toordinal()]: day 1 is 0001-01-01. *)
Definition toordinal (d : datetime) : Z :=
  days_before_year (year d) + days_before_month (year d) (month d) + day d.

(** [(a - b).days]. *)
Definition days_between (a b : datetime) : Z := toordinal a - toordinal b.

(** *** strptime

    The format [%Y-%m-%d] is matched as the library matches it:
    [\d\d\d\d], a dash, [1[0-2]|0[1-9]|[1-9]], a dash,
    [3[0-1]|[1-2]\d|0[1-9]|[1-9]| [1-9]], and nothing may remain.  The
    alternatives are tried in this order and the first that matches is
    kept: what follows each field (a dash, the end) never matches after a
    shorter alternative when it failed after a longer one. *)

Definition in_range (lo hi : ascii) (c : ascii) : bool :=
  ((nat_of_ascii lo <=? nat_of_ascii c)%nat && (nat_of_ascii c <=? nat_of_ascii hi)%nat)%bool.

Definition read_year (s : string) : option (Z * string) :=
  match s with
  | String a (String b (String c (String d rest))) =>
      if is_digit a && is_digit b && is_digit c && is_digit d
      then Some (1000 * digit_val a + 100 * digit_val b + 10 * digit_val c + digit_val d, rest)
      else None
  | _ => None
  end.

Definition read_month (s : string) : option (Z * string) :=
  match s with
  | String a rest =>
      match rest with
      | String b rest' =>
          if Ascii.eqb a "1" && in_range "0" "2" b then Some (10 + digit_val b, rest')
          else if Ascii.eqb a "0" && in_range "1" "9" b then Some (digit_val b, rest')
          else if in_range "1" "9" a then Some (digit_val a, rest)
          else None
      | EmptyString => if in_range "1" "9" a then Some (digit_val a, rest) else None
      end
  | EmptyString => None
  end.

Definition read_day (s : string) : option (Z * string) :=
  match s with
  | String a rest =>
      match rest with
      | String b rest' =>
          if Ascii.eqb a "3" && in_range "0" "1" b then Some (30 + digit_val b, rest')
          else if in_range "1" "2" a && is_digit b then Some (10 * digit_val a + digit_val b, rest')
          else if Ascii.eqb a "0" && in_range "1" "9" b then Some (digit_val b, rest')
          else if in_range "1" "9" a then Some (digit_val a, rest)
          else if Ascii.eqb a " " && in_range "1" "9" b then Some (digit_val b, rest')
          else None
      | EmptyString => if in_range "1" "9" a then Some (digit_val a, rest) else None
      end
  | EmptyString => None
  end.

Definition read_dash (s : string) : option string :=
  match s with
  | String c rest => if Ascii.eqb c "-" then Some rest else None
  | EmptyString => None
  end.

Definition match_ymd (s : string) : option (Z * Z * Z) :=
  match read_year s with
  | Some (y, s1) =>
      match read_dash s1 with
      | Some s2 =>
          match read_month s2 with
          | Some (m, s3) =>
              match read_dash s3 with
              | Some s4 =>
                  match read_day s4 with
                  | Some (d, EmptyString) => Some (y, m, d)
                  | _ => None
                  end
              | None => None
              end
          | None => None
          end
      | None => None
      end
  | None => None
  end.

(** [datetime.datetime.strptime(s, "%Y-%m-%d")]: a [ValueError] when the
    string does not match or names no day of the calendar. *)
Definition strptime (s : string) : result datetime :=
  match match_ymd s with
  | Some (y, m, d) =>
      if (1 <=? y) && (d <=? days_in_month y m) then Ok (mkdate y m d)
      else Err ValueError
  | None => Err ValueError
  end.

(** [[(dates[i + 1] - dates[i]).days for i in range(len(dates) - 1)]]. *)
Fixpoint date_diffs (dates : list datetime) : list Z :=
  match dates with
  | a :: (b :: _) as rest => days_between b a :: date_diffs rest
  | _ => []
  end.

(** ** Transactions and feature values *)

(** Modelled from the spec: the [Transaction] record of
    [recur_scan.transactions], which the sources import but do not
    contain.  Its five fields are those of the data model. *)
Record Transaction : Set := mkTransaction {
  id : Z;
  user_id : string;
  name : string;
  date : string;
  amount : float
}.

(** What a feature may hold: the source's [float | int], and [bool]. *)
Inductive value : Set :=
| VBool (b : bool)
| VInt (n : Z)
| VFloat (x : float).

Definition dict : Set := list (string * value).

(** [d[k] = v]: an existing key keeps its place and takes the new value,
    a new key goes last. *)
Fixpoint dict_set (k : string) (v : value) (d : dict) : dict :=
  match d with
  | [] => [(k, v)]
  | (k', v') :: d' =>
      if String.eqb k' k then (k', v) :: d' else (k', v') :: dict_set k v d'
  end.

(** [{**d, **e}]. *)
Definition dict_update (d e : dict) : dict :=
  fold_left (fun acc kv => dict_set (fst kv) (snd kv) acc) e d.

Fixpoint dict_get (k : string) (d : dict) : option value :=
  match d with
  | [] => None
  | (k', v) :: d' => if String.eqb k' k then Some v else dict_get k d'
  end.

Definition keys (d : dict) : list string := map fst d.

(** A dictionary display [{k1: v1, k2: v2, ...}]. *)
Definition dict_of (items : list (string * value)) : dict := dict_update [] items.

(** [int(b)] for a Boolean. *)
Definition b2z (b : bool) : Z := if b then 1 else 0.

(** ** Counters over amounts

    [Counter] is a [dict]: keys are kept in first-seen order and are
    compared here with [==].  The interpreter tries identity first, so
    one NaN object met twice is one key there and two keys here; amounts
    that are not NaN are counted alike.  The statements below only bound
    the counts, which holds either way. *)
Fixpoint counter_add (k : float) (c : list (float * Z)) : list (float * Z) :=
  match c with
  | [] => [(k, 1)]
  | (k', n) :: c' =>
      if PrimFloat.eqb k' k then (k', n + 1) :: c' else (k', n) :: counter_add k c'
  end.

Definition Counter (l : list float) : list (float * Z) :=
  fold_left (fun c k => counter_add k c) l [].

(** [c.most_common(n)]: decreasing counts, equal counts in first-seen
    order. *)
Definition most_common (n : nat) (c : list (float * Z)) : list (float * Z) :=
  firstn n (sorted (fun a b => snd b <=? snd a) c).

(** ** The scorers of features.py *)

Definition str_in (x : string) (l : list string) : bool := existsb (String.eqb x) l.

Definition get_is_always_recurring (transaction : Transaction) : bool :=
  str_in (lower (name transaction)) ["google storage"; "netflix"; "hulu"; "spotify"].

Definition get_is_insurance (transaction : Transaction) : bool :=
  re_search_words ["insurance"; "insur"; "insuranc"] (name transaction).

Definition get_is_utility (transaction : Transaction) : bool :=
  re_search_words ["utility"; "utilit"; "energy"] (name transaction).

Definition get_is_phone (transaction : Transaction) : bool :=
  re_search_words ["at&t"; "t-mobile"; "verizon"] (name transaction).

Definition _get_day (date : string) : result Z :=
  part <- list_get (split_on "-" date) 2 ;;
  int_of_string part.

Definition get_n_transactions_same_day
  (transaction : Transaction) (all_transactions : list Transaction) (n_days_off : Z)
  : result Z :=
  same <- filterM (fun t =>
                     a <- _get_day (date t) ;;
                     b <- _get_day (date transaction) ;;
                     Ok (Z.abs (a - b) <=? n_days_off))
                  all_transactions ;;
  Ok (len same).

Definition get_pct_transactions_same_day
  (transaction : Transaction) (all_transactions : list Transaction) (n_days_off : Z)
  : result float :=
  n <- get_n_transactions_same_day transaction all_transactions n_days_off ;;
  Float.int_truediv n (len all_transactions).

Definition get_ends_in_99 (transaction : Transaction) : result bool :=
  r <- Float.rem (amount transaction * 100)%float 100%float ;;
  Ok (r =? 99)%float.

Definition same_amount (transaction t : Transaction) : bool :=
  (amount t =? amount transaction)%float.

Definition get_n_transactions_same_amount
  (transaction : Transaction) (all_transactions : list Transaction) : Z :=
  len (filter (same_amount transaction) all_transactions).

Definition get_percent_transactions_same_amount
  (transaction : Transaction) (all_transactions : list Transaction) : result float :=
  match all_transactions with
  | [] => Ok 0%float
  | _ =>
      let n_same_amount := len (filter (same_amount transaction) all_transactions) in
      Float.int_truediv n_same_amount (len all_transactions)
  end.

(** [[t for t in all_transactions if t.name == transaction.name]]. *)
Definition same_vendor (transaction : Transaction) (all_transactions : list Transaction)
  : list Transaction :=
  filter (fun t => String.eqb (name t) (name transaction)) all_transactions.

(** [[t for t in all_transactions if t.user_id == transaction.user_id]]. *)
Definition same_user (transaction : Transaction) (all_transactions : list Transaction)
  : list Transaction :=
  filter (fun t => String.eqb (user_id t) (user_id transaction)) all_transactions.

(** [[t for t in all_transactions
      if t.user_id == transaction.user_id and t.name == transaction.name]]. *)
Definition same_user_vendor (transaction : Transaction) (all_transactions : list Transaction)
  : list Transaction :=
  filter (fun t => String.eqb (user_id t) (user_id transaction)
                   && String.eqb (name t) (name transaction)) all_transactions.

(** [[t.amount for t in l]]. *)
Definition amounts_of (l : list Transaction) : list float := map amount l.

(** [[datetime.datetime.strptime(t.date, "%Y-%m-%d") for t in l]]. *)
Definition parse_dates (l : list Transaction) : result (list datetime) :=
  mapM (fun t => strptime (date t)) l.

(** [(sum((x - mean) ** 2 for x in xs) / len(xs)) ** 0.5], where [dev]
    computes [x - mean]. *)
Definition population_std {A : Type} (dev : A -> float) (xs : list A) : result float :=
  let squares := map (fun x => Float.square (dev x)) xs in
  variance <- Float.div_int (Float.sum squares) (len xs) ;;
  Ok (Float.sqrt_pow variance).

Definition get_frequency_features
  (transaction : Transaction) (all_transactions : list Transaction) : result dict :=
  let merchant_transactions := same_vendor transaction all_transactions in
  if len merchant_transactions <? 2 then
    Ok (dict_of [("frequency", VFloat 0); ("date_variability", VFloat 0);
                 ("median_frequency", VFloat 0); ("std_frequency", VFloat 0)])
  else
    parsed <- parse_dates merchant_transactions ;;
    let dates := sorted date_leb parsed in
    let date_diffs := date_diffs dates in
    avg_frequency <- Float.int_truediv (sum_Z date_diffs) (len date_diffs) ;;
    median_frequency <- list_get (sorted Z.leb date_diffs) (len date_diffs / 2) ;;
    std_frequency <-
      population_std (fun x => (Float.of_Z x - avg_frequency)%float) date_diffs ;;
    hi <- max_Z date_diffs ;;
    lo <- min_Z date_diffs ;;
    let date_variability := hi - lo in
    Ok (dict_of [("frequency", VFloat avg_frequency);
                 ("date_variability", VInt date_variability);
                 ("median_frequency", VInt median_frequency);
                 ("std_frequency", VFloat std_frequency)]).

Definition is_valid_recurring_transaction (transaction : Transaction) : result bool :=
  let vendor_name := lower (name transaction) in
  let amount := amount transaction in
  if String.eqb vendor_name "apple" then
    r <- Float.round amount ;;
    Ok (abs (amount - Float.of_Z r + 0.01) <? 0.001)%float
  else if String.eqb vendor_name "brigit" then
    Ok (Float.mem amount [9.99; 14.99]%float)
  else if String.eqb vendor_name "cleo ai" then
    Ok (Float.mem amount [3.99; 6.99]%float)
  else if String.eqb vendor_name "credit genie" then
    Ok (Float.mem amount [3.49; 4.99]%float)
  else if str_in vendor_name
            ["netflix"; "spotify"; "microsoft"; "amazon prime"; "at&t";
             "verizon"; "spectrum"; "geico"; "hugo insurance"] then
    Ok true
  else
    Ok true.

Definition get_amount_features (transaction : Transaction) : result dict :=
  r <- Float.round (amount transaction) ;;
  let is_amount_rounded := b2z (amount transaction =? Float.of_Z r)%float in
  q <- Float.floordiv (amount transaction) 10%float ;;
  amount_category <- Float.to_int q ;;
  Ok (dict_of [("is_amount_rounded", VInt is_amount_rounded);
               ("amount_category", VInt amount_category)]).

Definition get_vendor_features
  (transaction : Transaction) (all_transactions : list Transaction) : result dict :=
  let vendor_transactions := same_vendor transaction all_transactions in
  avg_amount <-
    match vendor_transactions with
    | [] => Ok 0%float
    | _ => Float.div_int (Float.sum (amounts_of vendor_transactions))
                         (len vendor_transactions)
    end ;;
  Ok (dict_of [("n_transactions_with_vendor", VInt (len vendor_transactions));
               ("avg_amount_for_vendor", VFloat avg_amount)]).

Definition get_time_features
  (transaction : Transaction) (all_transactions : list Transaction) : result dict :=
  date_obj <- strptime (date transaction) ;;
  let merchant_transactions := same_vendor transaction all_transactions in
  parsed <- parse_dates merchant_transactions ;;
  let dates := sorted date_leb parsed in
  i <- list_index date_eqb date_obj dates ;;
  days_until_next <-
    (if i <? len dates - 1 then
       j <- list_index date_eqb date_obj dates ;;
       next_transaction_date <- list_get dates (j + 1) ;;
       Ok (days_between next_transaction_date date_obj)
     else Ok 0) ;;
  Ok (dict_of [("month", VInt (month date_obj));
               ("days_until_next_transaction", VInt days_until_next)]).

(** [sum(1 for t in l if is_valid_recurring_transaction(t))]. *)
Definition count_recurring (l : list Transaction) : result Z :=
  fmap len (filterM is_valid_recurring_transaction l).

Definition get_user_recurrence_rate
  (transaction : Transaction) (all_transactions : list Transaction) : result dict :=
  let user_transactions := same_user transaction all_transactions in
  if len user_transactions <? 2 then
    Ok (dict_of [("user_recurrence_rate", VFloat 0)])
  else
    recurring_count <- count_recurring user_transactions ;;
    user_recurrence_rate <- Float.int_truediv recurring_count (len user_transactions) ;;
    Ok (dict_of [("user_recurrence_rate", VFloat user_recurrence_rate)]).

Definition get_user_specific_features
  (transaction : Transaction) (all_transactions : list Transaction) : result dict :=
  let user_transactions := same_user transaction all_transactions in
  if len user_transactions <? 2 then
    Ok (dict_of [("user_transaction_count", VFloat 0);
                 ("user_recurring_transaction_count", VFloat 0);
                 ("user_recurring_transaction_rate", VFloat 0)])
  else
    recurring_count <- count_recurring user_transactions ;;
    user_recurring_transaction_rate <-
      Float.int_truediv recurring_count (len user_transactions) ;;
    Ok (dict_of [("user_transaction_count", VInt (len user_transactions));
                 ("user_recurring_transaction_count", VInt recurring_count);
                 ("user_recurring_transaction_rate", VFloat user_recurring_transaction_rate)]).

Definition get_user_recurring_vendor_count
  (transaction : Transaction) (all_transactions : list Transaction) : result dict :=
  let user_transactions := same_user transaction all_transactions in
  recurring <- filterM is_valid_recurring_transaction user_transactions ;;
  let recurring_vendors := distinct String.eqb (map name recurring) in
  Ok (dict_of [("user_recurring_vendor_count", VInt (len recurring_vendors))]).

(** The mean gap of a group, its transactions ordered by their date
    strings: the body shared by the two transaction-frequency scorers. *)
Definition mean_gap_by_date_string (group : list Transaction) : result float :=
  let group_sorted := sorted (fun a b => String.leb (date a) (date b)) group in
  dates <- parse_dates group_sorted ;;
  let date_diffs := date_diffs dates in
  Float.int_truediv (sum_Z date_diffs) (len date_diffs).

Definition get_user_transaction_frequency
  (transaction : Transaction) (all_transactions : list Transaction) : result dict :=
  let user_transactions := same_user transaction all_transactions in
  if len user_transactions <? 2 then
    Ok (dict_of [("user_transaction_frequency", VFloat 0)])
  else
    avg_frequency <- mean_gap_by_date_string user_transactions ;;
    Ok (dict_of [("user_transaction_frequency", VFloat avg_frequency)]).

Definition get_vendor_amount_std
  (transaction : Transaction) (all_transactions : list Transaction) : result dict :=
  let vendor_transactions := same_vendor transaction all_transactions in
  if len vendor_transactions <? 2 then
    Ok (dict_of [("vendor_amount_std", VFloat 0)])
  else
    let amounts := amounts_of vendor_transactions in
    mean_amount <- Float.div_int (Float.sum amounts) (len amounts) ;;
    std_amount <- population_std (fun x => (x - mean_amount)%float) amounts ;;
    Ok (dict_of [("vendor_amount_std", VFloat std_amount)]).

Definition get_vendor_recurring_user_count
  (transaction : Transaction) (all_transactions : list Transaction) : result dict :=
  let vendor_transactions := same_vendor transaction all_transactions in
  recurring <- filterM is_valid_recurring_transaction vendor_transactions ;;
  let recurring_users := distinct String.eqb (map user_id recurring) in
  Ok (dict_of [("vendor_recurring_user_count", VInt (len recurring_users))]).

Definition get_vendor_transaction_frequency
  (transaction : Transaction) (all_transactions : list Transaction) : result dict :=
  let vendor_transactions := same_vendor transaction all_transactions in
  if len vendor_transactions <? 2 then
    Ok (dict_of [("vendor_transaction_frequency", VFloat 0)])
  else
    avg_frequency <- mean_gap_by_date_string vendor_transactions ;;
    Ok (dict_of [("vendor_transaction_frequency", VFloat avg_frequency)]).

Definition get_user_vendor_transaction_count
  (transaction : Transaction) (all_transactions : list Transaction) : dict :=
  let user_vendor_transactions := same_user_vendor transaction all_transactions in
  dict_of [("user_vendor_transaction_count", VInt (len user_vendor_transactions))].

Definition get_user_vendor_recurrence_rate
  (transaction : Transaction) (all_transactions : list Transaction) : result dict :=
  let user_vendor_transactions := same_user_vendor transaction all_transactions in
  if len user_vendor_transactions <? 1 then
    Ok (dict_of [("user_vendor_recurrence_rate", VFloat 0)])
  else
    recurring_count <- count_recurring user_vendor_transactions ;;
    recurrence_rate <- Float.int_truediv recurring_count (len user_vendor_transactions) ;;
    Ok (dict_of [("user_vendor_recurrence_rate", VFloat recurrence_rate)]).

Definition get_user_vendor_interaction_count
  (transaction : Transaction) (all_transactions : list Transaction) : dict :=
  let user_vendor_transactions := same_user_vendor transaction all_transactions in
  dict_of [("user_vendor_interaction_count", VInt (len user_vendor_transactions))].

Definition get_amount_category (transaction : Transaction) : dict :=
  let amount := amount transaction in
  if (amount <? 10)%float then dict_of [("amount_category", VInt 0)]
  else if ((10 <=? amount) && (amount <? 20))%float then dict_of [("amount_category", VInt 1)]
  else if ((20 <=? amount) && (amount <? 50))%float then dict_of [("amount_category", VInt 2)]
  else dict_of [("amount_category", VInt 3)].

Definition common_recurring_amounts : list float :=
  [5.99; 9.99; 14.99; 19.99; 29.99; 39.99; 49.99; 99.99]%float.

Definition get_amount_pattern_features
  (transaction : Transaction) (all_transactions : list Transaction) : result dict :=
  let amount := amount transaction in
  let vendor_transactions := same_vendor transaction all_transactions in
  let vendor_amounts := amounts_of vendor_transactions in
  is_common_recurring_amount <-
    (if Float.mem amount common_recurring_amounts then Ok true
     else i <- Float.to_int amount ;; Ok (0.98 <=? amount - Float.of_Z i)%float) ;;
  let is_common_for_vendor :=
    match vendor_amounts with
    | [] => false
    | _ =>
        let amount_counts := Counter vendor_amounts in
        let common_amounts := map fst (most_common 3 amount_counts) in
        Float.mem amount common_amounts
    end in
  i <- Float.to_int amount ;;
  Ok (dict_of [("is_common_recurring_amount", VInt (b2z is_common_recurring_amount));
               ("is_common_for_vendor", VInt (b2z is_common_for_vendor));
               ("amount_decimal_part", VFloat (amount - Float.of_Z i))]).

(** [len(part) / len(date_diffs) if date_diffs else 0].  The alternative
    [0] is an integer in the source; it is only taken for an empty list of
    gaps, where it feeds [(0 + 0) / 2] and [0 > 0.7], as the float zero
    does here. *)
Definition share_of_gaps (part date_diffs : list Z) : result float :=
  match date_diffs with
  | [] => Ok 0%float
  | _ => Float.int_truediv (len part) (len date_diffs)
  end.

Definition get_temporal_consistency_features
  (transaction : Transaction) (all_transactions : list Transaction) : result dict :=
  let vendor_transactions := same_vendor transaction all_transactions in
  if len vendor_transactions <? 3 then
    Ok (dict_of [("temporal_consistency_score", VFloat 0);
                 ("is_monthly_consistent", VInt 0);
                 ("is_weekly_consistent", VInt 0)])
  else
    parsed <- parse_dates vendor_transactions ;;
    let dates := sorted date_leb parsed in
    let date_diffs := date_diffs dates in
    let monthly_diffs := filter (fun diff => (28 <=? diff) && (diff <=? 31)) date_diffs in
    monthly_consistency <- share_of_gaps monthly_diffs date_diffs ;;
    let weekly_diffs := filter (fun diff => (6 <=? diff) && (diff <=? 8)) date_diffs in
    weekly_consistency <- share_of_gaps weekly_diffs date_diffs ;;
    Ok (dict_of
          [("temporal_consistency_score",
            VFloat ((monthly_consistency + weekly_consistency) / 2)%float);
           ("is_monthly_consistent", VInt (b2z (0.7 <? monthly_consistency)%float));
           ("is_weekly_consistent", VInt (b2z (0.7 <? weekly_consistency)%float))]).

Definition common_recurring_vendors : list string :=
  ["netflix"; "spotify"; "microsoft"; "amazon prime"; "at&t";
   "verizon"; "spectrum"; "geico"; "hugo insurance"].

Definition get_vendor_recurrence_profile
  (transaction : Transaction) (all_transactions : list Transaction) : result dict :=
  let vendor_name := lower (name transaction) in
  let vendor_transactions :=
    filter (fun t => String.eqb (lower (name t)) vendor_name) all_transactions in
  let total_vendor_transactions := len vendor_transactions in
  if total_vendor_transactions =? 0 then
    Ok (dict_of [("vendor_recurrence_score", VFloat 0);
                 ("vendor_recurrence_consistency", VFloat 0);
                 ("vendor_is_common_recurring", VInt 0)])
  else
    (* the loop: only the classifier can raise, the counter cannot *)
    recurring <- filterM is_valid_recurring_transaction vendor_transactions ;;
    let recurring_users := distinct String.eqb (map user_id recurring) in
    let amount_counts := Counter (amounts_of vendor_transactions) in
    amount_consistency <-
      match amount_counts with
      | [] => Ok 0%float
      | _ =>
          top <- list_get (most_common 1 amount_counts) 0 ;;
          Float.int_truediv (snd top) total_vendor_transactions
      end ;;
    vendor_recurrence_score <-
      Float.int_truediv (len recurring_users)
                        (len (distinct String.eqb (map user_id vendor_transactions))) ;;
    Ok (dict_of
          [("vendor_recurrence_score", VFloat vendor_recurrence_score);
           ("vendor_recurrence_consistency", VFloat amount_consistency);
           ("vendor_is_common_recurring",
            VInt (b2z (str_in vendor_name common_recurring_vendors)))]).

(** [max(dates)] and [min(dates)]: the first extremal element. *)
Definition max_date (dates : list datetime) : result datetime :=
  match dates with
  | [] => Err ValueError
  | d :: rest => Ok (fold_left (fun best x => if date_leb x best then best else x) rest d)
  end.

Definition min_date (dates : list datetime) : result datetime :=
  match dates with
  | [] => Err ValueError
  | d :: rest => Ok (fold_left (fun best x => if date_leb best x then best else x) rest d)
  end.

Definition get_user_vendor_relationship_features
  (transaction : Transaction) (all_transactions : list Transaction) : result dict :=
  let user_vendor_transactions := same_user_vendor transaction all_transactions in
  let user_transactions := same_user transaction all_transactions in
  match user_transactions with
  | [] => Ok (dict_of [("user_vendor_dependency", VFloat 0); ("user_vendor_tenure", VFloat 0)])
  | _ =>
      dependency <-
        Float.int_truediv (len user_vendor_transactions) (len user_transactions) ;;
      tenure <-
        match user_vendor_transactions with
        | [] => Ok 0
        | _ =>
            dates <- parse_dates user_vendor_transactions ;;
            hi <- max_date dates ;;
            lo <- min_date dates ;;
            Ok (days_between hi lo)
        end ;;
      Ok (dict_of [("user_vendor_dependency", VFloat dependency);
                   ("user_vendor_tenure", VInt tenure);
                   ("user_vendor_transaction_span", VInt tenure)])
  end.

(** ** The memoised date parser

    [@lru_cache(maxsize=1024)] keeps the results of [_parse_date] across
    calls, most recently used first.  A hit returns the stored date and
    refreshes the entry; a miss runs the body and stores its result,
    dropping the least recently used entry when the cache is full; an
    exception stores nothing. *)

Definition cache : Set := list (string * datetime).

Definition maxsize : nat := 1024.

Fixpoint cache_find (s : string) (c : cache) : option datetime :=
  match c with
  | [] => None
  | (k, d) :: c' => if String.eqb k s then Some d else cache_find s c'
  end.

Definition cache_remove (s : string) (c : cache) : cache :=
  filter (fun kd => negb (String.eqb (fst kd) s)) c.

(** A computation that reads and updates the cache and may raise. *)
Definition M (A : Type) : Type := cache -> result A * cache.

Definition ret {A : Type} (a : A) : M A := fun c => (Ok a, c).

Definition lift {A : Type} (r : result A) : M A := fun c => (r, c).

Definition bindM {A B : Type} (m : M A) (f : A -> M B) : M B :=
  fun c =>
    match m c with
    | (Ok a, c') => f a c'
    | (Err e, c') => (Err e, c')
    end.

Notation "x <~ m ;; k" := (bindM m (fun x => k))
  (at level 61, m at next level, right associativity).

Definition _parse_date (date_str : string) : M datetime :=
  fun c =>
    match cache_find date_str c with
    | Some d => (Ok d, (date_str, d) :: cache_remove date_str c)
    | None =>
        match strptime date_str with
        | Ok d => (Ok d, firstn maxsize ((date_str, d) :: c))
        | Err e => (Err e, c)
        end
    end.

(** [a % b] on integers. *)
Definition int_mod (a b : Z) : result Z :=
  if b =? 0 then Err ZeroDivisionError else Ok (a mod b).

(** The loop of [get_n_transactions_days_apart], [n_txs] being the count
    so far. *)
Fixpoint days_apart_loop
  (transaction_date : datetime) (n_days_apart n_days_off : Z)
  (all_transactions : list Transaction) (n_txs : Z) : M Z :=
  let lower_remainder := n_days_apart - n_days_off in
  let upper_remainder := n_days_off in
  match all_transactions with
  | [] => ret n_txs
  | t :: rest =>
      t_date <~ _parse_date (date t) ;;
      let days_diff := Z.abs (days_between t_date transaction_date) in
      if days_diff <? n_days_apart - n_days_off then
        days_apart_loop transaction_date n_days_apart n_days_off rest n_txs
      else
        remainder <~ lift (int_mod days_diff n_days_apart) ;;
        if (remainder <=? upper_remainder) || (remainder >=? lower_remainder) then
          days_apart_loop transaction_date n_days_apart n_days_off rest (n_txs + 1)
        else
          days_apart_loop transaction_date n_days_apart n_days_off rest n_txs
  end.

Definition get_n_transactions_days_apart
  (transaction : Transaction) (all_transactions : list Transaction)
  (n_days_apart n_days_off : Z) : M Z :=
  transaction_date <~ _parse_date (date transaction) ;;
  days_apart_loop transaction_date n_days_apart n_days_off all_transactions 0.

Definition get_pct_transactions_days_apart
  (transaction : Transaction) (all_transactions : list Transaction)
  (n_days_apart n_days_off : Z) : M float :=
  n <~ get_n_transactions_days_apart transaction all_transactions n_days_apart n_days_off ;;
  lift (Float.int_truediv n (len all_transactions)).

(** ** The assembler *)

(** A dictionary display [{**d1, "k": v, **d2, ...}]: the items are
    evaluated from left to right, each merged over what is already there;
    the first exception ends the evaluation. *)
Fixpoint dict_display (items : list (M dict)) (acc : dict) : M dict :=
  match items with
  | [] => ret acc
  | item :: rest => d <~ item ;; dict_display rest (dict_update acc d)
  end.

(** The item [**d]. *)
Definition splat (d : result dict) : M dict := lift d.

(** The item ["k": v]. *)
Definition entry (k : string) (v : M value) : M dict :=
  x <~ v ;; ret [(k, x)].

Definition int_ (n : result Z) : M value := lift (fmap VInt n).
Definition float_ (x : result float) : M value := lift (fmap VFloat x).
Definition bool_ (b : result bool) : M value := lift (fmap VBool b).
Definition intM (n : M Z) : M value := x <~ n ;; ret (VInt x).
Definition floatM (x : M float) : M value := y <~ x ;; ret (VFloat y).

Definition get_features
  (transaction : Transaction) (all_transactions : list Transaction) : M dict :=
  dict_display
    [ splat (get_user_recurring_vendor_count transaction all_transactions);
      splat (get_user_transaction_frequency transaction all_transactions);
      splat (get_vendor_amount_std transaction all_transactions);
      splat (get_vendor_recurring_user_count transaction all_transactions);
      splat (get_vendor_transaction_frequency transaction all_transactions);
      splat (Ok (get_user_vendor_transaction_count transaction all_transactions));
      splat (get_user_vendor_recurrence_rate transaction all_transactions);
      splat (Ok (get_user_vendor_interaction_count transaction all_transactions));
      splat (Ok (get_amount_category transaction));
      splat (get_amount_pattern_features transaction all_transactions);
      splat (get_temporal_consistency_features transaction all_transactions);
      splat (get_vendor_recurrence_profile transaction all_transactions);
      splat (get_user_vendor_relationship_features transaction all_transactions);
      (* Existing features *)
      entry "n_transactions_same_amount"
        (int_ (Ok (get_n_transactions_same_amount transaction all_transactions)));
      entry "percent_transactions_same_amount"
        (float_ (get_percent_transactions_same_amount transaction all_transactions));
      splat (get_frequency_features transaction all_transactions);
      splat (get_amount_features transaction);
      splat (get_vendor_features transaction all_transactions);
      splat (get_time_features transaction all_transactions);
      splat (get_user_recurrence_rate transaction all_transactions);
      entry "is_recurring" (bool_ (is_valid_recurring_transaction transaction));
      splat (get_user_specific_features transaction all_transactions);
      entry "ends_in_99" (bool_ (get_ends_in_99 transaction));
      entry "amount" (float_ (Ok (amount transaction)));
      entry "same_day_exact"
        (int_ (get_n_transactions_same_day transaction all_transactions 0));
      entry "pct_transactions_same_day"
        (float_ (get_pct_transactions_same_day transaction all_transactions 0));
      entry "same_day_off_by_1"
        (int_ (get_n_transactions_same_day transaction all_transactions 1));
      entry "same_day_off_by_2"
        (int_ (get_n_transactions_same_day transaction all_transactions 2));
      entry "14_days_apart_exact"
        (intM (get_n_transactions_days_apart transaction all_transactions 14 0));
      entry "pct_14_days_apart_exact"
        (floatM (get_pct_transactions_days_apart transaction all_transactions 14 0));
      entry "14_days_apart_off_by_1"
        (intM (get_n_transactions_days_apart transaction all_transactions 14 1));
      entry "pct_14_days_apart_off_by_1"
        (floatM (get_pct_transactions_days_apart transaction all_transactions 14 1));
      entry "7_days_apart_exact"
        (intM (get_n_transactions_days_apart transaction all_transactions 7 0));
      entry "pct_7_days_apart_exact"
        (floatM (get_pct_transactions_days_apart transaction all_transactions 7 0));
      entry "7_days_apart_off_by_1"
        (intM (get_n_transactions_days_apart transaction all_transactions 7 1));
      entry "pct_7_days_apart_off_by_1"
        (floatM (get_pct_transactions_days_apart transaction all_transactions 7 1));
      entry "is_insurance" (bool_ (Ok (get_is_insurance transaction)));
      entry "is_utility" (bool_ (Ok (get_is_utility transaction)));
      entry "is_phone" (bool_ (Ok (get_is_phone transaction)));
      entry "is_always_recurring" (bool_ (Ok (get_is_always_recurring transaction))) ]
    [].

(** ** Sample transactions *)

Definition netflix : Transaction := mkTransaction 1 "u1" "Netflix" "2024-03-01" 15.99.

(** The same charge as [netflix], made by another user. *)
Definition netflix_other_user : Transaction :=
  mkTransaction 4 "u2" "Netflix" "2024-03-01" 15.99.

Definition brigit_999 : Transaction := mkTransaction 2 "u1" "Brigit" "2024-03-01" 9.99.

(** [spotify d] is a Spotify charge of user u1 on the day [d]. *)
Definition spotify (d : string) : Transaction := mkTransaction 3 "u1" "Spotify" d 9.99.

(** A charge of 35 units, between the thresholds 20 and 50. *)
Definition netflix_35 : Transaction := mkTransaction 5 "u1" "Netflix" "2024-03-01" 35.

(** A charge of 19.99. *)
Definition netflix_1999 : Transaction := mkTransaction 6 "u1" "Netflix" "2024-03-01" 19.99.

(** ** Vocabulary of the statements *)

(** The outcome of two runs agrees up to the count, which may grow:
    same exception, or two counts in order; the cache ends the same. *)
Definition count_le (r1 r2 : result Z * cache) : Prop :=
  match r1, r2 with
  | (Ok a, c1), (Ok b, c2) => a <= b /\ c1 = c2
  | (Err e1, c1), (Err e2, c2) => e1 = e2 /\ c1 = c2
  | _, _ => False
  end.

(** A cache is coherent when each entry holds what the parser returns
    for its key.  The empty cache is, and [_parse_date], the only writer,
    keeps it so. *)
Definition cache_ok (c : cache) : Prop :=
  forall s d, In (s, d) c -> strptime s = Ok d.

(** A computation whose outcome is the same from every coherent cache,
    and which leaves a coherent cache. *)
Definition cache_independent {A : Type} (m : M A) : Prop :=
  exists r, forall c, cache_ok c -> fst (m c) = r /\ cache_ok (snd (m c)).

(** No transaction of the history carries both the vendor name of the
    target and its calendar date. *)
Definition no_same_vendor_and_date (t : Transaction) (all_transactions : list Transaction)
  : Prop :=
  forall t' d, In t' all_transactions -> name t' = name t ->
               strptime (date t') = Ok d -> strptime (date t) <> Ok d.

(** [m] ends with an exception, whatever the cache. *)
Definition raises {A : Type} (m : M A) : Prop :=
  forall c, exists e, fst (m c) = Err e.

(** Follows the spec's words: the lower-middle element of a sorted list,
    the one [statistics.median_low] selects. *)
Definition lower_middle (s : list Z) : option Z :=
  nth_error s ((List.length s - 1) / 2)%nat.

(** The ordinal of a date that [strptime] accepts. *)
Definition ordinal_in_range (d : datetime) : Prop := 0 <= toordinal d <= 4000000.

(** The day gaps between consecutive transactions of the target's vendor,
    their dates in ascending order. *)
Definition vendor_gaps (t : Transaction) (all_transactions : list Transaction)
  : result (list Z) :=
  fmap (fun parsed => date_diffs (sorted date_leb parsed))
       (parse_dates (same_vendor t all_transactions)).

(** A gap of 28 to 31 days, and a gap of 6 to 8 days. *)
Definition monthly_gap (diff : Z) : bool := (28 <=? diff) && (diff <=? 31).
Definition weekly_gap (diff : Z) : bool := (6 <=? diff) && (diff <=? 8).

(** The fraction of the gaps that satisfy [p], as the source computes it:
    the quotient of two lengths, rounded to a float. *)
Definition fraction_of_gaps (p : Z -> bool) (gaps : list Z) : result float :=
  Float.int_truediv (len (filter p gaps)) (len gaps).

(** [k / n > 0.7] in floating point, against the exact comparison of
    [10 k] with [7 n], for every [k <= n] up to [bound] gaps. *)
Definition exceeds_07_exact (bound : nat) : bool :=
  forallb (fun n =>
             forallb (fun k =>
                        match Float.int_truediv (Z.of_nat k) (Z.of_nat n) with
                        | Ok x => Bool.eqb (0.7 <? x)%float (7 * Z.of_nat n <? 10 * Z.of_nat k)
                        | Err _ => false
                        end) (seq 0 (S n)))
          (seq 1 bound).

(** Follows the spec's words: the check [round(amount * 100) mod 100 == 99]. *)
Definition ends_in_99_rounded (transaction : Transaction) : result bool :=
  cents <- Float.round (amount transaction * 100)%float ;;
  Ok (cents mod 100 =? 99).

(** The features of [t] over [history], computed in a fresh process. *)
Definition features_of (t : Transaction) (history : list Transaction) : result dict :=
  fst (get_features t history []).

(** The item [item] of a display evaluated to the dictionary [d]. *)
Definition produces (item : M dict) (d : dict) : Prop :=
  exists c c', item c = (Ok d, c').

(** The keys of [{**d, **e}] from those of [d] and [e]: a new key goes
    last, a known key keeps its place. *)
Definition merge_keys (ks new : list string) : list string :=
  fold_left (fun acc k => if str_in k acc then acc else acc ++ [k]) new ks.

(** Whether the user of the target has a transaction in the history. *)
Definition user_is_known (t : Transaction) (all_transactions : list Transaction) : bool :=
  match same_user t all_transactions with
  | [] => false
  | _ => true
  end.

(** The keys of the mapping that [get_features] returns, in the order
    of their first insertion.  [user_vendor_transaction_span] is there
    only for a known user. *)
Definition feature_keys (known_user : bool) : list string :=
  ["user_recurring_vendor_count"; "user_transaction_frequency"; "vendor_amount_std";
   "vendor_recurring_user_count"; "vendor_transaction_frequency";
   "user_vendor_transaction_count"; "user_vendor_recurrence_rate";
   "user_vendor_interaction_count"; "amount_category";
   "is_common_recurring_amount"; "is_common_for_vendor"; "amount_decimal_part";
   "temporal_consistency_score"; "is_monthly_consistent"; "is_weekly_consistent";
   "vendor_recurrence_score"; "vendor_recurrence_consistency";
   "vendor_is_common_recurring"; "user_vendor_dependency"; "user_vendor_tenure"]
  ++ (if known_user then ["user_vendor_transaction_span"] else [])
  ++ ["n_transactions_same_amount"; "percent_transactions_same_amount";
      "frequency"; "date_variability"; "median_frequency"; "std_frequency";
      "is_amount_rounded"; "n_transactions_with_vendor"; "avg_amount_for_vendor";
      "month"; "days_until_next_transaction"; "user_recurrence_rate"; "is_recurring";
      "user_transaction_count"; "user_recurring_transaction_count";
      "user_recurring_transaction_rate"; "ends_in_99"; "amount"; "same_day_exact";
      "pct_transactions_same_day"; "same_day_off_by_1"; "same_day_off_by_2";
      "14_days_apart_exact"; "pct_14_days_apart_exact"; "14_days_apart_off_by_1";
      "pct_14_days_apart_off_by_1"; "7_days_apart_exact"; "pct_7_days_apart_exact";
      "7_days_apart_off_by_1"; "pct_7_days_apart_off_by_1"; "is_insurance";
      "is_utility"; "is_phone"; "is_always_recurring"].

(** [int(transaction.amount // 10)], the bucket of [get_amount_features]. *)
Definition floor_bucket (t : Transaction) : result Z :=
  q <- Float.floordiv (amount t) 10%float ;; Float.to_int q.

(** ** Vocabulary of the further properties *)

(** The distance in days between a candidate's date and the target's. *)
Definition days_from (target d : datetime) : Z := Z.abs (days_between d target).

(** The test that the loop of [get_n_transactions_days_apart] applies to
    one distance: too close is rejected before the remainder is taken. *)
Definition near (n_days_apart n_days_off days_diff : Z) : result bool :=
  if days_diff <? n_days_apart - n_days_off then Ok false
  else
    remainder <- int_mod days_diff n_days_apart ;;
    Ok ((remainder <=? n_days_off) || (remainder >=? n_days_apart - n_days_off)).

(** The number of dates that pass the test, from left to right. *)
Definition count_near (target : datetime) (n_days_apart n_days_off : Z)
  (dates : list datetime) : result Z :=
  fmap len (filterM (fun d => near n_days_apart n_days_off (days_from target d)) dates).

(** The test of the loop for a non-zero interval. *)
Definition is_near (n_days_apart n_days_off days_diff : Z) : bool :=
  negb (days_diff <? n_days_apart - n_days_off)
  && ((days_diff mod n_days_apart <=? n_days_off)
      || (days_diff mod n_days_apart >=? n_days_apart - n_days_off)).

(** Two outcomes in order: the same exception, or two integers in order. *)
Definition result_le (r1 r2 : result Z) : Prop :=
  match r1, r2 with
  | Ok a, Ok b => a <= b
  | Err e1, Err e2 => e1 = e2
  | _, _ => False
  end.

(** Two tests in order: the same exception, or the first answer implies
    the second. *)
Definition test_le (r1 r2 : result bool) : Prop :=
  match r1, r2 with
  | Ok a, Ok b => a = true -> b = true
  | Err e1, Err e2 => e1 = e2
  | _, _ => False
  end.

(** A day of the calendar: what [strptime] returns. *)
Definition valid_date (d : datetime) : Prop :=
  1 <= year d /\ 1 <= month d <= 12 /\ 1 <= day d <= days_in_month (year d) (month d).

(** The cache holds at most [maxsize] entries, under distinct keys. *)
Definition cache_bounded (c : cache) : Prop :=
  (List.length c <= maxsize)%nat /\ NoDup (map fst c).

(** A computation that keeps an invariant of the cache. *)
Definition preserves (P : cache -> Prop) {A : Type} (m : M A) : Prop :=
  forall c, P c -> P (snd (m c)).

(** The item [item] of a display evaluates to the dictionary [d] from
    every coherent cache. *)
Definition yields (item : M dict) (d : dict) : Prop :=
  forall c, cache_ok c -> fst (item c) = Ok d.

(** A name written as one word: every character is a word character. *)
Fixpoint all_word (s : string) : bool :=
  match s with
  | EmptyString => true
  | String c s' => is_word c && all_word s'
  end.

(** The last character of a string. *)
Fixpoint last_char (s : string) : option ascii :=
  match s with
  | EmptyString => None
  | String c EmptyString => Some c
  | String _ s' => last_char s'
  end.

Definition nonempty (s : string) : bool :=
  match s with
  | EmptyString => false
  | String _ _ => true
  end.

(** A float that is neither NaN nor infinite. *)
Definition finite (x : float) : bool :=
  match Prim2SF x with
  | S754_nan | S754_infinity _ => false
  | _ => true
  end.

(** A transaction that [is_valid_recurring_transaction] can classify: the
    Apple rule rounds the amount, which must then be finite. *)
Definition classifiable (u : Transaction) : Prop :=
  lower (name u) = "apple" -> finite (amount u) = true.

(** The answer of [is_valid_recurring_transaction] where it returns. *)
Definition recurring (u : Transaction) : bool :=
  match is_valid_recurring_transaction u with
  | Ok b => b
  | Err _ => false
  end.

(** [[t for t in all_transactions if t.name.lower() == vendor_name]]. *)
Definition same_vendor_ignoring_case
  (transaction : Transaction) (all_transactions : list Transaction) : list Transaction :=
  filter (fun t => String.eqb (lower (name t)) (lower (name transaction))) all_transactions.

(** * Properties *)

(** ** The error monad and the cache monad *)

Lemma bind_ok {A B : Type} (r : result A) (f : A -> result B) (b : B) :
  bind r f = Ok b -> exists a, r = Ok a /\ f a = Ok b.
Proof.
  destruct r as [a | e]; simpl; intros E; [eauto | discriminate].
Qed.

Lemma fmap_ok {A B : Type} (f : A -> B) (r : result A) (b : B) :
  fmap f r = Ok b -> exists a, r = Ok a /\ b = f a.
Proof.
  unfold fmap. intros E. apply bind_ok in E as (a & -> & [= <-]). eauto.
Qed.

(** A failing item makes the whole display fail. *)
Lemma dict_display_raises (items : list (M dict)) (item : M dict) :
  In item items ->
  (forall c, exists e, fst (item c) = Err e) ->
  forall acc c, exists e, fst (dict_display items acc c) = Err e.
Proof.
  intros Hin Hfail.
  induction items as [| first rest IH]; [contradiction |].
  intros acc c. simpl. unfold bindM.
  destruct Hin as [-> | Hin].
  - destruct (Hfail c) as (e & He).
    destruct (item c) as [[d | e'] c']; simpl in He; [discriminate |].
    exists e'. reflexivity.
  - destruct (first c) as [[d | e'] c'].
    + apply IH; assumption.
    + exists e'. reflexivity.
Qed.

(** ** The recurrence classifier *)

(** C4: a vendor whose lower-cased name is none of apple, brigit, cleo ai
    and credit genie is always classified as recurring; for brigit the
    classifier never raises and answers true exactly when the amount
    equals 9.99 or 14.99. *)
Theorem is_valid_recurring_transaction_default_and_brigit (t : Transaction) :
  (lower (name t) <> "apple" -> lower (name t) <> "brigit" ->
   lower (name t) <> "cleo ai" -> lower (name t) <> "credit genie" ->
   is_valid_recurring_transaction t = Ok true)
  /\ (lower (name t) = "brigit" ->
      is_valid_recurring_transaction t
      = Ok ((amount t =? 9.99)%float || (amount t =? 14.99)%float)).
Proof.
  unfold is_valid_recurring_transaction. split.
  - intros Ha Hb Hc Hg.
    apply String.eqb_neq in Ha, Hb, Hc, Hg.
    rewrite Ha, Hb, Hc, Hg.
    destruct (str_in _ _); reflexivity.
  - intros ->. simpl. rewrite orb_false_r. reflexivity.
Qed.

Lemma is_valid_recurring_transaction_default_and_brigit_witness :
  is_valid_recurring_transaction netflix = Ok true
  /\ is_valid_recurring_transaction brigit_999 = Ok true.
Proof.
  split.
  - apply (proj1 (is_valid_recurring_transaction_default_and_brigit netflix));
      vm_compute; discriminate.
  - apply (proj2 (is_valid_recurring_transaction_default_and_brigit brigit_999)).
    reflexivity.
Defined.

(** ** The periodicity matcher *)

Lemma days_apart_loop_monotone
  (d : datetime) (n off1 off2 : Z) (all_transactions : list Transaction) :
  0 < n -> off1 <= off2 ->
  forall k1 k2 c, k1 <= k2 ->
    count_le (days_apart_loop d n off1 all_transactions k1 c)
             (days_apart_loop d n off2 all_transactions k2 c).
Proof.
  intros Hn Hoff.
  induction all_transactions as [| t rest IH]; intros k1 k2 c Hk.
  - simpl. unfold ret. split; [assumption | reflexivity].
  - simpl. unfold bindM at 1 3.
    destruct (_parse_date (date t) c) as [[t_date | e] c'];
      [| split; reflexivity].
    set (days_diff := Z.abs (days_between t_date d)).
    assert (Hmod : int_mod days_diff n = Ok (days_diff mod n)).
    { unfold int_mod. replace (n =? 0) with false; [reflexivity |].
      symmetry. apply Z.eqb_neq. lia. }
    unfold bindM, lift. rewrite Hmod.
    destruct (days_diff <? n - off1) eqn:S1;
      destruct (days_diff <? n - off2) eqn:S2.
    + apply IH; assumption.
    + destruct ((days_diff mod n <=? off2) || (days_diff mod n >=? n - off2));
        apply IH; lia.
    + apply Z.ltb_ge in S1. apply Z.ltb_lt in S2. lia.
    + destruct ((days_diff mod n <=? off1) || (days_diff mod n >=? n - off1)) eqn:A1;
        destruct ((days_diff mod n <=? off2) || (days_diff mod n >=? n - off2)) eqn:A2;
        apply IH; lia.
Qed.

(** C6: for a positive interval, widening the tolerance never lowers the
    count of [get_n_transactions_days_apart]: from the same cache, the
    two calls raise the same exception or return counts in order. *)
Theorem get_n_transactions_days_apart_monotone
  (transaction : Transaction) (all_transactions : list Transaction)
  (intervalDays tol1 tol2 : Z) (c : cache) :
  0 < intervalDays -> tol1 <= tol2 ->
  count_le (get_n_transactions_days_apart transaction all_transactions intervalDays tol1 c)
           (get_n_transactions_days_apart transaction all_transactions intervalDays tol2 c).
Proof.
  intros Hn Htol. unfold get_n_transactions_days_apart, bindM.
  destruct (_parse_date (date transaction) c) as [[d | e] c'].
  - apply days_apart_loop_monotone; lia.
  - split; reflexivity.
Qed.

Lemma get_n_transactions_days_apart_monotone_witness :
  0 < 7 /\ 0 <= 1
  /\ count_le
       (get_n_transactions_days_apart (spotify "2024-01-01")
          [spotify "2024-01-01"; spotify "2024-01-09"] 7 0 [])
       (get_n_transactions_days_apart (spotify "2024-01-01")
          [spotify "2024-01-01"; spotify "2024-01-09"] 7 1 []).
Proof.
  split; [lia | split; [lia |]].
  apply get_n_transactions_days_apart_monotone; lia.
Defined.

(** ** The memoisation cache *)

Lemma cache_ok_empty : cache_ok [].
Proof. intros s d []. Qed.

Lemma cache_find_in (s : string) (c : cache) (d : datetime) :
  cache_find s c = Some d -> In (s, d) c.
Proof.
  induction c as [| [k v] c IH]; simpl; [discriminate |].
  destruct (String.eqb k s) eqn:E.
  - apply String.eqb_eq in E. intros [= ->]. left. congruence.
  - intros F. right. auto.
Qed.

Lemma firstn_incl {A : Type} (n : nat) (l : list A) (x : A) :
  In x (firstn n l) -> In x l.
Proof.
  intros Hin. rewrite <- (firstn_skipn n l). apply in_or_app. left. assumption.
Qed.

Lemma _parse_date_coherent (s : string) (c : cache) :
  cache_ok c ->
  fst (_parse_date s c) = strptime s /\ cache_ok (snd (_parse_date s c)).
Proof.
  intros Hc. unfold _parse_date.
  destruct (cache_find s c) as [d |] eqn:F.
  - apply cache_find_in in F. cbn [fst snd]. split.
    + symmetry. apply Hc. assumption.
    + intros k v [[= <- <-] | Hin]; [apply Hc; assumption |].
      apply filter_In in Hin. apply Hc, Hin.
  - destruct (strptime s) as [d | e] eqn:P; cbn [fst snd].
    + split; [reflexivity |].
      intros k v Hin. apply firstn_incl in Hin.
      destruct Hin as [[= <- <-] | Hin]; [assumption | apply Hc; assumption].
    + split; [reflexivity | assumption].
Qed.

Lemma cache_independent_ret {A : Type} (a : A) : cache_independent (ret a).
Proof. exists (Ok a). intros c Hc. split; [reflexivity | assumption]. Qed.

Lemma cache_independent_lift {A : Type} (r : result A) : cache_independent (lift r).
Proof. exists r. intros c Hc. split; [reflexivity | assumption]. Qed.

Lemma cache_independent_parse (s : string) : cache_independent (_parse_date s).
Proof. exists (strptime s). intros c Hc. apply _parse_date_coherent, Hc. Qed.

Lemma cache_independent_bind {A B : Type} (m : M A) (f : A -> M B) :
  cache_independent m ->
  (forall a, cache_independent (f a)) ->
  cache_independent (bindM m f).
Proof.
  intros [r Hm] Hf. destruct r as [a | e].
  - destruct (Hf a) as [rb Hb]. exists rb. intros c Hc.
    unfold bindM. destruct (Hm c Hc) as [E Hc'].
    destruct (m c) as [ra c']. simpl in E, Hc'. subst ra.
    apply Hb, Hc'.
  - exists (Err e). intros c Hc.
    unfold bindM. destruct (Hm c Hc) as [E Hc'].
    destruct (m c) as [ra c']. simpl in E, Hc'. subst ra.
    split; [reflexivity | assumption].
Qed.

Lemma cache_independent_loop
  (d : datetime) (n off : Z) (all_transactions : list Transaction) (k : Z) :
  cache_independent (days_apart_loop d n off all_transactions k).
Proof.
  revert k. induction all_transactions as [| t rest IH]; intros k; simpl.
  - apply cache_independent_ret.
  - apply cache_independent_bind; [apply cache_independent_parse |].
    intros t_date.
    destruct (Z.abs (days_between t_date d) <? n - off); [apply IH |].
    apply cache_independent_bind; [apply cache_independent_lift |].
    intros r. destruct ((r <=? off) || (r >=? n - off)); apply IH.
Qed.

Lemma cache_independent_count
  (t : Transaction) (all_transactions : list Transaction) (n off : Z) :
  cache_independent (get_n_transactions_days_apart t all_transactions n off).
Proof.
  apply cache_independent_bind; [apply cache_independent_parse |].
  intros d. apply cache_independent_loop.
Qed.

Lemma cache_independent_pct
  (t : Transaction) (all_transactions : list Transaction) (n off : Z) :
  cache_independent (get_pct_transactions_days_apart t all_transactions n off).
Proof.
  apply cache_independent_bind; [apply cache_independent_count |].
  intros k. apply cache_independent_lift.
Qed.

Lemma cache_independent_entry (k : string) (v : M value) :
  cache_independent v -> cache_independent (entry k v).
Proof.
  intros Hv. apply cache_independent_bind; [assumption |].
  intros x. apply cache_independent_ret.
Qed.

Lemma cache_independent_display (items : list (M dict)) :
  Forall cache_independent items ->
  forall acc, cache_independent (dict_display items acc).
Proof.
  induction 1 as [| item rest Hitem _ IH]; intros acc; simpl.
  - apply cache_independent_ret.
  - apply cache_independent_bind; [assumption |]. intros d. apply IH.
Qed.

Create HintDb cache.

#[local] Hint Resolve cache_independent_lift cache_independent_ret
  cache_independent_count cache_independent_pct cache_independent_entry
  cache_independent_bind : cache.

Lemma cache_independent_get_features (t : Transaction) (all_transactions : list Transaction) :
  cache_independent (get_features t all_transactions).
Proof.
  apply cache_independent_display.
  unfold splat, int_, float_, bool_, intM, floatM.
  repeat (apply Forall_cons; [auto 6 with cache |]).
  apply Forall_nil.
Qed.

(** C9: [get_features] is deterministic and the memoisation cache never
    changes a result.  Run from a coherent cache, a call leaves a coherent
    cache, and a second call run on the cache the first one left returns
    the same outcome, mapping or exception.  The history is an immutable
    value of the embedding: no statement of the source assigns to it or
    to its elements. *)
Theorem get_features_idempotent
  (t : Transaction) (all_transactions : list Transaction) (c : cache) :
  cache_ok c ->
  let first := get_features t all_transactions c in
  let second := get_features t all_transactions (snd first) in
  fst second = fst first /\ cache_ok (snd first) /\ cache_ok (snd second).
Proof.
  intros Hc first second.
  destruct (cache_independent_get_features t all_transactions) as [r Hr].
  destruct (Hr c Hc) as [E1 Hc1]. fold first in E1, Hc1.
  destruct (Hr (snd first) Hc1) as [E2 Hc2]. fold second in E2, Hc2.
  split; [congruence | split; assumption].
Qed.

Lemma get_features_idempotent_witness :
  cache_ok []
  /\ fst (get_features netflix [netflix] (snd (get_features netflix [netflix] [])))
     = fst (get_features netflix [netflix] []).
Proof.
  split; [exact cache_ok_empty |].
  apply (get_features_idempotent netflix [netflix] []). exact cache_ok_empty.
Defined.

(** ** Sorting *)

Section SortingFacts.
Context {A : Type} (leb : A -> A -> bool).

Lemma insert_sorted_perm (x : A) (l : list A) :
  Permutation (insert_sorted leb x l) (x :: l).
Proof.
  induction l as [| y l IH]; simpl; [reflexivity |].
  destruct (leb x y); [reflexivity |].
  rewrite IH. apply perm_swap.
Qed.

Lemma sorted_perm (l : list A) : Permutation (sorted leb l) l.
Proof.
  induction l as [| x l IH]; simpl; [reflexivity |].
  rewrite insert_sorted_perm. apply perm_skip, IH.
Qed.

Lemma sorted_length (l : list A) : List.length (sorted leb l) = List.length l.
Proof. apply Permutation_length, sorted_perm. Qed.

Lemma sorted_in (l : list A) (x : A) : In x (sorted leb l) -> In x l.
Proof. apply Permutation_in, sorted_perm. Qed.

Lemma sorted_Forall (P : A -> Prop) (l : list A) :
  Forall P l -> Forall P (sorted leb l).
Proof.
  intros H. apply Permutation_Forall with (1 := Permutation_sym (sorted_perm l)).
  assumption.
Qed.
End SortingFacts.

(** ** Dates *)

Lemma date_eqb_eq (a b : datetime) : date_eqb a b = true -> a = b.
Proof.
  destruct a as [ya ma da], b as [yb mb db]. unfold date_eqb. simpl.
  intros H. apply andb_prop in H as [H Hd]. apply andb_prop in H as [Hy Hm].
  apply Z.eqb_eq in Hy, Hm, Hd. congruence.
Qed.

Lemma strptime_error (s : string) (e : exn) : strptime s = Err e -> e = ValueError.
Proof.
  unfold strptime.
  destruct (match_ymd s) as [[[y m] d] |]; [| congruence].
  destruct ((1 <=? y) && (d <=? days_in_month y m)); congruence.
Qed.

Lemma parse_dates_error (l : list Transaction) (e : exn) :
  parse_dates l = Err e -> e = ValueError.
Proof.
  unfold parse_dates. induction l as [| t l IH]; simpl; [discriminate |].
  destruct (strptime (date t)) as [d |] eqn:P; simpl.
  - destruct (mapM _ l); simpl; [discriminate |]. intros [= <-]. apply IH. reflexivity.
  - intros [= <-]. apply strptime_error in P. assumption.
Qed.

Lemma parse_dates_in (l : list Transaction) (ds : list datetime) :
  parse_dates l = Ok ds ->
  forall d, In d ds -> exists t, In t l /\ strptime (date t) = Ok d.
Proof.
  unfold parse_dates. revert ds. induction l as [| t l IH]; simpl; intros ds.
  - intros [= <-] d [].
  - intros E. apply bind_ok in E as (d0 & P & E).
    apply bind_ok in E as (ds0 & Q & [= <-]).
    intros d [<- | Hin]; [eauto |].
    destruct (IH ds0 Q d Hin) as (t' & Ht' & Pt'). eauto.
Qed.

Lemma parse_dates_length (l : list Transaction) (ds : list datetime) :
  parse_dates l = Ok ds -> List.length ds = List.length l.
Proof.
  unfold parse_dates. revert ds. induction l as [| t l IH]; simpl; intros ds.
  - intros [= <-]. reflexivity.
  - intros E. apply bind_ok in E as (d0 & P & E).
    apply bind_ok in E as (ds0 & Q & [= <-]). simpl. f_equal. auto.
Qed.

Lemma list_index_absent {A : Type} (eqb : A -> A -> bool) (x : A) (l : list A) :
  (forall y, In y l -> eqb y x = false) -> list_index eqb x l = Err ValueError.
Proof.
  induction l as [| y l IH]; simpl; intros H; [reflexivity |].
  rewrite (H y) by (left; reflexivity).
  rewrite IH; [reflexivity |]. intros z Hz. apply H. right. assumption.
Qed.

(** ** Time features and totality of the assembler *)

Lemma target_date_not_listed
  (t : Transaction) (all_transactions : list Transaction)
  (date_obj : datetime) (parsed : list datetime) :
  no_same_vendor_and_date t all_transactions ->
  strptime (date t) = Ok date_obj ->
  parse_dates (same_vendor t all_transactions) = Ok parsed ->
  list_index date_eqb date_obj (sorted date_leb parsed) = Err ValueError.
Proof.
  intros Hno P Q. apply list_index_absent.
  intros y Hy. destruct (date_eqb y date_obj) eqn:E; [| reflexivity].
  apply date_eqb_eq in E. subst y. apply sorted_in in Hy.
  destruct (parse_dates_in _ _ Q _ Hy) as (t' & Ht' & Pt').
  apply filter_In in Ht' as [Hin Hname]. apply String.eqb_eq in Hname.
  exfalso. apply (Hno t' date_obj); assumption.
Qed.

Lemma get_time_features_raises (t : Transaction) (all_transactions : list Transaction) :
  no_same_vendor_and_date t all_transactions ->
  get_time_features t all_transactions = Err ValueError.
Proof.
  intros Hno. unfold get_time_features.
  destruct (strptime (date t)) as [date_obj | e] eqn:P; simpl;
    [| apply strptime_error in P; congruence].
  destruct (parse_dates (same_vendor t all_transactions)) as [parsed | e] eqn:Q; simpl;
    [| apply parse_dates_error in Q; congruence].
  rewrite (target_date_not_listed _ _ _ _ Hno P Q). reflexivity.
Qed.

Lemma get_features_needs_time_features
  (t : Transaction) (all_transactions : list Transaction) (e0 : exn) :
  get_time_features t all_transactions = Err e0 ->
  raises (get_features t all_transactions).
Proof.
  intros Htime c.
  apply dict_display_raises with (item := splat (get_time_features t all_transactions)).
  - do 18 right. left. reflexivity.
  - intros c'. exists e0. rewrite Htime. reflexivity.
Qed.

(** C10, amended: [get_features] is partial.  When no transaction of the
    history has both the vendor name and the calendar date of the target,
    [get_time_features] raises [ValueError]: with well-formed dates
    [list.index] looks for the target's date in a list that does not hold
    it.  [get_features] then raises instead of returning a mapping. *)
Theorem get_features_partial (t : Transaction) (all_transactions : list Transaction) :
  no_same_vendor_and_date t all_transactions ->
  get_time_features t all_transactions = Err ValueError
  /\ (forall date_obj parsed,
        strptime (date t) = Ok date_obj ->
        parse_dates (same_vendor t all_transactions) = Ok parsed ->
        list_index date_eqb date_obj (sorted date_leb parsed) = Err ValueError)
  /\ raises (get_features t all_transactions).
Proof.
  intros Hno. pose proof (get_time_features_raises t all_transactions Hno) as Htime.
  split; [assumption | split].
  - intros date_obj parsed. apply target_date_not_listed. assumption.
  - apply get_features_needs_time_features with (e0 := ValueError). assumption.
Qed.

Lemma get_features_partial_witness :
  no_same_vendor_and_date netflix [brigit_999]
  /\ get_time_features netflix [brigit_999] = Err ValueError
  /\ raises (get_features netflix [brigit_999]).
Proof.
  assert (Hno : no_same_vendor_and_date netflix [brigit_999]).
  { intros t' d [<- | []] Hname. discriminate Hname. }
  destruct (get_features_partial netflix [brigit_999] Hno) as (Htime & _ & Hraises).
  split; [exact Hno | split; assumption].
Defined.

(** C10, as stated, fails on its clause about targets outside the
    history: the charge [netflix] of user u1 is not a member of the history
    [[netflix_other_user]], which holds the same charge made by user u2,
    and [get_features] returns a mapping for it. *)
Lemma get_features_partial_counterexample :
  ~ In netflix [netflix_other_user]
  /\ is_ok (fst (get_features netflix [netflix_other_user] [])) = true.
Proof.
  split.
  - intros [E | []]. discriminate E.
  - vm_compute. reflexivity.
Qed.

(** ** Percentages over an empty history *)

Lemma no_same_vendor_and_date_nil (t : Transaction) : no_same_vendor_and_date t [].
Proof. intros t' d []. Qed.

(** C1: over an empty history only [get_percent_transactions_same_amount]
    returns [0.0].  [get_pct_transactions_same_day] divides by the length
    of the empty list and raises [ZeroDivisionError]; so does
    [get_pct_transactions_days_apart] once the target's date is parsed
    (a malformed date raises before); and [get_features] raises too. *)
Theorem pct_features_on_empty_history (t : Transaction) (n off : Z) (c : cache) :
  get_percent_transactions_same_amount t [] = Ok 0%float
  /\ get_pct_transactions_same_day t [] off = Err ZeroDivisionError
  /\ fst (get_pct_transactions_days_apart t [] n off c)
     = (_ <- fst (_parse_date (date t) c) ;; Err ZeroDivisionError)
  /\ raises (get_features t []).
Proof.
  repeat split.
  - unfold get_pct_transactions_days_apart, get_n_transactions_days_apart, bindM.
    destruct (_parse_date (date t) c) as [[d | e] c']; reflexivity.
  - apply get_features_needs_time_features with (e0 := ValueError).
    apply get_time_features_raises, no_same_vendor_and_date_nil.
Qed.

(** ** Ranges of parsed dates *)

Lemma is_digit_val (c : ascii) : is_digit c = true -> 0 <= digit_val c <= 9.
Proof.
  unfold is_digit, digit_val. intros H.
  apply andb_prop in H as [H1 H2].
  apply Nat.leb_le in H1, H2. lia.
Qed.

Lemma in_range_val (lo hi c : ascii) (a b : Z) :
  digit_val lo = a -> digit_val hi = b ->
  in_range lo hi c = true -> a <= digit_val c <= b.
Proof.
  unfold in_range, digit_val. intros <- <- H.
  apply andb_prop in H as [H1 H2].
  apply Nat.leb_le in H1, H2. lia.
Qed.

Lemma read_year_range (s rest : string) (y : Z) :
  read_year s = Some (y, rest) -> 0 <= y <= 9999.
Proof.
  unfold read_year.
  destruct s as [| a [| b [| c [| d s]]]]; try discriminate.
  destruct (is_digit a) eqn:Da; [| discriminate].
  destruct (is_digit b) eqn:Db; [| discriminate].
  destruct (is_digit c) eqn:Dc; [| discriminate].
  destruct (is_digit d) eqn:Dd; [| discriminate].
  cbn [andb]. intros E.
  replace y with (1000 * digit_val a + 100 * digit_val b + 10 * digit_val c + digit_val d)
    by congruence.
  apply is_digit_val in Da, Db, Dc, Dd. lia.
Qed.

Ltac range_of R lo hi :=
  apply (in_range_val _ _ _ lo hi) in R; [| reflexivity ..].

Lemma some_pair {A B : Type} (a a' : A) (b b' : B) :
  Some (a, b) = Some (a', b') -> a = a' /\ b = b'.
Proof. intros E. split; congruence. Qed.

Lemma read_month_range (s rest : string) (m : Z) :
  read_month s = Some (m, rest) -> 1 <= m <= 12.
Proof.
  unfold read_month.
  destruct s as [| a [| b s]]; try discriminate.
  - destruct (in_range "1" "9" a) eqn:R; [| discriminate].
    intros E; apply some_pair in E as [<- _]. range_of R 1 9. lia.
  - destruct (Ascii.eqb a "1" && in_range "0" "2" b) eqn:C1.
    { intros E; apply some_pair in E as [<- _]. apply andb_prop in C1 as [_ R]. range_of R 0 2. lia. }
    destruct (Ascii.eqb a "0" && in_range "1" "9" b) eqn:C2.
    { intros E; apply some_pair in E as [<- _]. apply andb_prop in C2 as [_ R]. range_of R 1 9. lia. }
    destruct (in_range "1" "9" a) eqn:R; [| discriminate].
    intros E; apply some_pair in E as [<- _]. range_of R 1 9. lia.
Qed.

Lemma read_day_range (s rest : string) (d : Z) :
  read_day s = Some (d, rest) -> 1 <= d <= 31.
Proof.
  unfold read_day.
  destruct s as [| a [| b s]]; try discriminate.
  - destruct (in_range "1" "9" a) eqn:R; [| discriminate].
    intros E; apply some_pair in E as [<- _]. range_of R 1 9. lia.
  - destruct (Ascii.eqb a "3" && in_range "0" "1" b) eqn:C1.
    { intros E; apply some_pair in E as [<- _]. apply andb_prop in C1 as [_ R]. range_of R 0 1. lia. }
    destruct (in_range "1" "2" a && is_digit b) eqn:C2.
    { intros E; apply some_pair in E as [<- _]. apply andb_prop in C2 as [R D].
      range_of R 1 2. apply is_digit_val in D. lia. }
    destruct (Ascii.eqb a "0" && in_range "1" "9" b) eqn:C3.
    { intros E; apply some_pair in E as [<- _]. apply andb_prop in C3 as [_ R]. range_of R 1 9. lia. }
    destruct (in_range "1" "9" a) eqn:R.
    { intros E; apply some_pair in E as [<- _]. range_of R 1 9. lia. }
    destruct (Ascii.eqb a " " && in_range "1" "9" b) eqn:C5; [| discriminate].
    intros E; apply some_pair in E as [<- _]. apply andb_prop in C5 as [_ R5]. range_of R5 1 9. lia.
Qed.

Lemma days_in_month_range (y m : Z) : 28 <= days_in_month y m <= 31.
Proof.
  unfold days_in_month.
  destruct (m =? 2); [destruct (is_leap y); lia |].
  destruct ((m =? 4) || (m =? 6) || (m =? 9) || (m =? 11)); lia.
Qed.

Lemma days_before_month_from_range (y : Z) (k : nat) :
  0 <= days_before_month_from y k <= 31 * Z.of_nat k.
Proof.
  induction k as [| k IH]; [simpl; lia |].
  change (days_before_month_from y (S k))
    with (days_before_month_from y k + days_in_month y (Z.of_nat (S k))).
  pose proof (days_in_month_range y (Z.of_nat (S k))). lia.
Qed.

Lemma strptime_ordinal (s : string) (d : datetime) :
  strptime s = Ok d -> ordinal_in_range d.
Proof.
  unfold strptime, match_ymd.
  destruct (read_year s) as [[y s1] |] eqn:Y; [| discriminate].
  destruct (read_dash s1) as [s2 |]; [| discriminate].
  destruct (read_month s2) as [[m s3] |] eqn:Mo; [| discriminate].
  destruct (read_dash s3) as [s4 |]; [| discriminate].
  destruct (read_day s4) as [[dd [| ? ?]] |] eqn:Dd; try discriminate.
  destruct (1 <=? y) eqn:Y1; [| discriminate].
  destruct (dd <=? days_in_month y m) eqn:Dm; [| discriminate].
  simpl. intros [= <-].
  apply read_year_range in Y. apply read_month_range in Mo.
  apply read_day_range in Dd. apply Z.leb_le in Y1, Dm.
  pose proof (days_in_month_range y m).
  pose proof (days_before_month_from_range y (Z.to_nat (m - 1))).
  unfold ordinal_in_range, toordinal, days_before_year, days_before_month. simpl.
  assert (0 <= (y - 1) / 4 <= 2500) by (split; [apply Z.div_pos | apply Z.div_le_upper_bound]; lia).
  assert (0 <= (y - 1) / 100 <= 100) by (split; [apply Z.div_pos | apply Z.div_le_upper_bound]; lia).
  assert (0 <= (y - 1) / 400 <= 25) by (split; [apply Z.div_pos | apply Z.div_le_upper_bound]; lia).
  assert ((y - 1) / 100 <= (y - 1) / 4).
  { apply Z.div_le_compat_l; lia. }
  lia.
Qed.

Lemma parse_dates_ordinal (l : list Transaction) (ds : list datetime) :
  parse_dates l = Ok ds -> Forall ordinal_in_range ds.
Proof.
  intros E. apply Forall_forall. intros d Hd.
  destruct (parse_dates_in l ds E d Hd) as (t & _ & P).
  apply strptime_ordinal in P. assumption.
Qed.

(** ** Gaps between consecutive dates *)

Lemma date_diffs_length (ds : list datetime) :
  List.length (date_diffs ds) = (List.length ds - 1)%nat.
Proof.
  induction ds as [| a [| b ds] IH]; [reflexivity | reflexivity |].
  change (date_diffs (a :: b :: ds)) with (days_between b a :: date_diffs (b :: ds)).
  simpl List.length in *. lia.
Qed.

Lemma date_diffs_bounded (ds : list datetime) :
  Forall ordinal_in_range ds ->
  Forall (fun g => Z.abs g <= 4000000) (date_diffs ds).
Proof.
  induction ds as [| a [| b ds] IH]; intros H; [constructor | constructor |].
  change (date_diffs (a :: b :: ds)) with (days_between b a :: date_diffs (b :: ds)).
  inversion H as [| ? ? Ha Hrest]; subst.
  constructor; [| apply IH; assumption].
  inversion Hrest as [| ? ? Hb _]; subst.
  unfold ordinal_in_range, days_between in *. lia.
Qed.

Lemma fold_left_add_bounded (bound : Z) (l : list Z) :
  Forall (fun g => Z.abs g <= bound) l ->
  forall a, Z.abs (fold_left Z.add l a) <= Z.abs a + bound * len l.
Proof.
  unfold len. induction 1 as [| g l Hg _ IH]; intros a; simpl fold_left.
  - simpl. lia.
  - specialize (IH (a + g)). rewrite length_cons, Nat2Z.inj_succ. lia.
Qed.

Lemma sum_Z_bounded (bound : Z) (l : list Z) :
  Forall (fun g => Z.abs g <= bound) l -> Z.abs (sum_Z l) <= bound * len l.
Proof.
  intros H. apply (fold_left_add_bounded bound l H 0).
Qed.

(** ** Integer division *)

Lemma overflow_threshold_large : 4000000 < Float.overflow_threshold.
Proof. reflexivity. Qed.

Lemma int_truediv_ok (a b : Z) :
  0 < b -> Z.abs a <= 4000000 * b -> exists x, Float.int_truediv a b = Ok x.
Proof.
  intros Hb Ha. unfold Float.int_truediv.
  replace (b =? 0) with false by (symmetry; apply Z.eqb_neq; lia).
  destruct (a =? 0); [eauto |].
  replace (Z.abs b * Float.overflow_threshold <=? Z.abs a) with false; [eauto |].
  symmetry. apply Z.leb_gt.
  pose proof overflow_threshold_large as Hlarge.
  rewrite (Z.abs_eq b) by lia.
  apply Z.le_lt_trans with (4000000 * b); [assumption |].
  rewrite (Z.mul_comm b). apply Z.mul_lt_mono_pos_r; assumption.
Qed.

(** ** Sorted lists of integers *)

Lemma insert_sorted_Sorted (x : Z) (l : list Z) :
  Sorted Z.le l -> Sorted Z.le (insert_sorted Z.leb x l).
Proof.
  induction 1 as [| y l Hs IH Hhd]; simpl.
  - repeat constructor.
  - destruct (x <=? y) eqn:C.
    + apply Z.leb_le in C. repeat constructor; assumption.
    + apply Z.leb_gt in C. constructor; [assumption |].
      destruct l as [| z l]; simpl.
      * constructor. lia.
      * destruct (x <=? z); constructor; [lia |].
        inversion Hhd; assumption.
Qed.

Lemma sorted_Sorted (l : list Z) : Sorted Z.le (sorted Z.leb l).
Proof.
  induction l as [| x l IH]; simpl; [constructor |].
  apply insert_sorted_Sorted, IH.
Qed.

Lemma list_get_nth {A : Type} (l : list A) (i : nat) (default : A) :
  (i < List.length l)%nat -> list_get l (Z.of_nat i) = Ok (nth i l default).
Proof.
  intros Hi. unfold list_get.
  replace (Z.of_nat i <? 0) with false by (symmetry; apply Z.ltb_ge; lia).
  rewrite Nat2Z.id.
  destruct (nth_error l i) as [x |] eqn:E.
  - apply (nth_error_nth _ _ default) in E. congruence.
  - apply nth_error_None in E. lia.
Qed.

Lemma len_pos_cons {A : Type} (l : list A) : 0 < len l -> exists x l', l = x :: l'.
Proof.
  destruct l as [| x l']; [unfold len; simpl; lia | eauto].
Qed.

Lemma vendor_gaps_facts (t : Transaction) (all_transactions : list Transaction)
  (gaps : list Z) :
  vendor_gaps t all_transactions = Ok gaps ->
  exists parsed,
    parse_dates (same_vendor t all_transactions) = Ok parsed
    /\ gaps = date_diffs (sorted date_leb parsed)
    /\ len gaps = Z.max 0 (len (same_vendor t all_transactions) - 1)
    /\ Forall (fun g => Z.abs g <= 4000000) gaps.
Proof.
  unfold vendor_gaps. intros E. apply fmap_ok in E as (parsed & Hp & ->).
  exists parsed. repeat split; [assumption | |].
  - unfold len. rewrite date_diffs_length, sorted_length.
    rewrite (parse_dates_length _ _ Hp). lia.
  - apply date_diffs_bounded, sorted_Forall, (parse_dates_ordinal _ _ Hp).
Qed.

Lemma mean_of_gaps_ok (gaps : list Z) :
  0 < len gaps -> Forall (fun g => Z.abs g <= 4000000) gaps ->
  exists x, Float.int_truediv (sum_Z gaps) (len gaps) = Ok x.
Proof.
  intros Hpos Hb. apply int_truediv_ok; [assumption |].
  apply sum_Z_bounded. assumption.
Qed.

Lemma population_std_ok {A : Type} (dev : A -> float) (xs : list A) :
  0 < len xs -> exists x, population_std dev xs = Ok x.
Proof.
  intros Hpos. unfold population_std, Float.div_int.
  replace (len xs =? 0) with false by (symmetry; apply Z.eqb_neq; lia).
  cbn [bind]. eauto.
Qed.

(** ** Frequency features *)

(** C5, amended: with at least two transactions of the vendor,
    [median_frequency] is the element at index [floor(n / 2)] of the
    sorted list of the [n] consecutive day gaps: the middle element for
    odd [n], the upper-middle one for even [n], never an interpolation.
    With fewer than two, the four features are [0.0]. *)
Theorem median_frequency_floor_index
  (t : Transaction) (all_transactions : list Transaction) :
  (2 <= len (same_vendor t all_transactions) ->
   forall gaps, vendor_gaps t all_transactions = Ok gaps ->
   exists d s,
     get_frequency_features t all_transactions = Ok d
     /\ Sorted Z.le s /\ Permutation s gaps
     /\ dict_get "median_frequency" d
        = Some (VInt (nth (List.length gaps / 2) s 0)))
  /\ (len (same_vendor t all_transactions) < 2 ->
      get_frequency_features t all_transactions
      = Ok [("frequency", VFloat 0); ("date_variability", VFloat 0);
            ("median_frequency", VFloat 0); ("std_frequency", VFloat 0)]).
Proof.
  split.
  - intros Hlen gaps Hg.
    destruct (vendor_gaps_facts _ _ _ Hg) as (parsed & Hp & Egaps & Hn & Hb).
    assert (Hpos : 0 < len gaps) by lia.
    destruct (mean_of_gaps_ok gaps Hpos Hb) as (avg & Havg).
    destruct (population_std_ok (fun x => (Float.of_Z x - avg)%float) gaps Hpos)
      as (std & Hstd).
    assert (Hmax : exists hi, max_Z gaps = Ok hi).
    { destruct (len_pos_cons gaps Hpos) as (g & gs & ->). simpl. eauto. }
    assert (Hmin : exists lo, min_Z gaps = Ok lo).
    { destruct (len_pos_cons gaps Hpos) as (g & gs & ->). simpl. eauto. }
    destruct Hmax as (hi & Hmax). destruct Hmin as (lo & Hmin).
    set (s := sorted Z.leb gaps).
    assert (Hmed : list_get s (len gaps / 2) = Ok (nth (List.length gaps / 2) s 0)).
    { unfold len. change 2 with (Z.of_nat 2). rewrite <- Nat2Z.inj_div.
      apply list_get_nth. unfold s. rewrite sorted_length.
      apply Nat.div_lt; unfold len in Hpos; lia. }
    unfold get_frequency_features.
    replace (len (same_vendor t all_transactions) <? 2) with false
      by (symmetry; apply Z.ltb_ge; assumption).
    rewrite Hp. cbn [bind]. rewrite <- Egaps. rewrite Havg. cbn [bind].
    fold s. rewrite Hmed. cbn [bind]. rewrite Hstd. cbn [bind].
    rewrite Hmax, Hmin. cbn [bind].
    eexists. exists s. split; [reflexivity |].
    split; [apply sorted_Sorted |].
    split; [apply sorted_perm | reflexivity].
  - intros Hlen. unfold get_frequency_features.
    replace (len (same_vendor t all_transactions) <? 2) with true
      by (symmetry; apply Z.ltb_lt; assumption).
    reflexivity.
Qed.

Lemma median_frequency_floor_index_witness :
  (exists d s,
      get_frequency_features (spotify "2024-01-01")
        [spotify "2024-01-01"; spotify "2024-01-02"; spotify "2024-01-05"] = Ok d
      /\ Sorted Z.le s /\ Permutation s [1; 3]
      /\ dict_get "median_frequency" d = Some (VInt (nth 1 s 0)))
  /\ get_frequency_features (spotify "2024-01-01") [netflix]
     = Ok [("frequency", VFloat 0); ("date_variability", VFloat 0);
           ("median_frequency", VFloat 0); ("std_frequency", VFloat 0)].
Proof.
  split.
  - apply (proj1 (median_frequency_floor_index (spotify "2024-01-01")
                    [spotify "2024-01-01"; spotify "2024-01-02"; spotify "2024-01-05"])).
    + vm_compute. discriminate.
    + reflexivity.
  - apply (proj2 (median_frequency_floor_index (spotify "2024-01-01") [netflix])).
    reflexivity.
Defined.

(** C5, as stated, fails: with the gaps 1 and 3 the lower-middle element
    is 1, and [median_frequency] is 3. *)
Lemma median_frequency_lower_middle_counterexample :
  let t := spotify "2024-01-01" in
  let history := [spotify "2024-01-01"; spotify "2024-01-02"; spotify "2024-01-05"] in
  vendor_gaps t history = Ok [1; 3]
  /\ lower_middle (sorted Z.leb [1; 3]) = Some 1
  /\ fmap (dict_get "median_frequency") (get_frequency_features t history)
     = Ok (Some (VInt 3)).
Proof. repeat split. Qed.

(** ** Temporal consistency *)

Lemma fraction_of_gaps_ok (p : Z -> bool) (gaps : list Z) :
  0 < len gaps -> exists x, fraction_of_gaps p gaps = Ok x.
Proof.
  intros Hpos. apply int_truediv_ok; [assumption |].
  pose proof (filter_length_le p gaps) as Hle. unfold len in *. lia.
Qed.

Lemma share_of_gaps_fraction (p : Z -> bool) (gaps : list Z) :
  0 < len gaps -> share_of_gaps (filter p gaps) gaps = fraction_of_gaps p gaps.
Proof.
  intros Hpos. destruct (len_pos_cons gaps Hpos) as (g & gs & ->). reflexivity.
Qed.

Lemma permutation_of_three {A : Type} (a b c : A) (l : list A) :
  Permutation l [a; b; c] ->
  l = [a; b; c] \/ l = [a; c; b] \/ l = [b; a; c]
  \/ l = [b; c; a] \/ l = [c; a; b] \/ l = [c; b; a].
Proof.
  intros P.
  destruct (Permutation_vs_cons_inv P) as (l1 & l2 & ->).
  symmetry in P. apply Permutation_cons_app_inv in P.
  apply Permutation_length_2_inv in P.
  destruct l1 as [| x [| y [| z l1]]]; simpl in *;
    destruct P as [P | P]; inversion P; subst; tauto.
Qed.

Lemma exceeds_07_exact_200 : exceeds_07_exact 200 = true.
Proof. vm_compute. reflexivity. Qed.

(** C7: a history of three charges of one vendor on 2024-01-01,
    2024-01-29 and 2024-02-26, in any order, gives
    [is_monthly_consistent = 1] and [is_weekly_consistent = 0]; with at
    least three transactions of the vendor each flag is 1 exactly when
    the fraction of gaps in its window, [28..31] or [6..8] days, exceeds
    0.7; with fewer than three the three outputs are zero.  The fraction
    and the comparison are those of the floats; up to 200 gaps they agree
    with the exact comparison of [10 k] with [7 n]. *)
Theorem temporal_consistency_flags (t : Transaction) :
  (forall a b c history,
      name a = name t -> name b = name t -> name c = name t ->
      date a = "2024-01-01" -> date b = "2024-01-29" -> date c = "2024-02-26" ->
      Permutation history [a; b; c] ->
      exists d,
        get_temporal_consistency_features t history = Ok d
        /\ dict_get "is_monthly_consistent" d = Some (VInt 1)
        /\ dict_get "is_weekly_consistent" d = Some (VInt 0))
  /\ (forall all_transactions gaps,
        3 <= len (same_vendor t all_transactions) ->
        vendor_gaps t all_transactions = Ok gaps ->
        exists d monthly weekly,
          fraction_of_gaps monthly_gap gaps = Ok monthly
          /\ fraction_of_gaps weekly_gap gaps = Ok weekly
          /\ get_temporal_consistency_features t all_transactions = Ok d
          /\ dict_get "is_monthly_consistent" d
             = Some (VInt (if (0.7 <? monthly)%float then 1 else 0))
          /\ dict_get "is_weekly_consistent" d
             = Some (VInt (if (0.7 <? weekly)%float then 1 else 0)))
  /\ (forall all_transactions,
        len (same_vendor t all_transactions) < 3 ->
        get_temporal_consistency_features t all_transactions
        = Ok [("temporal_consistency_score", VFloat 0);
              ("is_monthly_consistent", VInt 0);
              ("is_weekly_consistent", VInt 0)])
  /\ exceeds_07_exact 200 = true.
Proof.
  split; [| split; [| split; [| exact exceeds_07_exact_200]]].
  - intros a b c history Na Nb Nc Da Db Dc Hperm.
    assert (Hgroup : same_vendor t history = history).
    { apply permutation_of_three in Hperm.
      unfold same_vendor.
      repeat destruct Hperm as [Hperm | Hperm]; subst history; simpl;
        rewrite Na, Nb, Nc, String.eqb_refl; reflexivity. }
    assert (Hparse : exists parsed,
               parse_dates history = Ok parsed
               /\ sorted date_leb parsed
                  = [mkdate 2024 1 1; mkdate 2024 1 29; mkdate 2024 2 26]).
    { apply permutation_of_three in Hperm.
      unfold parse_dates.
      repeat destruct Hperm as [Hperm | Hperm]; subst history; simpl;
        rewrite Da, Db, Dc; eexists; (split; [reflexivity | reflexivity]). }
    destruct Hparse as (parsed & Hparse & Hsorted).
    pose proof (parse_dates_length _ _ Hparse) as Hlen.
    unfold get_temporal_consistency_features.
    rewrite Hgroup, Hparse.
    replace (len history <? 3) with false.
    2:{ unfold len. rewrite (Permutation_length Hperm). reflexivity. }
    cbn [bind]. rewrite Hsorted.
    eexists. split; [vm_compute; reflexivity |].
    split; reflexivity.
  - intros all_transactions gaps Hlen Hg.
    destruct (vendor_gaps_facts _ _ _ Hg) as (parsed & Hp & Egaps & Hn & _).
    assert (Hpos : 0 < len gaps) by lia.
    destruct (fraction_of_gaps_ok monthly_gap gaps Hpos) as (monthly & Hm).
    destruct (fraction_of_gaps_ok weekly_gap gaps Hpos) as (weekly & Hw).
    unfold get_temporal_consistency_features.
    replace (len (same_vendor t all_transactions) <? 3) with false
      by (symmetry; apply Z.ltb_ge; assumption).
    rewrite Hp. cbn [bind]. rewrite <- Egaps.
    change (filter (fun diff => (28 <=? diff) && (diff <=? 31)) gaps)
      with (filter monthly_gap gaps).
    change (filter (fun diff => (6 <=? diff) && (diff <=? 8)) gaps)
      with (filter weekly_gap gaps).
    rewrite !share_of_gaps_fraction by assumption.
    rewrite Hm, Hw. cbn [bind].
    eexists. exists monthly, weekly.
    repeat (split; [reflexivity |]).
    split; reflexivity.
  - intros all_transactions Hlen. unfold get_temporal_consistency_features.
    replace (len (same_vendor t all_transactions) <? 3) with true
      by (symmetry; apply Z.ltb_lt; assumption).
    reflexivity.
Qed.

Lemma temporal_consistency_flags_witness :
  (exists d,
      get_temporal_consistency_features (spotify "2024-01-01")
        [spotify "2024-01-01"; spotify "2024-01-29"; spotify "2024-02-26"] = Ok d
      /\ dict_get "is_monthly_consistent" d = Some (VInt 1)
      /\ dict_get "is_weekly_consistent" d = Some (VInt 0))
  /\ (exists d monthly weekly,
         fraction_of_gaps monthly_gap [7; 7] = Ok monthly
         /\ fraction_of_gaps weekly_gap [7; 7] = Ok weekly
         /\ get_temporal_consistency_features (spotify "2024-01-01")
              [spotify "2024-01-15"; spotify "2024-01-01"; spotify "2024-01-08"] = Ok d
         /\ dict_get "is_monthly_consistent" d
            = Some (VInt (if (0.7 <? monthly)%float then 1 else 0))
         /\ dict_get "is_weekly_consistent" d
            = Some (VInt (if (0.7 <? weekly)%float then 1 else 0)))
  /\ get_temporal_consistency_features (spotify "2024-01-01")
       [spotify "2024-01-01"; spotify "2024-01-29"]
     = Ok [("temporal_consistency_score", VFloat 0);
           ("is_monthly_consistent", VInt 0);
           ("is_weekly_consistent", VInt 0)].
Proof.
  pose proof (temporal_consistency_flags (spotify "2024-01-01"))
    as (Hscene & Hflags & Hfew & _).
  split; [| split].
  - apply Hscene with (a := spotify "2024-01-01") (b := spotify "2024-01-29")
                      (c := spotify "2024-02-26"); reflexivity.
  - apply Hflags; [vm_compute; discriminate | reflexivity].
  - apply Hfew. reflexivity.
Defined.

(** ** Dictionaries *)

Lemma keys_dict_set (k : string) (v : value) (d : dict) :
  keys (dict_set k v d) = if str_in k (keys d) then keys d else keys d ++ [k].
Proof.
  induction d as [| [k' v'] d IH]; simpl; [reflexivity |].
  rewrite (String.eqb_sym k k').
  destruct (String.eqb k' k); simpl; [reflexivity |].
  rewrite IH. unfold str_in. destruct (existsb _ (keys d)); reflexivity.
Qed.

Lemma keys_dict_update (d e : dict) :
  keys (dict_update d e) = merge_keys (keys d) (keys e).
Proof.
  unfold dict_update, merge_keys. revert d.
  induction e as [| [k v] e IH]; intros d; simpl; [reflexivity |].
  rewrite IH, keys_dict_set. reflexivity.
Qed.

Lemma keys_fold_update (ds : list dict) (acc : dict) :
  keys (fold_left dict_update ds acc) = fold_left merge_keys (map keys ds) (keys acc).
Proof.
  revert acc. induction ds as [| d ds IH]; intros acc; simpl; [reflexivity |].
  rewrite IH, keys_dict_update. reflexivity.
Qed.

Lemma dict_get_set (k k' : string) (v : value) (d : dict) :
  dict_get k (dict_set k' v d) = if String.eqb k' k then Some v else dict_get k d.
Proof.
  induction d as [| [k0 v0] d IH]; simpl.
  - destruct (String.eqb k' k); reflexivity.
  - destruct (String.eqb k0 k') eqn:E0; simpl.
    + apply String.eqb_eq in E0. subst k0. destruct (String.eqb k' k); reflexivity.
    + destruct (String.eqb k0 k) eqn:E1; [| exact IH].
      apply String.eqb_eq in E1. subst k0. rewrite String.eqb_sym, E0. reflexivity.
Qed.

Lemma dict_get_absent (k : string) (d : dict) :
  str_in k (keys d) = false -> dict_get k d = None.
Proof.
  induction d as [| [k' v] d IH]; simpl; [reflexivity |].
  rewrite (String.eqb_sym k k'). destruct (String.eqb k' k); simpl; [discriminate | exact IH].
Qed.

Lemma dict_get_update_skip (k : string) (d e : dict) :
  str_in k (keys e) = false -> dict_get k (dict_update d e) = dict_get k d.
Proof.
  unfold dict_update. revert d.
  induction e as [| [k' v] e IH]; intros d; simpl; [reflexivity |].
  rewrite (String.eqb_sym k k'). destruct (String.eqb k' k) eqn:E; simpl; [discriminate |].
  intros Hrest. rewrite IH by assumption. rewrite dict_get_set, E. reflexivity.
Qed.

(** ** What a display is made of *)

Lemma dict_display_inv (items : list (M dict)) :
  forall acc c d c',
    dict_display items acc c = (Ok d, c') ->
    exists ds, Forall2 produces items ds /\ d = fold_left dict_update ds acc.
Proof.
  induction items as [| item rest IH]; intros acc c d c'; simpl.
  - unfold ret. intros [= <- _]. exists []. split; [constructor | reflexivity].
  - unfold bindM. destruct (item c) as [[di | e] c1] eqn:E; [| discriminate].
    intros Hrest. destruct (IH _ _ _ _ Hrest) as (ds & Hds & ->).
    exists (di :: ds). split; [| reflexivity].
    constructor; [exists c, c1; assumption | assumption].
Qed.

Lemma produces_splat (r : result dict) (d : dict) : produces (splat r) d -> r = Ok d.
Proof. intros (c & c' & E). unfold splat, lift in E. congruence. Qed.

Lemma produces_entry (k : string) (v : M value) (d : dict) :
  produces (entry k v) d -> exists x c c', v c = (Ok x, c') /\ d = [(k, x)].
Proof.
  intros (c & c' & E). unfold entry, bindM, ret in E.
  destruct (v c) as [[x | e] c1] eqn:V; [| discriminate].
  exists x, c, c1. split; [assumption | congruence].
Qed.

Lemma produces_entry_keys (k : string) (v : M value) (d : dict) :
  produces (entry k v) d -> keys d = [k].
Proof.
  intros H. apply produces_entry in H as (x & _ & _ & _ & ->). reflexivity.
Qed.

(** ** The keys of each scorer *)

Lemma Ok_inj {A : Type} (a b : A) : Ok a = Ok b -> a = b.
Proof. congruence. Qed.

(** Peels an equation [scorer ... = Ok d] down to the display that
    produced [d]. *)
Ltac invert_result H :=
  repeat first
    [ progress cbv beta zeta in H
    | match type of H with
      | bind _ _ = Ok _ => apply bind_ok in H as (? & _ & H)
      | (if ?b then _ else _) = Ok _ => destruct b
      | match ?x with _ => _ end = Ok _ => destruct x
      | Err _ = Ok _ => discriminate H
      end ].

Ltac scorer_keys H :=
  apply produces_splat in H; invert_result H;
  apply Ok_inj in H; subst; reflexivity.

Section ScorerKeys.
Variables (t : Transaction) (all_transactions : list Transaction) (d : dict).

Lemma keys_user_recurring_vendor_count :
  produces (splat (get_user_recurring_vendor_count t all_transactions)) d ->
  keys d = ["user_recurring_vendor_count"].
Proof. intros H. unfold get_user_recurring_vendor_count in H. scorer_keys H. Qed.

Lemma keys_user_transaction_frequency :
  produces (splat (get_user_transaction_frequency t all_transactions)) d ->
  keys d = ["user_transaction_frequency"].
Proof. intros H. unfold get_user_transaction_frequency in H. scorer_keys H. Qed.

Lemma keys_vendor_amount_std :
  produces (splat (get_vendor_amount_std t all_transactions)) d ->
  keys d = ["vendor_amount_std"].
Proof. intros H. unfold get_vendor_amount_std in H. scorer_keys H. Qed.

Lemma keys_vendor_recurring_user_count :
  produces (splat (get_vendor_recurring_user_count t all_transactions)) d ->
  keys d = ["vendor_recurring_user_count"].
Proof. intros H. unfold get_vendor_recurring_user_count in H. scorer_keys H. Qed.

Lemma keys_vendor_transaction_frequency :
  produces (splat (get_vendor_transaction_frequency t all_transactions)) d ->
  keys d = ["vendor_transaction_frequency"].
Proof. intros H. unfold get_vendor_transaction_frequency in H. scorer_keys H. Qed.

Lemma keys_user_vendor_transaction_count :
  produces (splat (Ok (get_user_vendor_transaction_count t all_transactions))) d ->
  keys d = ["user_vendor_transaction_count"].
Proof. intros H. scorer_keys H. Qed.

Lemma keys_user_vendor_recurrence_rate :
  produces (splat (get_user_vendor_recurrence_rate t all_transactions)) d ->
  keys d = ["user_vendor_recurrence_rate"].
Proof. intros H. unfold get_user_vendor_recurrence_rate in H. scorer_keys H. Qed.

Lemma keys_user_vendor_interaction_count :
  produces (splat (Ok (get_user_vendor_interaction_count t all_transactions))) d ->
  keys d = ["user_vendor_interaction_count"].
Proof. intros H. scorer_keys H. Qed.

Lemma keys_amount_category :
  produces (splat (Ok (get_amount_category t))) d -> keys d = ["amount_category"].
Proof.
  intros H. apply produces_splat, Ok_inj in H. subst d. unfold get_amount_category.
  repeat match goal with |- context [if ?b then _ else _] => destruct b end;
    reflexivity.
Qed.

Lemma keys_amount_pattern_features :
  produces (splat (get_amount_pattern_features t all_transactions)) d ->
  keys d = ["is_common_recurring_amount"; "is_common_for_vendor"; "amount_decimal_part"].
Proof. intros H. unfold get_amount_pattern_features in H. scorer_keys H. Qed.

Lemma keys_temporal_consistency_features :
  produces (splat (get_temporal_consistency_features t all_transactions)) d ->
  keys d = ["temporal_consistency_score"; "is_monthly_consistent"; "is_weekly_consistent"].
Proof. intros H. unfold get_temporal_consistency_features in H. scorer_keys H. Qed.

Lemma keys_vendor_recurrence_profile :
  produces (splat (get_vendor_recurrence_profile t all_transactions)) d ->
  keys d = ["vendor_recurrence_score"; "vendor_recurrence_consistency";
            "vendor_is_common_recurring"].
Proof. intros H. unfold get_vendor_recurrence_profile in H. scorer_keys H. Qed.

Lemma keys_user_vendor_relationship_features :
  produces (splat (get_user_vendor_relationship_features t all_transactions)) d ->
  keys d = ["user_vendor_dependency"; "user_vendor_tenure"]
           ++ (if user_is_known t all_transactions
               then ["user_vendor_transaction_span"] else []).
Proof.
  intros H. unfold get_user_vendor_relationship_features, user_is_known in *.
  apply produces_splat in H. cbv zeta in H.
  destruct (same_user t all_transactions).
  - apply Ok_inj in H. subst. reflexivity.
  - invert_result H. apply Ok_inj in H. subst. reflexivity.
Qed.

Lemma keys_frequency_features :
  produces (splat (get_frequency_features t all_transactions)) d ->
  keys d = ["frequency"; "date_variability"; "median_frequency"; "std_frequency"].
Proof. intros H. unfold get_frequency_features in H. scorer_keys H. Qed.

Lemma keys_amount_features :
  produces (splat (get_amount_features t)) d ->
  keys d = ["is_amount_rounded"; "amount_category"].
Proof. intros H. unfold get_amount_features in H. scorer_keys H. Qed.

Lemma keys_vendor_features :
  produces (splat (get_vendor_features t all_transactions)) d ->
  keys d = ["n_transactions_with_vendor"; "avg_amount_for_vendor"].
Proof. intros H. unfold get_vendor_features in H. scorer_keys H. Qed.

Lemma keys_time_features :
  produces (splat (get_time_features t all_transactions)) d ->
  keys d = ["month"; "days_until_next_transaction"].
Proof. intros H. unfold get_time_features in H. scorer_keys H. Qed.

Lemma keys_user_recurrence_rate :
  produces (splat (get_user_recurrence_rate t all_transactions)) d ->
  keys d = ["user_recurrence_rate"].
Proof. intros H. unfold get_user_recurrence_rate in H. scorer_keys H. Qed.

Lemma keys_user_specific_features :
  produces (splat (get_user_specific_features t all_transactions)) d ->
  keys d = ["user_transaction_count"; "user_recurring_transaction_count";
            "user_recurring_transaction_rate"].
Proof. intros H. unfold get_user_specific_features in H. scorer_keys H. Qed.
End ScorerKeys.

(** ** The keys and entries of the assembled mapping *)

Ltac invert_items :=
  repeat match goal with
         | H : Forall2 produces (_ :: _) _ |- _ => inversion H; subst; clear H
         | H : Forall2 produces [] _ |- _ => inversion H; subst; clear H
         end.

Ltac item_keys H :=
  first
    [ apply produces_entry_keys in H
    | apply keys_user_recurring_vendor_count in H
    | apply keys_user_transaction_frequency in H
    | apply keys_vendor_amount_std in H
    | apply keys_vendor_recurring_user_count in H
    | apply keys_vendor_transaction_frequency in H
    | apply keys_user_vendor_transaction_count in H
    | apply keys_user_vendor_recurrence_rate in H
    | apply keys_user_vendor_interaction_count in H
    | apply keys_amount_category in H
    | apply keys_amount_pattern_features in H
    | apply keys_temporal_consistency_features in H
    | apply keys_vendor_recurrence_profile in H
    | apply keys_user_vendor_relationship_features in H
    | apply keys_frequency_features in H
    | apply keys_amount_features in H
    | apply keys_vendor_features in H
    | apply keys_time_features in H
    | apply keys_user_recurrence_rate in H
    | apply keys_user_specific_features in H ].

Lemma get_features_keys
  (t : Transaction) (all_transactions : list Transaction) (c c' : cache) (d : dict) :
  get_features t all_transactions c = (Ok d, c') ->
  keys d = feature_keys (user_is_known t all_transactions).
Proof.
  intros E. unfold get_features in E.
  apply dict_display_inv in E as (ds & Hds & ->).
  rewrite keys_fold_update. invert_items.
  repeat match goal with H : produces _ _ |- _ => item_keys H end.
  cbn [map].
  repeat match goal with H : keys _ = _ |- _ => rewrite H; clear H end.
  destruct (user_is_known t all_transactions); reflexivity.
Qed.

Lemma dict_get_update_last (k k1 : string) (v v1 : value) (d : dict) :
  dict_get k (dict_update d [(k1, v1); (k, v)]) = Some v.
Proof.
  unfold dict_update. cbn [fold_left fst snd].
  rewrite dict_get_set, String.eqb_refl. reflexivity.
Qed.

Lemma dict_get_update_single (k : string) (v : value) (d : dict) :
  dict_get k (dict_update d [(k, v)]) = Some v.
Proof.
  unfold dict_update. cbn [fold_left fst snd].
  rewrite dict_get_set, String.eqb_refl. reflexivity.
Qed.

Lemma get_amount_features_bucket (t : Transaction) (d : dict) :
  get_amount_features t = Ok d ->
  exists q rounded,
    floor_bucket t = Ok q
    /\ d = [("is_amount_rounded", VInt rounded); ("amount_category", VInt q)].
Proof.
  unfold get_amount_features, floor_bucket. intros E.
  apply bind_ok in E as (r & _ & E).
  apply bind_ok in E as (x & Hx & E).
  apply bind_ok in E as (q & Hq & E).
  apply Ok_inj in E. subst d. rewrite Hx. cbn [bind].
  eexists q, _. split; [assumption | reflexivity].
Qed.

(** Skips, in [dict_get k (dict_update (...) d)], the dictionaries [d]
    merged last that do not hold the key. *)
Ltac skip_later_items :=
  repeat (rewrite dict_get_update_skip
            by first
                 [ reflexivity
                 | match goal with
                   | H : keys ?d = _ |- str_in _ (keys ?d) = false =>
                       rewrite H; reflexivity
                   end ]).

Lemma get_features_entries
  (t : Transaction) (all_transactions : list Transaction) (c c' : cache) (d : dict) :
  get_features t all_transactions c = (Ok d, c') ->
  (exists q, floor_bucket t = Ok q /\ dict_get "amount_category" d = Some (VInt q))
  /\ (exists b, get_ends_in_99 t = Ok b /\ dict_get "ends_in_99" d = Some (VBool b)).
Proof.
  intros E. unfold get_features in E.
  apply dict_display_inv in E as (ds & Hds & ->). invert_items.
  match goal with
  | H : produces (splat (get_amount_features _)) _ |- _ =>
      pose proof (produces_splat _ _ H) as Hbucket
  end.
  apply get_amount_features_bucket in Hbucket as (q & rounded & Hq & Hd).
  repeat match goal with
         | H : produces (entry _ _) _ |- _ =>
             apply produces_entry in H as (? & ? & ? & ? & ->)
         end.
  match goal with
  | H : bool_ (get_ends_in_99 t) _ = _ |- _ =>
      unfold bool_, lift in H; apply (f_equal fst) in H; cbn [fst] in H;
      apply fmap_ok in H as (b & Hb & ->)
  end.
  repeat match goal with H : produces _ _ |- _ => item_keys H end.
  cbn [fold_left]. split.
  - exists q. split; [assumption |]. skip_later_items.
    rewrite Hd. apply dict_get_update_last.
  - exists b. split; [assumption |]. skip_later_items.
    apply dict_get_update_single.
Qed.

Lemma run_fst {A : Type} (m : M A) (c : cache) (r : result A) :
  fst (m c) = r -> exists c', m c = (r, c').
Proof. destruct (m c) as [r' c']. simpl. intros ->. eauto. Qed.

(** ** The assembler *)

(** C2: the two amount buckets share the key [amount_category].  Every
    mapping that [get_features] returns holds that key once, with
    [int(amount // 10)], the value that [get_amount_features] merges over
    the one of [get_amount_category].  For an amount of 35 the threshold
    bucket is 2; the mapping holds 3 and no feature equal to 2. *)
Theorem amount_category_overwritten :
  (forall t all_transactions c d,
      fst (get_features t all_transactions c) = Ok d ->
      exists q,
        floor_bucket t = Ok q
        /\ dict_get "amount_category" d = Some (VInt q)
        /\ List.length (filter (String.eqb "amount_category") (keys d)) = 1%nat)
  /\ get_amount_category netflix_35 = [("amount_category", VInt 2)]
  /\ floor_bucket netflix_35 = Ok 3
  /\ fmap (fun d => (dict_get "amount_category" d,
                     existsb (fun kv => match snd kv with
                                        | VInt 2 => true
                                        | _ => false
                                        end) d))
          (features_of netflix_35 [netflix_35])
     = Ok (Some (VInt 3), false).
Proof.
  split; [| repeat split].
  intros t all_transactions c d E. apply run_fst in E as (c' & E).
  destruct (get_features_entries _ _ _ _ _ E) as ((q & Hq & Hget) & _).
  exists q. split; [assumption | split; [assumption |]].
  rewrite (get_features_keys _ _ _ _ _ E).
  destruct (user_is_known t all_transactions); reflexivity.
Qed.

Lemma amount_category_overwritten_witness :
  exists d q,
    features_of netflix_35 [netflix_35] = Ok d
    /\ floor_bucket netflix_35 = Ok q
    /\ dict_get "amount_category" d = Some (VInt q).
Proof.
  destruct (features_of netflix_35 [netflix_35]) as [d | e] eqn:E;
    [| vm_compute in E; discriminate E].
  destruct (proj1 amount_category_overwritten netflix_35 [netflix_35] [] d E)
    as (q & Hq & Hget & _).
  exists d, q. repeat split; assumption.
Defined.

(** C3: the key set depends on the history.  Every mapping that
    [get_features] returns has the keys [feature_keys], with
    [user_vendor_transaction_span] only when the target's user has a
    transaction in the history: for an unknown user
    [get_user_vendor_relationship_features] returns before it sets that
    key, and the mapping has 54 keys instead of 55. *)
Theorem user_vendor_transaction_span_omitted :
  (forall t all_transactions c d,
      fst (get_features t all_transactions c) = Ok d ->
      keys d = feature_keys (user_is_known t all_transactions))
  /\ user_is_known netflix [netflix_other_user] = false
  /\ fmap (fun d => (str_in "user_vendor_transaction_span" (keys d), List.length d))
          (features_of netflix [netflix_other_user])
     = Ok (false, 54%nat)
  /\ fmap (fun d => (str_in "user_vendor_transaction_span" (keys d), List.length d))
          (features_of netflix [netflix])
     = Ok (true, 55%nat).
Proof.
  split; [| repeat split].
  intros t all_transactions c d E. apply run_fst in E as (c' & E).
  exact (get_features_keys _ _ _ _ _ E).
Qed.

Lemma user_vendor_transaction_span_omitted_witness :
  exists d,
    features_of netflix [netflix_other_user] = Ok d
    /\ keys d = feature_keys false.
Proof.
  destruct (features_of netflix [netflix_other_user]) as [d | e] eqn:E;
    [| vm_compute in E; discriminate E].
  exists d. split; [reflexivity |].
  exact (proj1 user_vendor_transaction_span_omitted netflix [netflix_other_user] [] d E).
Defined.

(** C8: on the Netflix scenario the four features have the values of
    the spec.  In every mapping that [get_features] returns, [ends_in_99]
    is the answer of [get_ends_in_99], which is computed without rounding:
    for 19.99 the product [amount * 100] is [1998.9999999999998], the
    source answers false and the rounded check answers true. *)
Theorem ends_in_99_not_rounded :
  (forall t all_transactions c d,
      fst (get_features t all_transactions c) = Ok d ->
      exists b, get_ends_in_99 t = Ok b /\ dict_get "ends_in_99" d = Some (VBool b))
  /\ fmap (fun d => (dict_get "is_always_recurring" d,
                     dict_get "n_transactions_same_amount" d,
                     dict_get "percent_transactions_same_amount" d,
                     dict_get "ends_in_99" d))
          (features_of netflix [netflix])
     = Ok (Some (VBool true), Some (VInt 1), Some (VFloat 1), Some (VBool true))
  /\ ends_in_99_rounded netflix = Ok true
  /\ get_ends_in_99 netflix_1999 = Ok false
  /\ ends_in_99_rounded netflix_1999 = Ok true
  /\ fmap (dict_get "ends_in_99") (features_of netflix_1999 [netflix_1999])
     = Ok (Some (VBool false)).
Proof.
  split; [| repeat split].
  intros t all_transactions c d E. apply run_fst in E as (c' & E).
  exact (proj2 (get_features_entries _ _ _ _ _ E)).
Qed.

Lemma ends_in_99_not_rounded_witness :
  exists d b,
    features_of netflix_1999 [netflix_1999] = Ok d
    /\ get_ends_in_99 netflix_1999 = Ok b
    /\ dict_get "ends_in_99" d = Some (VBool b).
Proof.
  destruct (features_of netflix_1999 [netflix_1999]) as [d | e] eqn:E;
    [| vm_compute in E; discriminate E].
  destruct (proj1 ends_in_99_not_rounded netflix_1999 [netflix_1999] [] d E)
    as (b & Hb & Hget).
  exists d, b. repeat split; assumption.
Defined.

(** * Further properties of the sources *)

(** ** The periodicity matcher as a count *)

Lemma filterM_length {A : Type} (p : A -> result bool) (l kept : list A) :
  filterM p l = Ok kept -> 0 <= len kept <= len l.
Proof.
  unfold len. revert kept. induction l as [| x l IH]; simpl; intros kept E.
  - apply Ok_inj in E. subst. simpl. lia.
  - apply bind_ok in E as (b & _ & E). apply bind_ok in E as (ys & Hys & E).
    apply Ok_inj in E. specialize (IH ys Hys).
    subst kept. destruct b; simpl List.length; lia.
Qed.

Lemma filterM_total {A : Type} (p : A -> result bool) (q : A -> bool) (l : list A) :
  (forall x, In x l -> p x = Ok (q x)) -> filterM p l = Ok (filter q l).
Proof.
  induction l as [| x l IH]; intros H; simpl; [reflexivity |].
  rewrite (H x) by (left; reflexivity). cbn [bind].
  rewrite IH by (intros y Hy; apply H; right; assumption).
  cbn [bind]. destruct (q x); reflexivity.
Qed.

Lemma days_apart_loop_counts
  (d0 : datetime) (n off : Z) (all_transactions : list Transaction) :
  forall dates k c,
    cache_ok c ->
    parse_dates all_transactions = Ok dates ->
    exists c',
      days_apart_loop d0 n off all_transactions k c
      = (fmap (fun kept => k + len kept)
              (filterM (fun d => near n off (days_from d0 d)) dates), c')
      /\ cache_ok c'.
Proof.
  induction all_transactions as [| t rest IH]; intros dates k c Hc Hp.
  - apply Ok_inj in Hp. subst dates. exists c. split; [| exact Hc].
    simpl. unfold ret, len. simpl. do 2 f_equal. lia.
  - unfold parse_dates in Hp. simpl in Hp.
    apply bind_ok in Hp as (d & Hd & Hp). apply bind_ok in Hp as (ds & Hds & Hp).
    apply Ok_inj in Hp. subst dates.
    destruct (_parse_date_coherent (date t) c Hc) as [Hfst Hc1].
    simpl days_apart_loop. unfold bindM, lift.
    destruct (_parse_date (date t) c) as [r c1]. simpl in Hfst, Hc1.
    rewrite Hfst, Hd. simpl filterM.
    unfold near at 1. fold (days_from d0 d).
    destruct (days_from d0 d <? n - off).
    + cbn [bind]. destruct (IH ds k c1 Hc1 Hds) as (c' & E1 & E2).
      exists c'. split; [| assumption]. rewrite E1.
      destruct (filterM _ ds); reflexivity.
    + destruct (int_mod (days_from d0 d) n) as [r0 | e];
        [| exists c1; split; [reflexivity | assumption]].
      cbn [bind].
      destruct ((r0 <=? off) || (r0 >=? n - off)).
      * destruct (IH ds (k + 1) c1 Hc1 Hds) as (c' & E1 & E2).
        exists c'. split; [| assumption]. rewrite E1.
        destruct (filterM _ ds) as [kept |]; [| reflexivity].
        unfold fmap, len. cbn [bind List.length]. do 2 f_equal. lia.
      * destruct (IH ds k c1 Hc1 Hds) as (c' & E1 & E2).
        exists c'. split; [| assumption]. rewrite E1.
        destruct (filterM _ ds); reflexivity.
Qed.

Lemma get_n_transactions_days_apart_count_near
  (t : Transaction) (all_transactions : list Transaction) (n off : Z)
  (c : cache) (d0 : datetime) (dates : list datetime) :
  cache_ok c ->
  strptime (date t) = Ok d0 ->
  parse_dates all_transactions = Ok dates ->
  fst (get_n_transactions_days_apart t all_transactions n off c)
  = count_near d0 n off dates.
Proof.
  intros Hc Ht Hp. unfold get_n_transactions_days_apart, bindM.
  destruct (_parse_date_coherent (date t) c Hc) as [Hfst Hc1].
  destruct (_parse_date (date t) c) as [r c1]. simpl in Hfst, Hc1.
  rewrite Hfst, Ht.
  destruct (days_apart_loop_counts d0 n off all_transactions dates 0 c1 Hc1 Hp)
    as (c' & E & _).
  rewrite E. unfold count_near, fmap. cbn [fst].
  destruct (filterM _ dates); reflexivity.
Qed.

Lemma near_nonzero_interval (n off diff : Z) :
  n <> 0 -> near n off diff = Ok (is_near n off diff).
Proof.
  intros Hn. unfold near, is_near, int_mod.
  replace (n =? 0) with false by (symmetry; apply Z.eqb_neq; assumption).
  destruct (diff <? n - off); reflexivity.
Qed.

Lemma count_near_nonzero_interval (d0 : datetime) (n off : Z) (dates : list datetime) :
  n <> 0 ->
  count_near d0 n off dates
  = Ok (len (filter (fun d => is_near n off (days_from d0 d)) dates)).
Proof.
  intros Hn. unfold count_near.
  rewrite filterM_total with (q := fun d => is_near n off (days_from d0 d))
    by (intros d _; apply near_nonzero_interval; assumption).
  reflexivity.
Qed.

Lemma days_apart_count_range
  (t : Transaction) (all_transactions : list Transaction) (n off : Z)
  (c : cache) (d0 : datetime) (dates : list datetime) :
  cache_ok c -> n <> 0 ->
  strptime (date t) = Ok d0 ->
  parse_dates all_transactions = Ok dates ->
  let k := len (filter (fun d => is_near n off (days_from d0 d)) dates) in
  fst (get_n_transactions_days_apart t all_transactions n off c) = Ok k
  /\ 0 <= k <= len all_transactions.
Proof.
  intros Hc Hn Ht Hp k.
  rewrite (get_n_transactions_days_apart_count_near _ _ _ _ _ _ _ Hc Ht Hp).
  rewrite count_near_nonzero_interval by assumption.
  split; [reflexivity |].
  pose proof (filter_length_le (fun d => is_near n off (days_from d0 d)) dates) as Hle.
  pose proof (parse_dates_length _ _ Hp) as Hlen.
  subst k. unfold len. lia.
Qed.

(** X1: with a non-zero interval, well-formed dates and a coherent cache,
    [get_n_transactions_days_apart] returns the number of transactions
    whose distance to the target is at least the interval minus the
    tolerance and whose remainder modulo the interval is within the
    tolerance of zero or of the interval; that count lies between 0 and
    the length of the history. *)
Theorem get_n_transactions_days_apart_counts
  (t : Transaction) (all_transactions : list Transaction) (n off : Z)
  (c : cache) (d0 : datetime) (dates : list datetime) :
  cache_ok c -> n <> 0 ->
  strptime (date t) = Ok d0 ->
  parse_dates all_transactions = Ok dates ->
  let k := len (filter (fun d =>
                          let diff := Z.abs (days_between d d0) in
                          negb (diff <? n - off)
                          && ((diff mod n <=? off) || (diff mod n >=? n - off)))
                       dates) in
  fst (get_n_transactions_days_apart t all_transactions n off c) = Ok k
  /\ 0 <= k <= len all_transactions.
Proof. exact (days_apart_count_range t all_transactions n off c d0 dates). Qed.

Lemma get_n_transactions_days_apart_counts_witness :
  fst (get_n_transactions_days_apart (spotify "2024-01-01")
         [spotify "2024-01-01"; spotify "2024-01-08"; spotify "2024-01-10"] 7 0 [])
  = Ok 1.
Proof.
  apply (get_n_transactions_days_apart_counts (spotify "2024-01-01")
           [spotify "2024-01-01"; spotify "2024-01-08"; spotify "2024-01-10"] 7 0 []
           (mkdate 2024 1 1) [mkdate 2024 1 1; mkdate 2024 1 8; mkdate 2024 1 10]).
  - exact cache_ok_empty.
  - discriminate.
  - reflexivity.
  - reflexivity.
Defined.

Lemma is_near_same_day (n off : Z) (d0 d : datetime) :
  off < n -> date_eqb d d0 = true -> is_near n off (days_from d0 d) = false.
Proof.
  intros Hoff E. apply date_eqb_eq in E. subst d.
  unfold is_near, days_from, days_between.
  replace (toordinal d0 - toordinal d0) with 0 by lia.
  replace (Z.abs 0 <? n - off) with true by (symmetry; apply Z.ltb_lt; simpl; lia).
  reflexivity.
Qed.

Lemma filter_disjoint_length {A : Type} (p q : A -> bool) (l : list A) :
  (forall x, q x = true -> p x = false) ->
  len (filter p l) + len (filter q l) <= len l.
Proof.
  intros H. unfold len. induction l as [| x l IH]; simpl; [lia |].
  destruct (q x) eqn:Q.
  - rewrite (H x Q). simpl List.length. lia.
  - destruct (p x); simpl List.length; lia.
Qed.

(** X2: a transaction dated as the target, the target itself included,
    is never counted by [get_n_transactions_days_apart] when the
    tolerance is smaller than the interval: the count and the number of
    transactions on the target's date together stay within the length of
    the history. *)
Theorem get_n_transactions_days_apart_skips_same_day
  (t : Transaction) (all_transactions : list Transaction) (n off : Z)
  (c : cache) (d0 : datetime) (dates : list datetime) :
  cache_ok c -> n <> 0 -> off < n ->
  strptime (date t) = Ok d0 ->
  parse_dates all_transactions = Ok dates ->
  exists k,
    fst (get_n_transactions_days_apart t all_transactions n off c) = Ok k
    /\ k + len (filter (fun d => date_eqb d d0) dates) <= len all_transactions.
Proof.
  intros Hc Hn Hoff Ht Hp.
  rewrite (get_n_transactions_days_apart_count_near _ _ _ _ _ _ _ Hc Ht Hp).
  rewrite count_near_nonzero_interval by assumption.
  eexists. split; [reflexivity |].
  pose proof (parse_dates_length _ _ Hp) as Hlen.
  pose proof (filter_disjoint_length
                (fun d => is_near n off (days_from d0 d))
                (fun d => date_eqb d d0) dates
                (fun d => is_near_same_day n off d0 d Hoff)) as Hle.
  unfold len in *. lia.
Qed.

Lemma get_n_transactions_days_apart_skips_same_day_witness :
  exists k,
    fst (get_n_transactions_days_apart netflix [netflix; netflix_other_user] 7 1 []) = Ok k
    /\ k + 2 <= 2.
Proof.
  apply (get_n_transactions_days_apart_skips_same_day netflix
           [netflix; netflix_other_user] 7 1 []
           (mkdate 2024 3 1) [mkdate 2024 3 1; mkdate 2024 3 1]).
  - exact cache_ok_empty.
  - discriminate.
  - lia.
  - reflexivity.
  - reflexivity.
Defined.

(** X3: with a positive interval and a non-negative tolerance, every
    transaction that lies a positive whole number of intervals away from
    the target is counted: when all of them do,
    [get_n_transactions_days_apart] returns the length of the history. *)
Theorem get_n_transactions_days_apart_counts_multiples
  (t : Transaction) (all_transactions : list Transaction) (n off : Z)
  (c : cache) (d0 : datetime) (dates : list datetime) :
  cache_ok c -> 0 < n -> 0 <= off ->
  strptime (date t) = Ok d0 ->
  parse_dates all_transactions = Ok dates ->
  (forall d, In d dates -> exists m, 1 <= m /\ days_from d0 d = m * n) ->
  fst (get_n_transactions_days_apart t all_transactions n off c)
  = Ok (len all_transactions).
Proof.
  intros Hc Hn Hoff Ht Hp Hmult.
  rewrite (get_n_transactions_days_apart_count_near _ _ _ _ _ _ _ Hc Ht Hp).
  rewrite count_near_nonzero_interval by lia.
  f_equal. unfold len. rewrite <- (parse_dates_length _ _ Hp). f_equal. f_equal.
  apply forallb_filter_id. apply forallb_forall. intros d Hd.
  destruct (Hmult d Hd) as (m & Hm & E). unfold is_near. rewrite E.
  rewrite Z.mod_mul by lia.
  apply andb_true_intro. split.
  - apply negb_true_iff, Z.ltb_ge. nia.
  - apply orb_true_intro. left. apply Z.leb_le. assumption.
Qed.

Lemma get_n_transactions_days_apart_counts_multiples_witness :
  fst (get_n_transactions_days_apart (spotify "2024-01-01")
         [spotify "2024-01-15"; spotify "2024-01-29"] 14 0 [])
  = Ok 2.
Proof.
  apply (get_n_transactions_days_apart_counts_multiples (spotify "2024-01-01")
           [spotify "2024-01-15"; spotify "2024-01-29"] 14 0 []
           (mkdate 2024 1 1) [mkdate 2024 1 15; mkdate 2024 1 29]).
  - exact cache_ok_empty.
  - lia.
  - lia.
  - reflexivity.
  - reflexivity.
  - intros d [<- | [<- | []]]; [exists 1 | exists 2]; split; (lia || reflexivity).
Defined.

(** X4: the interval is not validated.  With an interval of zero and a
    non-negative tolerance no transaction is skipped as too close, and
    on any non-empty history with well-formed dates
    [get_n_transactions_days_apart] raises [ZeroDivisionError] at the
    remainder. *)
Theorem get_n_transactions_days_apart_zero_interval
  (t : Transaction) (all_transactions : list Transaction) (off : Z)
  (c : cache) (d0 : datetime) (dates : list datetime) :
  cache_ok c -> 0 <= off -> all_transactions <> [] ->
  strptime (date t) = Ok d0 ->
  parse_dates all_transactions = Ok dates ->
  fst (get_n_transactions_days_apart t all_transactions 0 off c)
  = Err ZeroDivisionError.
Proof.
  intros Hc Hoff Hne Ht Hp.
  rewrite (get_n_transactions_days_apart_count_near _ _ _ _ _ _ _ Hc Ht Hp).
  destruct all_transactions as [| t1 rest]; [contradiction |].
  unfold parse_dates in Hp. simpl in Hp.
  apply bind_ok in Hp as (d & _ & Hp). apply bind_ok in Hp as (ds & _ & Hp).
  apply Ok_inj in Hp. subst dates.
  unfold count_near. simpl filterM. unfold near at 1.
  replace (days_from d0 d <? 0 - off) with false; [reflexivity |].
  symmetry. apply Z.ltb_ge. unfold days_from. lia.
Qed.

Lemma get_n_transactions_days_apart_zero_interval_witness :
  fst (get_n_transactions_days_apart netflix [netflix] 0 0 []) = Err ZeroDivisionError.
Proof.
  apply (get_n_transactions_days_apart_zero_interval netflix [netflix] 0 []
           (mkdate 2024 3 1) [mkdate 2024 3 1]).
  - exact cache_ok_empty.
  - lia.
  - discriminate.
  - reflexivity.
  - reflexivity.
Defined.

Lemma int_truediv_fraction_ok (a b : Z) :
  0 <= a <= b -> 0 < b -> exists x, Float.int_truediv a b = Ok x.
Proof.
  intros Ha Hb. apply int_truediv_ok; [assumption | lia].
Qed.

(** X5: [get_pct_transactions_days_apart] returns a float on every
    non-empty history with well-formed dates, for a non-zero interval:
    the empty history is its only division by zero. *)
Theorem get_pct_transactions_days_apart_defined
  (t : Transaction) (all_transactions : list Transaction) (n off : Z)
  (c : cache) (d0 : datetime) (dates : list datetime) :
  cache_ok c -> n <> 0 -> all_transactions <> [] ->
  strptime (date t) = Ok d0 ->
  parse_dates all_transactions = Ok dates ->
  exists k x,
    fst (get_n_transactions_days_apart t all_transactions n off c) = Ok k
    /\ Float.int_truediv k (len all_transactions) = Ok x
    /\ fst (get_pct_transactions_days_apart t all_transactions n off c) = Ok x.
Proof.
  intros Hc Hn Hne Ht Hp.
  destruct (days_apart_count_range _ _ n off _ _ _ Hc Hn Ht Hp) as [Hk Hrange].
  set (k := len (filter (fun d => is_near n off (days_from d0 d)) dates)) in *.
  assert (Hpos : 0 < len all_transactions).
  { destruct all_transactions; [contradiction | unfold len; simpl List.length; lia]. }
  destruct (int_truediv_fraction_ok k (len all_transactions) Hrange Hpos) as (x & Hx).
  exists k, x. split; [assumption | split; [assumption |]].
  unfold get_pct_transactions_days_apart, bindM, lift.
  destruct (get_n_transactions_days_apart t all_transactions n off c) as [r c1].
  simpl in Hk. subst r. simpl. assumption.
Qed.

Lemma get_pct_transactions_days_apart_defined_witness :
  exists k x,
    fst (get_n_transactions_days_apart (spotify "2024-01-01")
           [spotify "2024-01-01"; spotify "2024-01-08"] 7 0 []) = Ok k
    /\ Float.int_truediv k 2 = Ok x
    /\ fst (get_pct_transactions_days_apart (spotify "2024-01-01")
              [spotify "2024-01-01"; spotify "2024-01-08"] 7 0 []) = Ok x.
Proof.
  apply (get_pct_transactions_days_apart_defined (spotify "2024-01-01")
           [spotify "2024-01-01"; spotify "2024-01-08"] 7 0 []
           (mkdate 2024 1 1) [mkdate 2024 1 1; mkdate 2024 1 8]).
  - exact cache_ok_empty.
  - discriminate.
  - discriminate.
  - reflexivity.
  - reflexivity.
Defined.

(** ** The two readers of a date *)

Ltac ascii_cases c :=
  destruct c as [[] [] [] [] [] [] [] []].

Lemma digit_not_dash (c : ascii) : is_digit c = true -> Ascii.eqb c "-" = false.
Proof. ascii_cases c; intros H; try discriminate H; reflexivity. Qed.

Lemma in_range_is_digit (lo hi c : ascii) :
  is_digit lo = true -> is_digit hi = true ->
  in_range lo hi c = true -> is_digit c = true.
Proof.
  unfold in_range, is_digit. intros Hlo Hhi H.
  apply andb_prop in Hlo as [L1 L2]. apply andb_prop in Hhi as [H1 H2].
  apply andb_prop in H as [R1 R2].
  apply Nat.leb_le in L1, L2, H1, H2, R1, R2.
  apply andb_true_intro. split; apply Nat.leb_le; lia.
Qed.

Lemma int_of_string_digit_head (a : ascii) (s : string) :
  is_digit a = true -> int_of_string (String a s) = int_digits (String a s) 0 false.
Proof. ascii_cases a; intros H; try discriminate H; reflexivity. Qed.

Lemma int_of_string_one_digit (a : ascii) :
  is_digit a = true -> int_of_string (String a "") = Ok (digit_val a).
Proof.
  intros H. rewrite int_of_string_digit_head by assumption.
  simpl. rewrite H. reflexivity.
Qed.

Lemma int_of_string_two_digits (a b : ascii) :
  is_digit a = true -> is_digit b = true ->
  int_of_string (String a (String b "")) = Ok (10 * digit_val a + digit_val b).
Proof.
  intros Ha Hb. rewrite int_of_string_digit_head by assumption.
  cbn [int_digits]. rewrite Ha. cbn [int_digits]. rewrite Hb.
  f_equal; lia.
Qed.

Lemma int_of_string_space_digit (b : ascii) :
  is_digit b = true -> int_of_string (String " " (String b "")) = Ok (digit_val b).
Proof. ascii_cases b; intros H; try discriminate H; reflexivity. Qed.

Lemma split_on_skip (sep c : ascii) (s : string) :
  Ascii.eqb c sep = false ->
  split_on sep (String c s)
  = match split_on sep s with
    | [] => [String c ""]
    | w :: ws => String c w :: ws
    end.
Proof. intros H. simpl. rewrite H. reflexivity. Qed.

Lemma split_on_sep (sep : ascii) (s : string) :
  split_on sep (String sep s) = "" :: split_on sep s.
Proof. simpl. rewrite Ascii.eqb_refl. reflexivity. Qed.

(** The third field of a string made of a year field, a dash, a month
    field of one or two characters without a dash, a dash, and a rest. *)
Lemma third_field (a b c d : ascii) (month_field rest : string) :
  Ascii.eqb a "-" = false -> Ascii.eqb b "-" = false ->
  Ascii.eqb c "-" = false -> Ascii.eqb d "-" = false ->
  (exists m1, month_field = String m1 "" /\ Ascii.eqb m1 "-" = false)
  \/ (exists m1 m2, month_field = String m1 (String m2 "")
                    /\ Ascii.eqb m1 "-" = false /\ Ascii.eqb m2 "-" = false) ->
  split_on "-" rest = [rest] ->
  list_get (split_on "-"
              (String a (String b (String c (String d
                 (String "-" (month_field ++ String "-" rest))))))) 2
  = Ok rest.
Proof.
  intros Ha Hb Hc Hd Hm Hrest.
  rewrite !split_on_skip by assumption. rewrite split_on_sep.
  destruct Hm as [(m1 & -> & H1) | (m1 & m2 & -> & H1 & H2)]; simpl String.append.
  - rewrite split_on_skip by assumption. rewrite split_on_sep, Hrest. reflexivity.
  - rewrite !split_on_skip by assumption. rewrite split_on_sep, Hrest. reflexivity.
Qed.

Lemma read_year_shape (s s1 : string) (y : Z) :
  read_year s = Some (y, s1) ->
  exists a b c d,
    s = String a (String b (String c (String d s1)))
    /\ Ascii.eqb a "-" = false /\ Ascii.eqb b "-" = false
    /\ Ascii.eqb c "-" = false /\ Ascii.eqb d "-" = false.
Proof.
  unfold read_year.
  destruct s as [| a [| b [| c [| d s]]]]; try discriminate.
  destruct (is_digit a) eqn:Da; [| discriminate].
  destruct (is_digit b) eqn:Db; [| discriminate].
  destruct (is_digit c) eqn:Dc; [| discriminate].
  destruct (is_digit d) eqn:Dd; [| discriminate].
  cbn [andb]. intros E. apply some_pair in E as [_ <-].
  exists a, b, c, d. repeat split; try reflexivity; apply digit_not_dash; assumption.
Qed.

Lemma read_dash_shape (s s' : string) : read_dash s = Some s' -> s = String "-" s'.
Proof.
  unfold read_dash. destruct s as [| c s]; [discriminate |].
  destruct (Ascii.eqb c "-") eqn:E; [| discriminate].
  apply Ascii.eqb_eq in E. subst c. intros [= ->]. reflexivity.
Qed.

Ltac digit_of R :=
  apply in_range_is_digit in R; [| reflexivity | reflexivity].

Lemma read_month_shape (s rest : string) (m : Z) :
  read_month s = Some (m, rest) ->
  exists field,
    s = (field ++ rest)%string
    /\ ((exists m1, field = String m1 "" /\ Ascii.eqb m1 "-" = false)
        \/ (exists m1 m2, field = String m1 (String m2 "")
                          /\ Ascii.eqb m1 "-" = false /\ Ascii.eqb m2 "-" = false)).
Proof.
  unfold read_month.
  destruct s as [| a [| b s]]; try discriminate.
  - destruct (in_range "1" "9" a) eqn:R; [| discriminate].
    intros E. apply some_pair in E as [_ <-]. digit_of R.
    exists (String a ""). split; [reflexivity |]. left. eauto using digit_not_dash.
  - destruct (Ascii.eqb a "1" && in_range "0" "2" b) eqn:C1.
    { intros E. apply some_pair in E as [_ <-]. apply andb_prop in C1 as [A R].
      apply Ascii.eqb_eq in A. subst a. digit_of R.
      exists (String "1" (String b "")). split; [reflexivity |]. right.
      exists "1"%char, b. auto using digit_not_dash. }
    destruct (Ascii.eqb a "0" && in_range "1" "9" b) eqn:C2.
    { intros E. apply some_pair in E as [_ <-]. apply andb_prop in C2 as [A R].
      apply Ascii.eqb_eq in A. subst a. digit_of R.
      exists (String "0" (String b "")). split; [reflexivity |]. right.
      exists "0"%char, b. auto using digit_not_dash. }
    destruct (in_range "1" "9" a) eqn:R; [| discriminate].
    intros E. apply some_pair in E as [_ <-]. digit_of R.
    exists (String a ""). split; [reflexivity |]. left. eauto using digit_not_dash.
Qed.

Lemma read_day_shape (s : string) (d : Z) :
  read_day s = Some (d, "") ->
  split_on "-" s = [s] /\ int_of_string s = Ok d.
Proof.
  unfold read_day.
  destruct s as [| a [| b s]]; try discriminate.
  - destruct (in_range "1" "9" a) eqn:R; [| discriminate].
    intros E. apply some_pair in E as [<- _]. digit_of R. split.
    + rewrite split_on_skip by (apply digit_not_dash; assumption). reflexivity.
    + apply int_of_string_one_digit. assumption.
  - destruct (Ascii.eqb a "3" && in_range "0" "1" b) eqn:C1.
    { intros E. apply some_pair in E as [<- ->]. apply andb_prop in C1 as [A R].
      apply Ascii.eqb_eq in A. subst a. digit_of R. split.
      - rewrite !split_on_skip by first [reflexivity | apply digit_not_dash; assumption]. reflexivity.
      - rewrite int_of_string_two_digits by auto. reflexivity. }
    destruct (in_range "1" "2" a && is_digit b) eqn:C2.
    { intros E. apply some_pair in E as [<- ->]. apply andb_prop in C2 as [R D].
      digit_of R. split.
      - rewrite !split_on_skip by (apply digit_not_dash; assumption). reflexivity.
      - apply int_of_string_two_digits; assumption. }
    destruct (Ascii.eqb a "0" && in_range "1" "9" b) eqn:C3.
    { intros E. apply some_pair in E as [<- ->]. apply andb_prop in C3 as [A R].
      apply Ascii.eqb_eq in A. subst a. digit_of R. split.
      - rewrite !split_on_skip by first [reflexivity | apply digit_not_dash; assumption]. reflexivity.
      - rewrite int_of_string_two_digits by auto. f_equal. }
    destruct (in_range "1" "9" a) eqn:R.
    { intros E. apply some_pair in E as [_ E]. discriminate E. }
    destruct (Ascii.eqb a " " && in_range "1" "9" b) eqn:C5; [| discriminate].
    intros E. apply some_pair in E as [<- ->]. apply andb_prop in C5 as [A R5].
    apply Ascii.eqb_eq in A. subst a. digit_of R5. split.
    + rewrite !split_on_skip by first [reflexivity | apply digit_not_dash; assumption]. reflexivity.
    + apply int_of_string_space_digit. assumption.
Qed.

(** X6: the two readers of a date agree.  On every string that
    [strptime] accepts, [_get_day], which splits on dashes and converts
    the third field, returns the day of the parsed date. *)
Theorem _get_day_agrees_with_strptime (s : string) (d : datetime) :
  strptime s = Ok d -> _get_day s = Ok (day d).
Proof.
  unfold strptime, match_ymd.
  destruct (read_year s) as [[y s1] |] eqn:Y; [| discriminate].
  destruct (read_dash s1) as [s2 |] eqn:D1; [| discriminate].
  destruct (read_month s2) as [[m s3] |] eqn:Mo; [| discriminate].
  destruct (read_dash s3) as [s4 |] eqn:D2; [| discriminate].
  destruct (read_day s4) as [[dd [| ? ?]] |] eqn:Dd; try discriminate.
  destruct ((1 <=? y) && (dd <=? days_in_month y m)); [| discriminate].
  intros E. apply Ok_inj in E. subst d. cbn [day].
  apply read_year_shape in Y as (a & b & c & d & -> & Ha & Hb & Hc & Hd).
  apply read_dash_shape in D1. subst s1.
  apply read_month_shape in Mo as (field & -> & Hfield).
  apply read_dash_shape in D2. subst s3.
  apply read_day_shape in Dd as [Hsplit Hint].
  unfold _get_day.
  rewrite (third_field a b c d field s4 Ha Hb Hc Hd Hfield Hsplit).
  exact Hint.
Qed.

Lemma _get_day_agrees_with_strptime_witness :
  _get_day "2024-3- 7" = Ok 7.
Proof.
  apply (_get_day_agrees_with_strptime "2024-3- 7" (mkdate 2024 3 7)). reflexivity.
Defined.

(** ** Same day of the month *)

Lemma filterM_in {A : Type} (p : A -> result bool) (l kept : list A) (x : A) :
  filterM p l = Ok kept -> In x l -> p x = Ok true -> In x kept.
Proof.
  revert kept. induction l as [| y l IH]; simpl; intros kept E Hin Hp; [contradiction |].
  apply bind_ok in E as (b & Hb & E). apply bind_ok in E as (ys & Hys & E).
  apply Ok_inj in E. subst kept.
  destruct Hin as [-> | Hin].
  - rewrite Hp in Hb. apply Ok_inj in Hb. subst b. left. reflexivity.
  - specialize (IH ys Hys Hin Hp). destruct b; [right |]; assumption.
Qed.

Lemma filterM_ok_in {A : Type} (p : A -> result bool) (l kept : list A) (x : A) :
  filterM p l = Ok kept -> In x l -> exists b, p x = Ok b.
Proof.
  revert kept. induction l as [| y l IH]; simpl; intros kept E Hin; [contradiction |].
  apply bind_ok in E as (b & Hb & E). apply bind_ok in E as (ys & Hys & E).
  destruct Hin as [-> | Hin]; [eauto | eapply IH; eassumption].
Qed.

Lemma filterM_monotone {A : Type} (p q : A -> result bool) (l : list A) :
  (forall x, test_le (p x) (q x)) ->
  result_le (fmap len (filterM p l)) (fmap len (filterM q l)).
Proof.
  intros H.
  assert (G : match filterM p l, filterM q l with
              | Ok l1, Ok l2 => len l1 <= len l2
              | Err e1, Err e2 => e1 = e2
              | _, _ => False
              end).
  { induction l as [| x l IH]; simpl; [lia |].
    specialize (H x). unfold test_le in H.
    destruct (p x) as [b1 | e1], (q x) as [b2 | e2];
      try contradiction; cbn [bind]; try assumption.
    destruct (filterM p l) as [l1 | e1], (filterM q l) as [l2 | e2];
      try contradiction; cbn [bind]; try assumption.
    unfold len in *.
    destruct b1, b2; simpl List.length; lia. }
  unfold result_le, fmap.
  destruct (filterM p l), (filterM q l); cbn [bind]; assumption.
Qed.

Lemma same_day_count_monotone
  (t : Transaction) (all_transactions : list Transaction) (off1 off2 : Z) :
  off1 <= off2 ->
  result_le (get_n_transactions_same_day t all_transactions off1)
            (get_n_transactions_same_day t all_transactions off2).
Proof.
  intros Hoff. unfold get_n_transactions_same_day.
  apply (filterM_monotone
           (fun t' => a <- _get_day (date t') ;; b <- _get_day (date t) ;;
                      Ok (Z.abs (a - b) <=? off1))
           (fun t' => a <- _get_day (date t') ;; b <- _get_day (date t) ;;
                      Ok (Z.abs (a - b) <=? off2))).
  intros t'. unfold test_le.
  destruct (_get_day (date t')) as [a | e]; cbn [bind]; [| reflexivity].
  destruct (_get_day (date t)) as [b | e]; cbn [bind]; [| reflexivity].
  intros H. apply Z.leb_le in H. apply Z.leb_le. lia.
Qed.

(** X7: [get_n_transactions_same_day] never returns less for a larger
    tolerance: for [off1 <= off2] the two calls raise the same exception
    or return counts in order. *)
Theorem get_n_transactions_same_day_monotone
  (t : Transaction) (all_transactions : list Transaction) (off1 off2 : Z) :
  off1 <= off2 ->
  result_le (get_n_transactions_same_day t all_transactions off1)
            (get_n_transactions_same_day t all_transactions off2).
Proof. exact (same_day_count_monotone t all_transactions off1 off2). Qed.

Lemma get_n_transactions_same_day_monotone_witness :
  result_le (get_n_transactions_same_day (spotify "2024-01-01")
               [spotify "2024-01-01"; spotify "2024-02-02"] 0)
            (get_n_transactions_same_day (spotify "2024-01-01")
               [spotify "2024-01-01"; spotify "2024-02-02"] 1).
Proof. apply get_n_transactions_same_day_monotone. lia. Defined.

Lemma same_day_count_range
  (t : Transaction) (all_transactions : list Transaction) (off k : Z) :
  get_n_transactions_same_day t all_transactions off = Ok k ->
  0 <= k <= len all_transactions
  /\ (In t all_transactions -> 0 <= off -> 1 <= k)
  /\ (all_transactions <> [] ->
      exists x, get_pct_transactions_same_day t all_transactions off = Ok x).
Proof.
  unfold get_pct_transactions_same_day. intros E. rewrite E. cbn [bind].
  unfold get_n_transactions_same_day in E.
  apply bind_ok in E as (kept & Hkept & E). apply Ok_inj in E. subst k.
  pose proof (filterM_length _ _ _ Hkept) as Hrange.
  split; [assumption | split].
  - intros Hin Hoff.
    destruct (filterM_ok_in _ _ _ t Hkept Hin) as (b & Hb).
    assert (Hself : In t kept).
    { apply (filterM_in _ _ _ t Hkept Hin).
      destruct (_get_day (date t)) as [a | e]; cbn [bind] in *; [| discriminate Hb].
      f_equal. apply Z.leb_le. lia. }
    destruct kept as [| x kept]; [contradiction |].
    unfold len. simpl List.length. lia.
  - intros Hne. apply int_truediv_fraction_ok; [assumption |].
    destruct all_transactions; [contradiction | unfold len; simpl List.length; lia].
Qed.


(** X8: when [get_n_transactions_same_day] returns, its count lies
    between 0 and the length of the history; with a non-negative
    tolerance a target that belongs to the history counts itself, so the
    count is at least 1; and on a non-empty history
    [get_pct_transactions_same_day] then returns a float. *)
Theorem get_n_transactions_same_day_range
  (t : Transaction) (all_transactions : list Transaction) (off k : Z) :
  get_n_transactions_same_day t all_transactions off = Ok k ->
  0 <= k <= len all_transactions
  /\ (In t all_transactions -> 0 <= off -> 1 <= k)
  /\ (all_transactions <> [] ->
      exists x, get_pct_transactions_same_day t all_transactions off = Ok x).
Proof. exact (same_day_count_range t all_transactions off k). Qed.

Lemma get_n_transactions_same_day_range_witness :
  0 <= 1 <= 2
  /\ (In netflix [netflix; spotify "2024-01-09"] -> 0 <= 0 -> 1 <= 1)
  /\ ([netflix; spotify "2024-01-09"] <> [] ->
      exists x,
        get_pct_transactions_same_day netflix [netflix; spotify "2024-01-09"] 0 = Ok x).
Proof.
  apply (get_n_transactions_same_day_range netflix [netflix; spotify "2024-01-09"] 0 1).
  reflexivity.
Defined.

(** ** Same amount *)

(** X9: [get_n_transactions_same_amount] lies between 0 and the length
    of the history and is at least 1 when the target belongs to the
    history and its amount is not NaN;
    [get_percent_transactions_same_amount] returns a float on every
    input. *)
Theorem same_amount_range (t : Transaction) (all_transactions : list Transaction) :
  0 <= get_n_transactions_same_amount t all_transactions <= len all_transactions
  /\ (In t all_transactions -> is_nan (amount t) = false ->
      1 <= get_n_transactions_same_amount t all_transactions)
  /\ exists x, get_percent_transactions_same_amount t all_transactions = Ok x.
Proof.
  unfold get_n_transactions_same_amount.
  pose proof (filter_length_le (same_amount t) all_transactions) as Hle.
  assert (Hrange : 0 <= len (filter (same_amount t) all_transactions)
                   <= len all_transactions) by (unfold len; lia).
  split; [assumption | split].
  - intros Hin Hnan.
    assert (Hself : In t (filter (same_amount t) all_transactions)).
    { apply filter_In. split; [assumption |].
      unfold same_amount. unfold is_nan in Hnan.
      apply negb_false_iff in Hnan. assumption. }
    destruct (filter (same_amount t) all_transactions); [contradiction |].
    unfold len. simpl List.length. lia.
  - unfold get_percent_transactions_same_amount.
    destruct all_transactions as [| t1 rest] eqn:E; [eauto |].
    rewrite <- E in *. apply int_truediv_fraction_ok; [assumption |].
    subst all_transactions. unfold len. simpl List.length. lia.
Qed.

Lemma same_amount_range_witness :
  1 <= get_n_transactions_same_amount netflix [netflix; brigit_999].
Proof.
  apply (same_amount_range netflix [netflix; brigit_999]).
  - left. reflexivity.
  - reflexivity.
Defined.

(** ** The recurrence classifier never raises outside Apple *)

Lemma round_error (x : float) (e : exn) :
  Float.round x = Err e
  <-> (e = ValueError /\ Prim2SF x = S754_nan)
      \/ (e = OverflowError /\ exists s, Prim2SF x = S754_infinity s).
Proof.
  unfold Float.round. destruct (Prim2SF x) as [s | s | | s m ex]; split;
    try discriminate;
    try (intros [[_ H] | [_ [s' H]]]; discriminate H).
  - intros [= <-]. right. eauto.
  - intros [[_ H] | [-> _]]; [discriminate H | reflexivity].
  - intros [= <-]. left. auto.
  - intros [[-> _] | [_ [s' H]]]; [reflexivity | discriminate H].
Qed.

Lemma is_valid_recurring_transaction_error (t : Transaction) (e : exn) :
  is_valid_recurring_transaction t = Err e
  <-> lower (name t) = "apple"
      /\ ((e = ValueError /\ Prim2SF (amount t) = S754_nan)
          \/ (e = OverflowError /\ exists s, Prim2SF (amount t) = S754_infinity s)).
Proof.
  unfold is_valid_recurring_transaction. cbv zeta.
  destruct (String.eqb (lower (name t)) "apple") eqn:A.
  - apply String.eqb_eq in A. rewrite <- round_error.
    destruct (Float.round (amount t)) as [r | e']; cbn [bind]; split.
    + discriminate.
    + intros [_ H]. discriminate H.
    + intros [= ->]. split; [assumption | reflexivity].
    + intros [_ [= ->]]. reflexivity.
  - apply String.eqb_neq in A. split; [| intros [H _]; contradiction].
    repeat match goal with |- context [if ?b then _ else _] => destruct b end;
      discriminate.
Qed.

(** X10: [is_valid_recurring_transaction] raises in one situation only:
    an Apple transaction whose amount is NaN ([ValueError] from [round])
    or infinite ([OverflowError]).  For every other transaction it
    returns a Boolean. *)
Theorem is_valid_recurring_transaction_raises (t : Transaction) (e : exn) :
  is_valid_recurring_transaction t = Err e
  <-> lower (name t) = "apple"
      /\ ((e = ValueError /\ Prim2SF (amount t) = S754_nan)
          \/ (e = OverflowError /\ exists s, Prim2SF (amount t) = S754_infinity s)).
Proof.
  exact (is_valid_recurring_transaction_error t e).
Qed.

(** ** The order of dates *)

Lemma strptime_valid (s : string) (d : datetime) : strptime s = Ok d -> valid_date d.
Proof.
  unfold strptime, match_ymd.
  destruct (read_year s) as [[y s1] |] eqn:Y; [| discriminate].
  destruct (read_dash s1) as [s2 |]; [| discriminate].
  destruct (read_month s2) as [[m s3] |] eqn:Mo; [| discriminate].
  destruct (read_dash s3) as [s4 |]; [| discriminate].
  destruct (read_day s4) as [[dd [| ? ?]] |] eqn:Dd; try discriminate.
  destruct (1 <=? y) eqn:Y1; [| discriminate].
  destruct (dd <=? days_in_month y m) eqn:Dm; [| discriminate].
  cbn [andb]. intros E. apply Ok_inj in E. subst d.
  apply read_month_range in Mo. apply read_day_range in Dd.
  apply Z.leb_le in Y1, Dm. unfold valid_date. cbn [year month day]. lia.
Qed.

Lemma parse_dates_valid (l : list Transaction) (ds : list datetime) :
  parse_dates l = Ok ds -> Forall valid_date ds.
Proof.
  intros E. apply Forall_forall. intros d Hd.
  destruct (parse_dates_in l ds E d Hd) as (t & _ & P).
  apply strptime_valid in P. assumption.
Qed.

Lemma days_before_month_succ (y m : Z) :
  1 <= m -> days_before_month y (m + 1) = days_before_month y m + days_in_month y m.
Proof.
  intros Hm. unfold days_before_month.
  replace (Z.to_nat (m + 1 - 1)) with (S (Z.to_nat (m - 1))) by lia.
  change (days_before_month_from y (S (Z.to_nat (m - 1))))
    with (days_before_month_from y (Z.to_nat (m - 1))
          + days_in_month y (Z.of_nat (S (Z.to_nat (m - 1))))).
  do 2 f_equal. lia.
Qed.

Lemma days_before_month_next (y m1 : Z) (k : nat) :
  1 <= m1 ->
  days_before_month y m1 + days_in_month y m1
  <= days_before_month y (m1 + 1 + Z.of_nat k).
Proof.
  intros Hm. induction k as [| k IH].
  - rewrite Z.add_0_r, days_before_month_succ by assumption. lia.
  - replace (m1 + 1 + Z.of_nat (S k)) with (m1 + 1 + Z.of_nat k + 1) by lia.
    rewrite days_before_month_succ by lia.
    pose proof (days_in_month_range y (m1 + 1 + Z.of_nat k)). lia.
Qed.

Lemma days_before_month_lt (y m1 m2 : Z) :
  1 <= m1 -> m1 < m2 ->
  days_before_month y m1 + days_in_month y m1 <= days_before_month y m2.
Proof.
  intros H1 H12.
  replace m2 with (m1 + 1 + Z.of_nat (Z.to_nat (m2 - m1 - 1))) by lia.
  apply days_before_month_next. assumption.
Qed.

Lemma days_in_year (y : Z) :
  days_before_month y 13 = if is_leap y then 366 else 365.
Proof.
  unfold days_before_month. simpl. unfold days_in_month. simpl.
  destruct (is_leap y); reflexivity.
Qed.

Lemma days_before_year_succ (y : Z) :
  1 <= y -> days_before_year (y + 1) = days_before_year y + days_before_month y 13.
Proof.
  intros Hy. rewrite days_in_year. unfold days_before_year, is_leap.
  replace (y + 1 - 1) with y by lia.
  destruct (y mod 4 =? 0) eqn:M4; destruct (y mod 100 =? 0) eqn:M100;
    destruct (y mod 400 =? 0) eqn:M400; cbn [andb orb negb];
    first [apply Z.eqb_eq in M4 | apply Z.eqb_neq in M4];
    first [apply Z.eqb_eq in M100 | apply Z.eqb_neq in M100];
    first [apply Z.eqb_eq in M400 | apply Z.eqb_neq in M400];
    Z.div_mod_to_equations; lia.
Qed.

Lemma days_before_year_le (y1 : Z) (k : nat) :
  1 <= y1 -> days_before_year (y1 + 1) <= days_before_year (y1 + 1 + Z.of_nat k).
Proof.
  intros Hy. induction k as [| k IH]; [rewrite Z.add_0_r; lia |].
  replace (y1 + 1 + Z.of_nat (S k)) with (y1 + 1 + Z.of_nat k + 1) by lia.
  rewrite (days_before_year_succ (y1 + 1 + Z.of_nat k)) by lia.
  rewrite days_in_year. destruct (is_leap _); lia.
Qed.

Lemma days_before_month_nonneg (y m : Z) : 0 <= days_before_month y m.
Proof. unfold days_before_month. apply days_before_month_from_range. Qed.

(** The ordinal grows with the date. *)
Lemma toordinal_monotone (a b : datetime) :
  valid_date a -> valid_date b -> date_leb a b = true -> toordinal a <= toordinal b.
Proof.
  destruct a as [ya ma da], b as [yb mb db].
  unfold valid_date, date_leb, toordinal. cbn [year month day].
  intros (Hya & Hma & Hda) (Hyb & Hmb & Hdb) H.
  pose proof (days_before_month_nonneg yb mb) as Hnn.
  apply orb_prop in H as [H | H].
  - apply Z.ltb_lt in H.
    assert (Hend : days_before_month ya ma + days_in_month ya ma
                   <= days_before_month ya 13)
      by (destruct (Z.eq_dec ma 12) as [-> | Hne];
          [rewrite <- (days_before_month_succ ya 12) by lia; simpl; lia
          | apply days_before_month_lt; lia]).
    pose proof (days_before_year_succ ya Hya) as Hsucc.
    pose proof (days_before_year_le ya (Z.to_nat (yb - ya - 1)) Hya) as Hle.
    replace (ya + 1 + Z.of_nat (Z.to_nat (yb - ya - 1))) with yb in Hle by lia.
    lia.
  - apply andb_prop in H as [Hy H]. apply Z.eqb_eq in Hy. subst yb.
    apply orb_prop in H as [H | H].
    + apply Z.ltb_lt in H.
      pose proof (days_before_month_lt ya ma mb (proj1 Hma) H). lia.
    + apply andb_prop in H as [Hm H]. apply Z.eqb_eq in Hm. subst mb.
      apply Z.leb_le in H. lia.
Qed.

Lemma date_leb_total (a b : datetime) : date_leb a b = false -> date_leb b a = true.
Proof. unfold date_leb. lia. Qed.

(** ** Sorted dates and their gaps *)

Section TotalSort.
Context {A : Type} (leb : A -> A -> bool).
Hypothesis leb_total : forall x y, leb x y = false -> leb y x = true.

Lemma insert_sorted_ordered (x : A) (l : list A) :
  Sorted (fun a b => leb a b = true) l ->
  Sorted (fun a b => leb a b = true) (insert_sorted leb x l).
Proof.
  induction 1 as [| y l Hs IH Hhd]; simpl.
  - repeat constructor.
  - destruct (leb x y) eqn:C.
    + repeat constructor; assumption.
    + constructor; [assumption |].
      destruct l as [| z l]; simpl.
      * constructor. apply leb_total. assumption.
      * destruct (leb x z); constructor.
        -- apply leb_total. assumption.
        -- inversion Hhd. assumption.
Qed.

Lemma sorted_ordered (l : list A) : Sorted (fun a b => leb a b = true) (sorted leb l).
Proof.
  induction l as [| x l IH]; simpl; [constructor |].
  apply insert_sorted_ordered, IH.
Qed.
End TotalSort.

Lemma Sorted_adjacent {A : Type} (R : A -> A -> Prop) (l : list A) (default : A) :
  Sorted R l ->
  forall i, (S i < List.length l)%nat -> R (nth i l default) (nth (S i) l default).
Proof.
  induction 1 as [| x l Hs IH Hhd]; intros i Hi; [simpl in Hi; lia |].
  destruct i as [| i].
  - destruct l as [| y l]; [simpl in Hi; lia |]. inversion Hhd. assumption.
  - simpl in Hi. apply (IH i). lia.
Qed.

Lemma date_diffs_nonneg (dates : list datetime) :
  Forall valid_date dates ->
  Sorted (fun a b => date_leb a b = true) dates ->
  Forall (fun g => 0 <= g) (date_diffs dates).
Proof.
  induction dates as [| a [| b dates] IH]; intros Hv Hs; [constructor | constructor |].
  change (date_diffs (a :: b :: dates)) with (days_between b a :: date_diffs (b :: dates)).
  inversion Hv as [| ? ? Ha Hv']; subst. inversion Hs as [| ? ? Hs' Hhd]; subst.
  constructor; [| apply IH; assumption].
  inversion Hv' as [| ? ? Hb _]; subst. inversion Hhd as [| ? ? Hab]; subst.
  unfold days_between.
  pose proof (toordinal_monotone a b Ha Hb Hab). lia.
Qed.

Lemma vendor_gaps_nonneg (t : Transaction) (all_transactions : list Transaction)
  (gaps : list Z) :
  vendor_gaps t all_transactions = Ok gaps -> Forall (fun g => 0 <= g) gaps.
Proof.
  unfold vendor_gaps. intros E. apply fmap_ok in E as (parsed & Hp & ->).
  apply date_diffs_nonneg.
  - apply sorted_Forall, (parse_dates_valid _ _ Hp).
  - apply sorted_ordered. exact date_leb_total.
Qed.

Lemma fold_max_spec (l : list Z) :
  forall x, x <= fold_left Z.max l x
            /\ (forall g, In g l -> g <= fold_left Z.max l x)
            /\ In (fold_left Z.max l x) (x :: l).
Proof.
  induction l as [| y l IH]; intros x; simpl.
  - split; [lia | split; [contradiction | auto]].
  - destruct (IH (Z.max x y)) as (H1 & H2 & H3).
    split; [lia | split].
    + intros g [<- | Hg]; [lia | auto].
    + destruct H3 as [H3 | H3]; [| auto].
      destruct (Z.max_spec x y) as [[_ E] | [_ E]]; rewrite E in *; auto.
Qed.

Lemma fold_min_spec (l : list Z) :
  forall x, fold_left Z.min l x <= x
            /\ (forall g, In g l -> fold_left Z.min l x <= g)
            /\ In (fold_left Z.min l x) (x :: l).
Proof.
  induction l as [| y l IH]; intros x; simpl.
  - split; [lia | split; [contradiction | auto]].
  - destruct (IH (Z.min x y)) as (H1 & H2 & H3).
    split; [lia | split].
    + intros g [<- | Hg]; [lia | auto].
    + destruct H3 as [H3 | H3]; [| auto].
      destruct (Z.min_spec x y) as [[_ E] | [_ E]]; rewrite E in *; auto.
Qed.

Lemma max_Z_spec (l : list Z) (hi : Z) :
  max_Z l = Ok hi -> In hi l /\ forall g, In g l -> g <= hi.
Proof.
  destruct l as [| x l]; [discriminate |]. intros E. apply Ok_inj in E. subst hi.
  destruct (fold_max_spec l x) as (H1 & H2 & H3).
  split; [assumption |]. intros g [<- | Hg]; auto.
Qed.

Lemma min_Z_spec (l : list Z) (lo : Z) :
  min_Z l = Ok lo -> In lo l /\ forall g, In g l -> lo <= g.
Proof.
  destruct l as [| x l]; [discriminate |]. intros E. apply Ok_inj in E. subst lo.
  destruct (fold_min_spec l x) as (H1 & H2 & H3).
  split; [assumption |]. intros g [<- | Hg]; auto.
Qed.

(** ** Frequency features are non-negative *)

(** X11: with at least two transactions of the vendor and well-formed
    dates, the gaps that [get_frequency_features] measures are never
    negative; [median_frequency] is one of those gaps, and
    [date_variability] is non-negative and bounds the difference of any
    two gaps. *)
Theorem frequency_features_nonnegative
  (t : Transaction) (all_transactions : list Transaction) (gaps : list Z) :
  2 <= len (same_vendor t all_transactions) ->
  vendor_gaps t all_transactions = Ok gaps ->
  Forall (fun g => 0 <= g) gaps
  /\ exists d median variability,
      get_frequency_features t all_transactions = Ok d
      /\ dict_get "median_frequency" d = Some (VInt median)
      /\ dict_get "date_variability" d = Some (VInt variability)
      /\ In median gaps /\ 0 <= median
      /\ 0 <= variability
      /\ forall g g', In g gaps -> In g' gaps -> g - g' <= variability.
Proof.
  intros Hlen Hg.
  pose proof (vendor_gaps_nonneg _ _ _ Hg) as Hnn.
  split; [assumption |].
  destruct (vendor_gaps_facts _ _ _ Hg) as (parsed & Hp & Egaps & Hn & Hb).
  assert (Hpos : 0 < len gaps) by lia.
  destruct (mean_of_gaps_ok gaps Hpos Hb) as (avg & Havg).
  destruct (population_std_ok (fun x => (Float.of_Z x - avg)%float) gaps Hpos)
    as (std & Hstd).
  assert (Hmax : exists hi, max_Z gaps = Ok hi).
  { destruct (len_pos_cons gaps Hpos) as (g & gs & ->). simpl. eauto. }
  assert (Hmin : exists lo, min_Z gaps = Ok lo).
  { destruct (len_pos_cons gaps Hpos) as (g & gs & ->). simpl. eauto. }
  destruct Hmax as (hi & Hmax). destruct Hmin as (lo & Hmin).
  set (s := sorted Z.leb gaps).
  assert (Hidx : (List.length gaps / 2 < List.length s)%nat).
  { unfold s. rewrite sorted_length. apply Nat.div_lt; unfold len in Hpos; lia. }
  assert (Hmed : list_get s (len gaps / 2) = Ok (nth (List.length gaps / 2) s 0)).
  { unfold len. change 2 with (Z.of_nat 2). rewrite <- Nat2Z.inj_div.
    apply list_get_nth. assumption. }
  assert (Hin : In (nth (List.length gaps / 2) s 0) gaps).
  { apply (sorted_in Z.leb). apply nth_In. assumption. }
  destruct (max_Z_spec _ _ Hmax) as [Hhi_in Hhi]. destruct (min_Z_spec _ _ Hmin) as [Hlo_in Hlo].
  exists [("frequency", VFloat avg); ("date_variability", VInt (hi - lo));
          ("median_frequency", VInt (nth (List.length gaps / 2) s 0));
          ("std_frequency", VFloat std)],
         (nth (List.length gaps / 2) s 0), (hi - lo).
  split.
  { unfold get_frequency_features.
    replace (len (same_vendor t all_transactions) <? 2) with false
      by (symmetry; apply Z.ltb_ge; assumption).
    rewrite Hp. cbn [bind]. rewrite <- Egaps. rewrite Havg. cbn [bind].
    fold s. rewrite Hmed. cbn [bind]. rewrite Hstd. cbn [bind].
    rewrite Hmax, Hmin. reflexivity. }
  split; [reflexivity | split; [reflexivity |]].
  rewrite Forall_forall in Hnn.
  split; [assumption | split; [apply Hnn; assumption |]].
  split.
  - specialize (Hhi lo Hlo_in). lia.
  - intros g g' Hg1 Hg2. specialize (Hhi g Hg1). specialize (Hlo g' Hg2). lia.
Qed.

Lemma frequency_features_nonnegative_witness :
  Forall (fun g => 0 <= g) [1; 3].
Proof.
  apply (frequency_features_nonnegative (spotify "2024-01-01")
           [spotify "2024-01-05"; spotify "2024-01-01"; spotify "2024-01-02"] [1; 3]).
  - vm_compute. discriminate.
  - reflexivity.
Defined.

(** ** Where the time features are defined *)

Lemma date_eqb_refl (d : datetime) : date_eqb d d = true.
Proof. unfold date_eqb. rewrite !Z.eqb_refl. reflexivity. Qed.

Lemma list_index_found (x : datetime) (l : list datetime) :
  In x l ->
  exists i, list_index date_eqb x l = Ok (Z.of_nat i)
            /\ (i < List.length l)%nat /\ nth i l x = x.
Proof.
  induction l as [| y l IH]; intros Hin; [contradiction |]. simpl.
  destruct (date_eqb y x) eqn:E.
  - apply date_eqb_eq in E. subst y. exists 0%nat. repeat split. lia.
  - destruct Hin as [-> | Hin]; [rewrite date_eqb_refl in E; discriminate E |].
    destruct (IH Hin) as (i & Hi & Hlt & Hnth).
    exists (S i). rewrite Hi. unfold fmap. cbn [bind].
    repeat split; [f_equal; lia | lia | assumption].
Qed.

Lemma parse_dates_of_member (l : list Transaction) (ds : list datetime) (t : Transaction) :
  parse_dates l = Ok ds -> In t l -> exists d, strptime (date t) = Ok d /\ In d ds.
Proof.
  unfold parse_dates. revert ds. induction l as [| x l IH]; simpl; intros ds E Hin;
    [contradiction |].
  apply bind_ok in E as (d0 & P & E). apply bind_ok in E as (ds0 & Q & E).
  apply Ok_inj in E. subst ds.
  destruct Hin as [-> | Hin].
  - exists d0. split; [assumption | left; reflexivity].
  - destruct (IH ds0 Q Hin) as (d & Hd & Hin'). exists d. split; [assumption | right; assumption].
Qed.

(** X12: [get_time_features] returns whenever the target belongs to the
    history and the dates of its vendor are well-formed.  The month is
    that of the target's date, between 1 and 12, and
    [days_until_next_transaction] is never negative. *)
Theorem get_time_features_defined
  (t : Transaction) (all_transactions : list Transaction) (parsed : list datetime) :
  In t all_transactions ->
  parse_dates (same_vendor t all_transactions) = Ok parsed ->
  exists date_obj d days_until_next,
    strptime (date t) = Ok date_obj
    /\ get_time_features t all_transactions = Ok d
    /\ dict_get "month" d = Some (VInt (month date_obj))
    /\ 1 <= month date_obj <= 12
    /\ dict_get "days_until_next_transaction" d = Some (VInt days_until_next)
    /\ 0 <= days_until_next.
Proof.
  intros Hin Hp.
  assert (Hmember : In t (same_vendor t all_transactions)).
  { apply filter_In. split; [assumption | apply String.eqb_refl]. }
  destruct (parse_dates_of_member _ _ _ Hp Hmember) as (date_obj & Ht & Hd).
  pose proof (strptime_valid _ _ Ht) as Hvalid.
  set (dates := sorted date_leb parsed).
  assert (Hd' : In date_obj dates).
  { apply (Permutation_in (l := parsed)); [| assumption].
    symmetry. apply sorted_perm. }
  destruct (list_index_found date_obj dates Hd') as (i & Hi & Hlt & Hnth).
  assert (Hsorted : Sorted (fun a b => date_leb a b = true) dates)
    by (apply sorted_ordered; exact date_leb_total).
  assert (Hvalid_all : Forall valid_date dates)
    by (apply sorted_Forall, (parse_dates_valid _ _ Hp)).
  assert (Hnext : exists n,
             (if Z.of_nat i <? len dates - 1
              then next_transaction_date <- list_get dates (Z.of_nat i + 1) ;;
                   Ok (days_between next_transaction_date date_obj)
              else Ok 0) = Ok n /\ 0 <= n).
  { destruct (Z.of_nat i <? len dates - 1) eqn:C; [| exists 0; split; [reflexivity | lia]].
    apply Z.ltb_lt in C. unfold len in C.
    replace (Z.of_nat i + 1) with (Z.of_nat (S i)) by lia.
    rewrite (list_get_nth dates (S i) date_obj) by lia. cbn [bind].
    eexists. split; [reflexivity |].
    pose proof (Sorted_adjacent _ dates date_obj Hsorted i ltac:(lia)) as Hadj.
    rewrite Hnth in Hadj.
    rewrite Forall_forall in Hvalid_all.
    assert (Hv2 : valid_date (nth (S i) dates date_obj))
      by (apply Hvalid_all, nth_In; lia).
    pose proof (toordinal_monotone _ _ Hvalid Hv2 Hadj).
    unfold days_between. lia. }
  destruct Hnext as (n & Hn & Hnn).
  exists date_obj,
         [("month", VInt (month date_obj)); ("days_until_next_transaction", VInt n)], n.
  split; [assumption | split].
  { unfold get_time_features. rewrite Ht. cbn [bind]. rewrite Hp. cbn [bind].
    fold dates. rewrite Hi. cbn [bind]. rewrite Hn. reflexivity. }
  split; [reflexivity |].
  split; [apply Hvalid |].
  split; [reflexivity | assumption].
Qed.

Lemma get_time_features_defined_witness :
  exists date_obj d days_until_next,
    strptime (date (spotify "2024-01-01")) = Ok date_obj
    /\ get_time_features (spotify "2024-01-01")
         [spotify "2024-01-29"; spotify "2024-01-01"] = Ok d
    /\ dict_get "month" d = Some (VInt (month date_obj))
    /\ 1 <= month date_obj <= 12
    /\ dict_get "days_until_next_transaction" d = Some (VInt days_until_next)
    /\ 0 <= days_until_next.
Proof.
  apply (get_time_features_defined (spotify "2024-01-01")
           [spotify "2024-01-29"; spotify "2024-01-01"]
           [mkdate 2024 1 29; mkdate 2024 1 1]).
  - right. left. reflexivity.
  - reflexivity.
Defined.

(** ** The user and vendor relationship *)

Lemma same_user_vendor_length (t : Transaction) (all_transactions : list Transaction) :
  len (same_user_vendor t all_transactions) <= len (same_user t all_transactions).
Proof.
  unfold same_user_vendor, same_user, len.
  induction all_transactions as [| x l IH]; simpl; [lia |].
  destruct (String.eqb (user_id x) (user_id t)); simpl.
  - destruct (String.eqb (name x) (name t)); simpl List.length; lia.
  - assumption.
Qed.

Lemma max_date_spec (dates : list datetime) (hi : datetime) :
  Forall valid_date dates -> max_date dates = Ok hi ->
  valid_date hi /\ forall first rest, dates = first :: rest -> toordinal first <= toordinal hi.
Proof.
  destruct dates as [| d rest]; [discriminate |].
  intros Hv E. apply Ok_inj in E. inversion Hv as [| ? ? Hd Hrest]; subst.
  assert (G : forall best, valid_date best ->
              valid_date (fold_left (fun best x => if date_leb x best then best else x)
                                    rest best)
              /\ toordinal best
                 <= toordinal (fold_left (fun best x => if date_leb x best then best else x)
                                         rest best)).
  { clear Hv. induction Hrest as [| x rest Hx _ IH]; intros best Hb; simpl;
      [split; [assumption | lia] |].
    destruct (date_leb x best) eqn:C; [apply IH; assumption |].
    destruct (IH x Hx) as [G1 G2]. split; [assumption |].
    pose proof (toordinal_monotone best x Hb Hx (date_leb_total _ _ C)). lia. }
  destruct (G d Hd) as [G1 G2]. split; [assumption |].
  intros first rest' [= <- _]. assumption.
Qed.

Lemma min_date_spec (dates : list datetime) (lo : datetime) :
  Forall valid_date dates -> min_date dates = Ok lo ->
  forall first rest, dates = first :: rest -> toordinal lo <= toordinal first.
Proof.
  destruct dates as [| d rest]; [discriminate |].
  intros Hv E. apply Ok_inj in E. inversion Hv as [| ? ? Hd Hrest]; subst.
  assert (G : forall best, valid_date best ->
              toordinal (fold_left (fun best x => if date_leb best x then best else x)
                                   rest best)
              <= toordinal best).
  { clear Hv. induction Hrest as [| x rest Hx _ IH]; intros best Hb; simpl; [lia |].
    destruct (date_leb best x) eqn:C; [apply IH; assumption |].
    specialize (IH x Hx).
    pose proof (toordinal_monotone x best Hx Hb (date_leb_total _ _ C)). lia. }
  intros first rest' [= <- _]. apply G. assumption.
Qed.

(** X13: when the target's user has a transaction in the history and
    the dates of the user's transactions with the vendor are well-formed,
    [get_user_vendor_relationship_features] returns its three features:
    [user_vendor_tenure] and [user_vendor_transaction_span] hold the same
    number of days, which is never negative, and the dependency is the
    quotient of two counts with the numerator at most the denominator. *)
Theorem user_vendor_relationship_defined
  (t : Transaction) (all_transactions : list Transaction) (dates : list datetime) :
  same_user t all_transactions <> [] ->
  parse_dates (same_user_vendor t all_transactions) = Ok dates ->
  exists d dependency tenure,
    get_user_vendor_relationship_features t all_transactions = Ok d
    /\ len (same_user_vendor t all_transactions) <= len (same_user t all_transactions)
    /\ Float.int_truediv (len (same_user_vendor t all_transactions))
                         (len (same_user t all_transactions)) = Ok dependency
    /\ dict_get "user_vendor_dependency" d = Some (VFloat dependency)
    /\ dict_get "user_vendor_tenure" d = Some (VInt tenure)
    /\ dict_get "user_vendor_transaction_span" d = Some (VInt tenure)
    /\ 0 <= tenure.
Proof.
  intros Hknown Hp.
  pose proof (same_user_vendor_length t all_transactions) as Hle.
  assert (Hpos : 0 < len (same_user t all_transactions)).
  { destruct (same_user t all_transactions); [contradiction |].
    unfold len. simpl List.length. lia. }
  assert (Hnum : 0 <= len (same_user_vendor t all_transactions)) by (unfold len; lia).
  destruct (int_truediv_fraction_ok _ _ (conj Hnum Hle) Hpos) as (dep & Hdep).
  assert (Htenure : exists tenure,
             match same_user_vendor t all_transactions with
             | [] => Ok 0
             | _ => dates <- parse_dates (same_user_vendor t all_transactions) ;;
                    hi <- max_date dates ;; lo <- min_date dates ;;
                    Ok (days_between hi lo)
             end = Ok tenure /\ 0 <= tenure).
  { destruct (same_user_vendor t all_transactions) as [| x l] eqn:E;
      [exists 0; split; [reflexivity | lia] |].
    rewrite Hp. cbn [bind].
    pose proof (parse_dates_valid _ _ Hp) as Hv.
    pose proof (parse_dates_length _ _ Hp) as Hlen.
    destruct dates as [| d0 rest]; [discriminate Hlen |].
    destruct (max_date (d0 :: rest)) as [hi |] eqn:Hmax; [| discriminate Hmax].
    destruct (min_date (d0 :: rest)) as [lo |] eqn:Hmin; [| discriminate Hmin].
    cbn [bind]. eexists. split; [reflexivity |].
    destruct (max_date_spec _ _ Hv Hmax) as [_ Hhi].
    pose proof (min_date_spec _ _ Hv Hmin) as Hlo.
    specialize (Hhi d0 rest eq_refl). specialize (Hlo d0 rest eq_refl).
    unfold days_between. lia. }
  destruct Htenure as (tenure & Htenure & Hnn).
  exists [("user_vendor_dependency", VFloat dep); ("user_vendor_tenure", VInt tenure);
          ("user_vendor_transaction_span", VInt tenure)], dep, tenure.
  split.
  { unfold get_user_vendor_relationship_features. cbv zeta.
    destruct (same_user t all_transactions) as [| u us] eqn:E; [contradiction |].
    rewrite Hdep. cbn [bind]. rewrite Htenure. reflexivity. }
  repeat (split; [first [assumption | reflexivity] |]). assumption.
Qed.

Lemma user_vendor_relationship_defined_witness :
  exists d dependency tenure,
    get_user_vendor_relationship_features (spotify "2024-01-01")
      [spotify "2024-01-29"; netflix; spotify "2024-01-01"] = Ok d
    /\ 2 <= 3
    /\ Float.int_truediv 2 3 = Ok dependency
    /\ dict_get "user_vendor_dependency" d = Some (VFloat dependency)
    /\ dict_get "user_vendor_tenure" d = Some (VInt tenure)
    /\ dict_get "user_vendor_transaction_span" d = Some (VInt tenure)
    /\ 0 <= tenure.
Proof.
  apply (user_vendor_relationship_defined (spotify "2024-01-01")
           [spotify "2024-01-29"; netflix; spotify "2024-01-01"]
           [mkdate 2024 1 29; mkdate 2024 1 1]).
  - discriminate.
  - reflexivity.
Defined.

(** ** The size of the cache *)

Lemma cache_find_none (s : string) (c : cache) :
  cache_find s c = None -> ~ In s (map fst c).
Proof.
  induction c as [| [k d] c IH]; simpl; [tauto |].
  destruct (String.eqb k s) eqn:E; [discriminate |].
  apply String.eqb_neq in E. intros F [H | H]; [contradiction | exact (IH F H)].
Qed.

Lemma cache_remove_keys (s : string) (c : cache) :
  ~ In s (map fst (cache_remove s c))
  /\ (NoDup (map fst c) -> NoDup (map fst (cache_remove s c)))
  /\ (List.length (cache_remove s c) <= List.length c)%nat
  /\ (In s (map fst c) -> (List.length (cache_remove s c) < List.length c)%nat)
  /\ (forall k, In k (map fst (cache_remove s c)) -> In k (map fst c)).
Proof.
  unfold cache_remove. induction c as [| [k d] c IH]; simpl.
  - repeat split; try tauto; try lia.
  - destruct IH as (I1 & I2 & I3 & I4 & I5).
    destruct (String.eqb k s) eqn:E; simpl.
    + repeat split; try assumption; try lia.
      * intros N. inversion N. auto.
      * intros k' Hk'. right. auto.
    + apply String.eqb_neq in E. repeat split.
      * intros [H | H]; [contradiction | exact (I1 H)].
      * intros N. inversion N as [| ? ? Hnot Hrest]; subst.
        constructor; [intros F; apply Hnot, I5, F | auto].
      * lia.
      * intros [H | H]; [contradiction | specialize (I4 H); lia].
      * intros k' [<- | Hk']; [left; reflexivity | right; auto].
Qed.

Lemma NoDup_firstn {A : Type} (n : nat) (l : list A) : NoDup l -> NoDup (firstn n l).
Proof.
  revert n. induction l as [| x l IH]; intros n N; destruct n; simpl; try constructor.
  - inversion N as [| ? ? Hnot Hrest]; subst. intros F. apply Hnot.
    apply firstn_incl in F. assumption.
  - inversion N. auto.
Qed.

Lemma _parse_date_bounded (s : string) : preserves cache_bounded (_parse_date s).
Proof.
  intros c [Hlen Hnd]. unfold _parse_date.
  destruct (cache_find s c) as [d |] eqn:F.
  - apply cache_find_in in F.
    assert (Hkey : In s (map fst c)) by (apply (in_map fst) in F; exact F).
    destruct (cache_remove_keys s c) as (R1 & R2 & R3 & R4 & R5).
    cbn [snd]. split.
    + specialize (R4 Hkey). simpl List.length. lia.
    + cbn [map fst]. constructor; auto.
  - apply cache_find_none in F.
    destruct (strptime s) as [d | e]; cbn [snd]; [| split; assumption].
    split.
    + apply firstn_le_length.
    + rewrite <- firstn_map. apply NoDup_firstn. cbn [map fst].
      constructor; assumption.
Qed.

Lemma preserves_ret (P : cache -> Prop) {A : Type} (a : A) : preserves P (ret a).
Proof. intros c Hc. exact Hc. Qed.

Lemma preserves_lift (P : cache -> Prop) {A : Type} (r : result A) : preserves P (lift r).
Proof. intros c Hc. exact Hc. Qed.

Lemma preserves_bind (P : cache -> Prop) {A B : Type} (m : M A) (f : A -> M B) :
  preserves P m -> (forall a, preserves P (f a)) -> preserves P (bindM m f).
Proof.
  intros Hm Hf c Hc. unfold bindM. specialize (Hm c Hc).
  destruct (m c) as [[a | e] c1]; simpl in Hm; [apply Hf; assumption | assumption].
Qed.

Lemma preserves_loop (P : cache -> Prop)
  (d : datetime) (n off : Z) (all_transactions : list Transaction) :
  (forall s, preserves P (_parse_date s)) ->
  forall k, preserves P (days_apart_loop d n off all_transactions k).
Proof.
  intros Hparse. induction all_transactions as [| t rest IH]; intros k; simpl.
  - apply preserves_ret.
  - apply preserves_bind; [apply Hparse |]. intros t_date.
    destruct (Z.abs (days_between t_date d) <? n - off); [apply IH |].
    apply preserves_bind; [apply preserves_lift |].
    intros r. destruct ((r <=? off) || (r >=? n - off)); apply IH.
Qed.

Lemma preserves_count (P : cache -> Prop)
  (t : Transaction) (all_transactions : list Transaction) (n off : Z) :
  (forall s, preserves P (_parse_date s)) ->
  preserves P (get_n_transactions_days_apart t all_transactions n off).
Proof.
  intros Hparse. apply preserves_bind; [apply Hparse |].
  intros d. apply preserves_loop. assumption.
Qed.

Lemma preserves_pct (P : cache -> Prop)
  (t : Transaction) (all_transactions : list Transaction) (n off : Z) :
  (forall s, preserves P (_parse_date s)) ->
  preserves P (get_pct_transactions_days_apart t all_transactions n off).
Proof.
  intros Hparse. apply preserves_bind; [apply preserves_count; assumption |].
  intros k. apply preserves_lift.
Qed.

Lemma preserves_display (P : cache -> Prop) (items : list (M dict)) :
  Forall (preserves P) items -> forall acc, preserves P (dict_display items acc).
Proof.
  induction 1 as [| item rest Hitem _ IH]; intros acc; simpl.
  - apply preserves_ret.
  - apply preserves_bind; [assumption |]. intros d. apply IH.
Qed.

Lemma preserves_get_features (P : cache -> Prop)
  (t : Transaction) (all_transactions : list Transaction) :
  (forall s, preserves P (_parse_date s)) ->
  preserves P (get_features t all_transactions).
Proof.
  intros Hparse. apply preserves_display.
  unfold splat, entry, int_, float_, bool_, intM, floatM.
  repeat (apply Forall_cons;
          [ first
              [ apply preserves_lift
              | apply preserves_bind;
                [ first
                    [ apply preserves_lift
                    | apply preserves_bind;
                      [ first [apply preserves_count | apply preserves_pct]; assumption
                      | intros ?; apply preserves_ret ] ]
                | intros ?; apply preserves_ret ] ]
          | ]).
  apply Forall_nil.
Qed.

(** X14: the memoisation cache never outgrows its bound.  Started from a
    cache of at most 1024 entries under distinct keys, such as the empty
    one, [get_features] leaves a cache of at most 1024 entries under
    distinct keys, whatever the transaction and the history and whether
    it returns or raises. *)
Theorem get_features_keeps_cache_bounded
  (t : Transaction) (all_transactions : list Transaction) (c : cache) :
  cache_bounded c ->
  cache_bounded (snd (get_features t all_transactions c)).
Proof.
  apply preserves_get_features. exact _parse_date_bounded.
Qed.

Lemma get_features_keeps_cache_bounded_witness :
  cache_bounded (snd (get_features netflix [netflix; spotify "2024-01-09"] [])).
Proof.
  apply get_features_keeps_cache_bounded.
  split; [simpl; unfold maxsize; lia | constructor].
Defined.

(** ** The counts inside the assembled mapping *)

Lemma dict_display_yields (items : list (M dict)) :
  Forall cache_independent items ->
  forall acc c d c',
    cache_ok c ->
    dict_display items acc c = (Ok d, c') ->
    exists ds, Forall2 yields items ds /\ d = fold_left dict_update ds acc.
Proof.
  induction 1 as [| item rest Hitem _ IH]; intros acc c d c' Hc; simpl.
  - unfold ret. intros [= <- _]. exists []. split; [constructor | reflexivity].
  - unfold bindM. destruct Hitem as (r & Hr). destruct (Hr c Hc) as [E1 Hc1].
    destruct (item c) as [[di | e] c1] eqn:E; [| discriminate].
    simpl in E1, Hc1. subst r.
    intros Hrest. destruct (IH _ _ _ _ Hc1 Hrest) as (ds & Hds & ->).
    exists (di :: ds). split; [| reflexivity].
    constructor; [| assumption].
    intros c0 Hc0. apply Hr. assumption.
Qed.

Lemma yields_produces (item : M dict) (d : dict) : yields item d -> produces item d.
Proof.
  intros H. specialize (H [] cache_ok_empty).
  destruct (item []) as [r c'] eqn:E. simpl in H. subst r. exists [], c'. assumption.
Qed.

Lemma yields_entry_count (k : string) (m : M Z) (d : dict) :
  yields (entry k (intM m)) d ->
  exists x, fst (m []) = Ok x /\ d = [(k, VInt x)].
Proof.
  intros H. specialize (H [] cache_ok_empty).
  unfold entry, intM, bindM, ret in H.
  destruct (m []) as [[x | e] c1]; simpl in H; [| discriminate H].
  apply Ok_inj in H. exists x. split; [reflexivity | congruence].
Qed.

Lemma produces_entry_int (k : string) (r : result Z) (d : dict) :
  produces (entry k (int_ r)) d -> exists x, r = Ok x /\ d = [(k, VInt x)].
Proof.
  intros H. apply produces_entry in H as (v & c & c' & Hv & ->).
  unfold int_, lift in Hv. apply (f_equal fst) in Hv. cbn [fst] in Hv.
  apply fmap_ok in Hv as (x & Hx & ->). eauto.
Qed.

Ltac invert_yields :=
  repeat match goal with
         | H : Forall2 yields (_ :: _) _ |- _ => inversion H; subst; clear H
         | H : Forall2 yields [] _ |- _ => inversion H; subst; clear H
         end.

Lemma get_features_counts
  (t : Transaction) (all_transactions : list Transaction) (c c' : cache) (d : dict) :
  cache_ok c ->
  get_features t all_transactions c = (Ok d, c') ->
  (exists s0 s1 s2,
      get_n_transactions_same_day t all_transactions 0 = Ok s0
      /\ get_n_transactions_same_day t all_transactions 1 = Ok s1
      /\ get_n_transactions_same_day t all_transactions 2 = Ok s2
      /\ dict_get "same_day_exact" d = Some (VInt s0)
      /\ dict_get "same_day_off_by_1" d = Some (VInt s1)
      /\ dict_get "same_day_off_by_2" d = Some (VInt s2))
  /\ (exists a14 b14 a7 b7,
        fst (get_n_transactions_days_apart t all_transactions 14 0 []) = Ok a14
        /\ fst (get_n_transactions_days_apart t all_transactions 14 1 []) = Ok b14
        /\ fst (get_n_transactions_days_apart t all_transactions 7 0 []) = Ok a7
        /\ fst (get_n_transactions_days_apart t all_transactions 7 1 []) = Ok b7
        /\ dict_get "14_days_apart_exact" d = Some (VInt a14)
        /\ dict_get "14_days_apart_off_by_1" d = Some (VInt b14)
        /\ dict_get "7_days_apart_exact" d = Some (VInt a7)
        /\ dict_get "7_days_apart_off_by_1" d = Some (VInt b7)).
Proof.
  intros Hc E. unfold get_features in E.
  apply dict_display_yields in E as (ds & Hds & ->); [| | assumption].
  2:{ unfold splat, int_, float_, bool_, intM, floatM.
      repeat (apply Forall_cons; [auto 6 with cache |]). apply Forall_nil. }
  invert_yields.
  repeat match goal with
         | H : yields (entry _ (intM _)) _ |- _ =>
             apply yields_entry_count in H as (? & ? & ->)
         end.
  repeat match goal with
         | H : yields _ _ |- _ => apply yields_produces in H
         end.
  repeat match goal with
         | H : produces (entry _ (int_ (get_n_transactions_same_day _ _ _))) _ |- _ =>
             apply produces_entry_int in H as (? & ? & ->)
         end.
  repeat match goal with
         | H : produces (entry _ _) _ |- _ =>
             apply produces_entry in H as (? & ? & ? & ? & ->)
         end.
  repeat match goal with H : produces _ _ |- _ => item_keys H end.
  cbn [fold_left]. split.
  - do 3 eexists. repeat (split; [eassumption |]).
    repeat split; skip_later_items; apply dict_get_update_single.
  - do 4 eexists. repeat (split; [eassumption |]).
    repeat split; skip_later_items; apply dict_get_update_single.
Qed.

Lemma days_apart_loop_range
  (d0 : datetime) (n off : Z) (all_transactions : list Transaction) :
  forall k c r c',
    days_apart_loop d0 n off all_transactions k c = (Ok r, c') ->
    k <= r <= k + len all_transactions.
Proof.
  unfold len. induction all_transactions as [| t rest IH]; intros k c r c'; simpl.
  - unfold ret. intros [= <- _]. lia.
  - unfold bindM, lift.
    destruct (_parse_date (date t) c) as [[t_date | e] c1]; [| discriminate].
    destruct (Z.abs (days_between t_date d0) <? n - off).
    + intros E. apply IH in E. lia.
    + destruct (int_mod (Z.abs (days_between t_date d0)) n) as [m | e]; [| discriminate].
      destruct ((m <=? off) || (m >=? n - off)); intros E; apply IH in E; lia.
Qed.

Lemma days_apart_range
  (t : Transaction) (all_transactions : list Transaction) (n off : Z) (c : cache) (k : Z) :
  fst (get_n_transactions_days_apart t all_transactions n off c) = Ok k ->
  0 <= k <= len all_transactions.
Proof.
  unfold get_n_transactions_days_apart, bindM.
  destruct (_parse_date (date t) c) as [[d0 | e] c1]; [| discriminate].
  intros E. apply run_fst in E as (c' & E). apply days_apart_loop_range in E. lia.
Qed.

Lemma days_apart_monotone_at
  (t : Transaction) (all_transactions : list Transaction) (n off1 off2 : Z)
  (c : cache) (k1 k2 : Z) :
  0 < n -> off1 <= off2 ->
  fst (get_n_transactions_days_apart t all_transactions n off1 c) = Ok k1 ->
  fst (get_n_transactions_days_apart t all_transactions n off2 c) = Ok k2 ->
  k1 <= k2.
Proof.
  intros Hn Hoff. unfold get_n_transactions_days_apart, bindM.
  destruct (_parse_date (date t) c) as [[d0 | e] c1]; [| discriminate].
  pose proof (days_apart_loop_monotone d0 n off1 off2 all_transactions Hn Hoff
                0 0 c1 (Z.le_refl 0)) as H.
  unfold count_le in H.
  destruct (days_apart_loop d0 n off1 all_transactions 0 c1) as [[a | e1] ca];
    destruct (days_apart_loop d0 n off2 all_transactions 0 c1) as [[b | e2] cb];
    try contradiction; cbn [fst]; try discriminate.
  intros [= <-] [= <-]. apply H.
Qed.

(** X15: in every mapping that [get_features] returns, the three
    same-day counts are ordered,
    [0 <= same_day_exact <= same_day_off_by_1 <= same_day_off_by_2 <= len(history)],
    and [same_day_exact] is at least 1 when the target belongs to the
    history. *)
Theorem same_day_features_ordered
  (t : Transaction) (all_transactions : list Transaction) (c : cache) (d : dict) :
  cache_ok c ->
  fst (get_features t all_transactions c) = Ok d ->
  exists s0 s1 s2,
    dict_get "same_day_exact" d = Some (VInt s0)
    /\ dict_get "same_day_off_by_1" d = Some (VInt s1)
    /\ dict_get "same_day_off_by_2" d = Some (VInt s2)
    /\ 0 <= s0 /\ s0 <= s1 /\ s1 <= s2 /\ s2 <= len all_transactions
    /\ (In t all_transactions -> 1 <= s0).
Proof.
  intros Hc E. apply run_fst in E as (c' & E).
  destruct (get_features_counts _ _ _ _ _ Hc E)
    as ((s0 & s1 & s2 & H0 & H1 & H2 & G0 & G1 & G2) & _).
  exists s0, s1, s2. repeat (split; [assumption |]).
  pose proof (same_day_count_monotone t all_transactions 0 1 ltac:(lia)) as M01.
  pose proof (same_day_count_monotone t all_transactions 1 2 ltac:(lia)) as M12.
  rewrite H0, H1 in M01. rewrite H1, H2 in M12. cbn [result_le] in M01, M12.
  destruct (same_day_count_range _ _ _ _ H0) as (R0 & Hself & _).
  destruct (same_day_count_range _ _ _ _ H2) as (R2 & _ & _).
  repeat (split; [lia |]). intros Hin. apply Hself; [assumption | lia].
Qed.

Lemma same_day_features_ordered_witness :
  exists s0 s1 s2,
    dict_get "same_day_exact" (match features_of netflix [netflix] with
                                | Ok d => d | Err _ => [] end) = Some (VInt s0)
    /\ dict_get "same_day_off_by_1" (match features_of netflix [netflix] with
                                     | Ok d => d | Err _ => [] end) = Some (VInt s1)
    /\ dict_get "same_day_off_by_2" (match features_of netflix [netflix] with
                                     | Ok d => d | Err _ => [] end) = Some (VInt s2)
    /\ 0 <= s0 /\ s0 <= s1 /\ s1 <= s2 /\ s2 <= len [netflix]
    /\ (In netflix [netflix] -> 1 <= s0).
Proof.
  apply (same_day_features_ordered netflix [netflix] []).
  - exact cache_ok_empty.
  - vm_compute. reflexivity.
Defined.

(** X16: in every mapping that [get_features] returns from a coherent
    cache, the periodicity counts are ordered:
    [0 <= 14_days_apart_exact <= 14_days_apart_off_by_1 <= len(history)]
    and the same for the two 7-day counts. *)
Theorem days_apart_features_ordered
  (t : Transaction) (all_transactions : list Transaction) (c : cache) (d : dict) :
  cache_ok c ->
  fst (get_features t all_transactions c) = Ok d ->
  exists a14 b14 a7 b7,
    dict_get "14_days_apart_exact" d = Some (VInt a14)
    /\ dict_get "14_days_apart_off_by_1" d = Some (VInt b14)
    /\ dict_get "7_days_apart_exact" d = Some (VInt a7)
    /\ dict_get "7_days_apart_off_by_1" d = Some (VInt b7)
    /\ 0 <= a14 /\ a14 <= b14 /\ b14 <= len all_transactions
    /\ 0 <= a7 /\ a7 <= b7 /\ b7 <= len all_transactions.
Proof.
  intros Hc E. apply run_fst in E as (c' & E).
  destruct (get_features_counts _ _ _ _ _ Hc E)
    as (_ & (a14 & b14 & a7 & b7 & A14 & B14 & A7 & B7 & G1 & G2 & G3 & G4)).
  exists a14, b14, a7, b7. repeat (split; [assumption |]).
  pose proof (days_apart_range _ _ _ _ _ _ A14).
  pose proof (days_apart_range _ _ _ _ _ _ B14).
  pose proof (days_apart_range _ _ _ _ _ _ A7).
  pose proof (days_apart_range _ _ _ _ _ _ B7).
  pose proof (days_apart_monotone_at _ _ 14 0 1 _ _ _ ltac:(lia) ltac:(lia) A14 B14).
  pose proof (days_apart_monotone_at _ _ 7 0 1 _ _ _ ltac:(lia) ltac:(lia) A7 B7).
  lia.
Qed.

Lemma days_apart_features_ordered_witness :
  exists a14 b14 a7 b7,
    dict_get "14_days_apart_exact" (match features_of netflix [netflix] with
                                     | Ok d => d | Err _ => [] end) = Some (VInt a14)
    /\ dict_get "14_days_apart_off_by_1" (match features_of netflix [netflix] with
                                          | Ok d => d | Err _ => [] end) = Some (VInt b14)
    /\ dict_get "7_days_apart_exact" (match features_of netflix [netflix] with
                                      | Ok d => d | Err _ => [] end) = Some (VInt a7)
    /\ dict_get "7_days_apart_off_by_1" (match features_of netflix [netflix] with
                                         | Ok d => d | Err _ => [] end) = Some (VInt b7)
    /\ 0 <= a14 /\ a14 <= b14 /\ b14 <= len [netflix]
    /\ 0 <= a7 /\ a7 <= b7 /\ b7 <= len [netflix].
Proof.
  apply (days_apart_features_ordered netflix [netflix] []).
  - exact cache_ok_empty.
  - vm_compute. reflexivity.
Defined.

(** ** The vendor classifiers ignore letter case *)

Lemma is_word_lower (c : ascii) : is_word (lower_ascii c) = is_word c.
Proof. ascii_cases c; reflexivity. Qed.

Lemma lower_ascii_idempotent (c : ascii) : lower_ascii (lower_ascii c) = lower_ascii c.
Proof. ascii_cases c; reflexivity. Qed.

Lemma word_opt_lower (c : option ascii) :
  word_opt (option_map lower_ascii c) = word_opt c.
Proof. destruct c as [c |]; [apply is_word_lower | reflexivity]. Qed.

Lemma boundary_lower (p n : option ascii) :
  boundary (option_map lower_ascii p) (option_map lower_ascii n) = boundary p n.
Proof. unfold boundary. rewrite !word_opt_lower. reflexivity. Qed.

Lemma head_char_lower (s : string) :
  head_char (lower s) = option_map lower_ascii (head_char s).
Proof. destruct s; reflexivity. Qed.

Lemma match_literal_lower (lit : string) :
  forall s last,
    match_literal lit (lower s) (option_map lower_ascii last)
    = match match_literal lit s last with
      | Some (l, rest) => Some (option_map lower_ascii l, lower rest)
      | None => None
      end.
Proof.
  induction lit as [| p lit IH]; intros s last; simpl; [reflexivity |].
  destruct s as [| c s]; simpl; [reflexivity |].
  rewrite lower_ascii_idempotent.
  destruct (Ascii.eqb (lower_ascii c) (lower_ascii p)); [| reflexivity].
  apply (IH s (Some c)).
Qed.

Lemma match_here_lower (alts : list string) (prev : option ascii) (s : string) :
  match_here alts (option_map lower_ascii prev) (lower s) = match_here alts prev s.
Proof.
  unfold match_here. rewrite head_char_lower, boundary_lower. f_equal.
  induction alts as [| lit alts IH]; simpl; [reflexivity |].
  rewrite IH, match_literal_lower.
  destruct (match_literal lit s prev) as [[l rest] |]; [| reflexivity].
  rewrite head_char_lower, boundary_lower. reflexivity.
Qed.

Lemma search_from_lower (alts : list string) (s : string) :
  forall prev,
    search_from alts (option_map lower_ascii prev) (lower s) = search_from alts prev s.
Proof.
  induction s as [| c s IH]; intros prev.
  - change (lower "") with "". unfold search_from.
    rewrite <- (match_here_lower alts prev ""). reflexivity.
  - change (lower (String c s)) with (String (lower_ascii c) (lower s)).
    cbn [search_from].
    rewrite <- (IH (Some c)).
    change (String (lower_ascii c) (lower s)) with (lower (String c s)).
    rewrite match_here_lower. reflexivity.
Qed.

Lemma re_search_words_lower (alts : list string) (s : string) :
  re_search_words alts (lower s) = re_search_words alts s.
Proof. unfold re_search_words. apply (search_from_lower alts s None). Qed.

(** X17: the four vendor classifiers only see the lower-cased name: two
    transactions whose names differ by letter case alone get the same
    answers from [get_is_always_recurring], [get_is_insurance],
    [get_is_utility] and [get_is_phone]. *)
Theorem vendor_classifiers_ignore_case (t1 t2 : Transaction) :
  lower (name t1) = lower (name t2) ->
  get_is_always_recurring t1 = get_is_always_recurring t2
  /\ get_is_insurance t1 = get_is_insurance t2
  /\ get_is_utility t1 = get_is_utility t2
  /\ get_is_phone t1 = get_is_phone t2.
Proof.
  intros E. unfold get_is_always_recurring, get_is_insurance, get_is_utility, get_is_phone.
  rewrite E. split; [reflexivity |].
  rewrite <- (re_search_words_lower _ (name t1)), <- (re_search_words_lower _ (name t2)).
  rewrite <- (re_search_words_lower ["utility"; "utilit"; "energy"] (name t1)).
  rewrite <- (re_search_words_lower ["utility"; "utilit"; "energy"] (name t2)).
  rewrite <- (re_search_words_lower ["at&t"; "t-mobile"; "verizon"] (name t1)).
  rewrite <- (re_search_words_lower ["at&t"; "t-mobile"; "verizon"] (name t2)).
  rewrite E. repeat split.
Qed.

Lemma vendor_classifiers_ignore_case_witness :
  get_is_always_recurring netflix
  = get_is_always_recurring (mkTransaction 7 "u3" "NETFLIX" "2024-05-05" 1)
  /\ get_is_insurance netflix
     = get_is_insurance (mkTransaction 7 "u3" "NETFLIX" "2024-05-05" 1)
  /\ get_is_utility netflix
     = get_is_utility (mkTransaction 7 "u3" "NETFLIX" "2024-05-05" 1)
  /\ get_is_phone netflix
     = get_is_phone (mkTransaction 7 "u3" "NETFLIX" "2024-05-05" 1).
Proof.
  apply (vendor_classifiers_ignore_case netflix
           (mkTransaction 7 "u3" "NETFLIX" "2024-05-05" 1)).
  reflexivity.
Defined.

(** ** One-word names *)

Lemma head_word_of_all_word (s : string) :
  all_word s = true -> word_opt (head_char s) = nonempty s.
Proof.
  destruct s as [| c s]; simpl; [reflexivity |].
  intros H. apply andb_prop in H as [H _]. assumption.
Qed.

Lemma whole_match_one_word (lit : string) :
  forall p s last,
    all_word s = true ->
    match match_literal (String p lit) s last with
    | Some (l, rest) => boundary l (head_char rest)
    | None => false
    end = String.eqb (lower s) (lower (String p lit)).
Proof.
  induction lit as [| p' lit IH]; intros p s last Hs.
  - destruct s as [| c s]; [reflexivity |].
    simpl in Hs. apply andb_prop in Hs as [Hc Hs].
    cbn [match_literal lower String.eqb].
    destruct (Ascii.eqb (lower_ascii c) (lower_ascii p)); [| reflexivity].
    unfold boundary. cbn [word_opt]. rewrite Hc.
    rewrite (head_word_of_all_word s Hs).
    destruct s; reflexivity.
  - destruct s as [| c s]; [reflexivity |].
    simpl in Hs. apply andb_prop in Hs as [Hc Hs].
    change (match_literal (String p (String p' lit)) (String c s) last)
      with (if Ascii.eqb (lower_ascii c) (lower_ascii p)
            then match_literal (String p' lit) s (Some c) else None).
    change (lower (String c s)) with (String (lower_ascii c) (lower s)).
    change (lower (String p (String p' lit)))
      with (String (lower_ascii p) (lower (String p' lit))).
    cbn [String.eqb].
    destruct (Ascii.eqb (lower_ascii c) (lower_ascii p)); [| reflexivity].
    apply IH. assumption.
Qed.

Lemma no_match_inside_word (alts : list string) (s : string) :
  forallb nonempty alts = true ->
  all_word s = true ->
  forall c, is_word c = true -> search_from alts (Some c) s = false.
Proof.
  intros Halts. induction s as [| a s IH]; intros Hs c Hc.
  - unfold search_from, match_here. cbn [head_char]. rewrite orb_false_r.
    apply andb_false_intro2.
    induction alts as [| lit alts IHa]; [reflexivity |].
    simpl in Halts. apply andb_prop in Halts as [Hlit Halts].
    destruct lit; [discriminate Hlit |]. simpl. apply IHa. assumption.
  - simpl in Hs. apply andb_prop in Hs as [Ha Hs].
    cbn [search_from]. rewrite (IH Hs a Ha), orb_false_r.
    unfold match_here, boundary. cbn [head_char word_opt]. rewrite Hc, Ha. reflexivity.
Qed.

Lemma search_one_word (alts : list string) (s : string) :
  forallb nonempty alts = true ->
  all_word s = true ->
  re_search_words alts s = existsb (fun lit => String.eqb (lower s) (lower lit)) alts.
Proof.
  intros Halts Hs. unfold re_search_words.
  destruct s as [| a s].
  - unfold search_from, match_here. cbn [head_char boundary word_opt xorb andb orb].
    symmetry. clear Hs.
    induction alts as [| lit alts IH]; [reflexivity |].
    simpl in Halts. apply andb_prop in Halts as [Hlit Halts].
    destruct lit; [discriminate Hlit |]. simpl. apply IH. assumption.
  - pose proof Hs as Hs'. simpl in Hs'. apply andb_prop in Hs' as [Ha Hrest].
    cbn [search_from]. rewrite (no_match_inside_word alts s Halts Hrest a Ha), orb_false_r.
    unfold match_here, boundary at 1. cbn [head_char word_opt]. rewrite Ha. cbn [xorb andb].
    induction alts as [| lit alts IH]; [reflexivity |].
    simpl in Halts. apply andb_prop in Halts as [Hlit Halts].
    destruct lit as [| p lit]; [discriminate Hlit |].
    cbn [existsb]. rewrite (IH Halts). f_equal.
    apply whole_match_one_word. assumption.
Qed.

(** X18: on a name written as one word (letters, digits and underscores
    only) the three pattern classifiers answer true exactly when the
    lower-cased name is one of their alternatives: a word that merely
    contains an alternative does not match, and for [get_is_phone] only
    [verizon] can. *)
Theorem pattern_classifiers_on_one_word (t : Transaction) :
  all_word (name t) = true ->
  get_is_insurance t = str_in (lower (name t)) ["insurance"; "insur"; "insuranc"]
  /\ get_is_utility t = str_in (lower (name t)) ["utility"; "utilit"; "energy"]
  /\ get_is_phone t = String.eqb (lower (name t)) "verizon".
Proof.
  intros Hs. unfold get_is_insurance, get_is_utility, get_is_phone.
  rewrite !search_one_word by (reflexivity || assumption).
  repeat split.
  cbn [existsb].
  assert (Hl : all_word (lower (name t)) = true).
  { clear -Hs. induction (name t) as [| c s IH]; [reflexivity |].
    simpl in *. apply andb_prop in Hs as [Hc Hs].
    rewrite is_word_lower, Hc. apply IH. assumption. }
  assert (G : forall lit, all_word lit = false ->
                          String.eqb (lower (name t)) lit = false).
  { intros lit Hlit. apply String.eqb_neq. intros E. rewrite E in Hl. congruence. }
  change (lower "at&t") with "at&t". change (lower "t-mobile") with "t-mobile".
  change (lower "verizon") with "verizon".
  rewrite (G "at&t"), (G "t-mobile") by reflexivity.
  rewrite orb_false_r. reflexivity.
Qed.

Lemma pattern_classifiers_on_one_word_witness :
  get_is_insurance (mkTransaction 8 "u1" "GeicoInsurance" "2024-01-01" 1)
  = str_in "geicoinsurance" ["insurance"; "insur"; "insuranc"]
  /\ get_is_utility (mkTransaction 8 "u1" "GeicoInsurance" "2024-01-01" 1)
     = str_in "geicoinsurance" ["utility"; "utilit"; "energy"]
  /\ get_is_phone (mkTransaction 8 "u1" "GeicoInsurance" "2024-01-01" 1)
     = String.eqb "geicoinsurance" "verizon".
Proof.
  apply (pattern_classifiers_on_one_word
           (mkTransaction 8 "u1" "GeicoInsurance" "2024-01-01" 1)).
  reflexivity.
Defined.

(** ** Whole words inside a longer name *)

Lemma last_char_cons (c : ascii) (s : string) :
  last_char (String c s) = match last_char s with Some c' => Some c' | None => Some c end.
Proof.
  revert c. induction s as [| a s IH]; intros c; [reflexivity |].
  change (last_char (String c (String a s))) with (last_char (String a s)).
  rewrite (IH a). destruct (last_char s); reflexivity.
Qed.

Lemma last_char_lower (s : string) :
  last_char (lower s) = option_map lower_ascii (last_char s).
Proof.
  induction s as [| c s IH]; [reflexivity |].
  change (lower (String c s)) with (String (lower_ascii c) (lower s)).
  rewrite !last_char_cons, IH. destruct (last_char s); reflexivity.
Qed.

Lemma match_literal_self (lit : string) :
  forall word rest last,
    lower word = lower lit ->
    match_literal lit (word ++ rest) last
    = Some (match last_char word with Some c => Some c | None => last end, rest).
Proof.
  induction lit as [| p lit IH]; intros word rest last E.
  - destruct word; [reflexivity | discriminate E].
  - destruct word as [| c word]; [discriminate E |].
    injection E as Ec Ew.
    change (String c word ++ rest)%string with (String c (word ++ rest)%string).
    cbn [match_literal]. rewrite Ec, Ascii.eqb_refl, (IH word rest (Some c) Ew).
    rewrite last_char_cons. destruct (last_char word); reflexivity.
Qed.

Lemma search_from_here (alts : list string) (prev : option ascii) (s : string) :
  match_here alts prev s = true -> search_from alts prev s = true.
Proof. intros H. destruct s; cbn [search_from]; rewrite H; reflexivity. Qed.

Lemma search_from_skip (alts : list string) (rest : string) :
  forall pre prev,
    search_from alts (match last_char pre with Some c => Some c | None => prev end) rest
    = true ->
    search_from alts prev (pre ++ rest) = true.
Proof.
  induction pre as [| c pre IH]; intros prev H; [exact H |].
  change (String c pre ++ rest)%string with (String c (pre ++ rest)%string).
  cbn [search_from]. apply orb_true_intro. right.
  apply IH. rewrite last_char_cons in H. destruct (last_char pre); exact H.
Qed.

Lemma search_finds_whole_word (alts : list string) (lit pre word post : string) :
  In lit alts ->
  lower word = lower lit ->
  word_opt (head_char lit) = true ->
  word_opt (last_char lit) = true ->
  word_opt (last_char pre) = false ->
  word_opt (head_char post) = false ->
  re_search_words alts (pre ++ word ++ post) = true.
Proof.
  intros Hin E Hhead Hlast Hpre Hpost.
  assert (Hh : word_opt (head_char (word ++ post)) = true).
  { rewrite <- Hhead, <- (word_opt_lower (head_char lit)), <- head_char_lower, <- E.
    rewrite head_char_lower, word_opt_lower.
    destruct word as [| c word]; [| reflexivity].
    destruct lit; [discriminate Hhead | discriminate E]. }
  assert (Hl : word_opt (last_char word) = true).
  { rewrite <- Hlast, <- (word_opt_lower (last_char lit)), <- last_char_lower, <- E.
    rewrite last_char_lower, word_opt_lower. reflexivity. }
  unfold re_search_words. apply search_from_skip, search_from_here.
  unfold match_here. apply andb_true_intro. split.
  - unfold boundary. rewrite Hh.
    destruct (last_char pre); [rewrite Hpre |]; reflexivity.
  - apply existsb_exists. exists lit. split; [assumption |].
    rewrite (match_literal_self lit word post _ E).
    unfold boundary. rewrite Hpost.
    destruct (last_char word); [rewrite Hl; reflexivity | discriminate Hl].
Qed.

Lemma str_in_elim (x : string) (l : list string) :
  str_in x l = true -> In x l.
Proof.
  unfold str_in. intros H. apply existsb_exists in H as (y & Hy & E).
  apply String.eqb_eq in E. subst y. assumption.
Qed.

(** X19: a name that contains one of a pattern's alternatives as a whole
    word, in any letter case, with no word character right before or
    right after it, is classified by that pattern, whatever else the
    name holds. *)
Theorem pattern_classifiers_find_whole_word (t : Transaction) (pre word post : string) :
  name t = (pre ++ word ++ post)%string ->
  word_opt (last_char pre) = false ->
  word_opt (head_char post) = false ->
  (str_in (lower word) ["insurance"; "insur"; "insuranc"] = true ->
   get_is_insurance t = true)
  /\ (str_in (lower word) ["utility"; "utilit"; "energy"] = true ->
      get_is_utility t = true)
  /\ (str_in (lower word) ["at&t"; "t-mobile"; "verizon"] = true ->
      get_is_phone t = true).
Proof.
  intros Hname Hpre Hpost.
  unfold get_is_insurance, get_is_utility, get_is_phone. rewrite Hname.
  repeat split; intros H; apply str_in_elim in H;
    apply (search_finds_whole_word _ (lower word) pre word post);
    try assumption;
    try (simpl in H; decompose [or] H; try contradiction;
         match goal with E : _ = lower word |- _ => rewrite <- E end; reflexivity).
Qed.

Lemma pattern_classifiers_find_whole_word_witness :
  get_is_phone (mkTransaction 9 "u1" "Pay AT&T, monthly" "2024-01-01" 50) = true.
Proof.
  apply (pattern_classifiers_find_whole_word
           (mkTransaction 9 "u1" "Pay AT&T, monthly" "2024-01-01" 50)
           "Pay " "AT&T" ", monthly"); reflexivity.
Defined.

(** ** The mean gap is the span over the number of gaps *)

Lemma fold_left_add_shift (l : list Z) :
  forall acc, fold_left Z.add l acc = acc + fold_left Z.add l 0.
Proof.
  induction l as [| y l IH]; intros acc; cbn [fold_left]; [lia |].
  rewrite (IH (acc + y)), (IH (0 + y)). lia.
Qed.

Lemma sum_Z_cons (x : Z) (l : list Z) : sum_Z (x :: l) = x + sum_Z l.
Proof. unfold sum_Z. cbn [fold_left]. rewrite fold_left_add_shift. lia. Qed.

Lemma last_cons_default {A : Type} (l : list A) :
  forall a b, last (b :: l) a = last l b.
Proof.
  induction l as [| c l IH]; intros a b; [reflexivity |].
  change (last (b :: c :: l) a) with (last (c :: l) a).
  rewrite (IH a c), (IH b c). reflexivity.
Qed.

Lemma date_diffs_telescope (a : datetime) (l : list datetime) :
  sum_Z (date_diffs (a :: l)) = days_between (last l a) a.
Proof.
  revert a. induction l as [| b l IH]; intros a.
  - unfold days_between. cbn. lia.
  - change (date_diffs (a :: b :: l)) with (days_between b a :: date_diffs (b :: l)).
    rewrite sum_Z_cons, IH, last_cons_default. unfold days_between. lia.
Qed.

Lemma mean_gap_telescopes (group : list Transaction) (first : datetime) (rest : list datetime) :
  parse_dates (sorted (fun a b => String.leb (date a) (date b)) group) = Ok (first :: rest) ->
  rest <> [] ->
  exists x,
    Float.int_truediv (days_between (last rest first) first) (len rest) = Ok x
    /\ mean_gap_by_date_string group = Ok x.
Proof.
  intros Hp Hrest. unfold mean_gap_by_date_string. cbv zeta. rewrite Hp. cbn [bind].
  rewrite date_diffs_telescope.
  assert (Hlen : len (date_diffs (first :: rest)) = len rest).
  { unfold len. rewrite date_diffs_length. simpl List.length. f_equal. lia. }
  rewrite Hlen.
  assert (Hpos : 0 < len rest).
  { destruct rest; [contradiction |]. unfold len. simpl List.length. lia. }
  destruct (int_truediv_ok (days_between (last rest first) first) (len rest) Hpos)
    as (x & Hx); [| exists x; split; assumption].
  pose proof (parse_dates_ordinal _ _ Hp) as Hord.
  assert (Hfirst : ordinal_in_range first) by (inversion Hord; assumption).
  assert (Hlast : ordinal_in_range (last rest first)).
  { inversion Hord as [| ? ? _ Hr]; subst.
    destruct (exists_last Hrest) as (l' & z & ->). rewrite last_last.
    apply Forall_app in Hr as [_ Hz]. inversion Hz; assumption. }
  unfold ordinal_in_range, days_between in *. nia.
Qed.

(** X20: for a user (or a vendor) with at least two transactions whose
    dates are well-formed, the transaction frequency is the number of
    days from the first to the last date of the group, the group being
    ordered by its date strings, divided by the number of gaps; the dates
    in between do not matter, and the division never fails. *)
Theorem transaction_frequency_is_span_over_gaps
  (t : Transaction) (all_transactions : list Transaction) :
  (forall first rest,
      parse_dates (sorted (fun a b => String.leb (date a) (date b))
                          (same_user t all_transactions)) = Ok (first :: rest) ->
      rest <> [] ->
      exists x,
        Float.int_truediv (days_between (last rest first) first) (len rest) = Ok x
        /\ get_user_transaction_frequency t all_transactions
           = Ok (dict_of [("user_transaction_frequency", VFloat x)]))
  /\ (forall first rest,
        parse_dates (sorted (fun a b => String.leb (date a) (date b))
                            (same_vendor t all_transactions)) = Ok (first :: rest) ->
        rest <> [] ->
        exists x,
          Float.int_truediv (days_between (last rest first) first) (len rest) = Ok x
          /\ get_vendor_transaction_frequency t all_transactions
             = Ok (dict_of [("vendor_transaction_frequency", VFloat x)])).
Proof.
  assert (G : forall group first rest,
             parse_dates (sorted (fun a b => String.leb (date a) (date b)) group)
             = Ok (first :: rest) ->
             rest <> [] -> (len group <? 2) = false).
  { intros group first rest Hp Hrest. apply Z.ltb_ge.
    apply parse_dates_length in Hp. rewrite sorted_length in Hp.
    unfold len. rewrite <- Hp. destruct rest; [contradiction |].
    simpl List.length. lia. }
  split; intros first rest Hp Hrest;
    destruct (mean_gap_telescopes _ first rest Hp Hrest) as (x & Hx & Hmean);
    exists x; (split; [assumption |]).
  - unfold get_user_transaction_frequency. cbv zeta.
    rewrite (G _ _ _ Hp Hrest), Hmean. reflexivity.
  - unfold get_vendor_transaction_frequency. cbv zeta.
    rewrite (G _ _ _ Hp Hrest), Hmean. reflexivity.
Qed.

Lemma transaction_frequency_is_span_over_gaps_witness :
  exists x,
    Float.int_truediv (days_between (mkdate 2024 3 1) (mkdate 2024 1 1)) 2 = Ok x
    /\ get_user_transaction_frequency (spotify "2024-01-01")
         [spotify "2024-03-01"; spotify "2024-01-01"; spotify "2024-01-29"]
       = Ok (dict_of [("user_transaction_frequency", VFloat x)]).
Proof.
  apply (proj1 (transaction_frequency_is_span_over_gaps (spotify "2024-01-01")
                  [spotify "2024-03-01"; spotify "2024-01-01"; spotify "2024-01-29"])
               (mkdate 2024 1 1) [mkdate 2024 1 29; mkdate 2024 3 1]).
  - reflexivity.
  - discriminate.
Defined.

(** ** Recurrence rates *)

Lemma classifiable_ok (u : Transaction) :
  classifiable u -> is_valid_recurring_transaction u = Ok (recurring u).
Proof.
  intros H. unfold recurring.
  destruct (is_valid_recurring_transaction u) as [b | e] eqn:E; [reflexivity |].
  apply is_valid_recurring_transaction_error in E as [Happle Hamount].
  specialize (H Happle). unfold finite in H.
  destruct Hamount as [[_ Hnan] | [_ [s Hinf]]].
  - rewrite Hnan in H. discriminate H.
  - rewrite Hinf in H. discriminate H.
Qed.

Lemma filter_recurring_ok (l : list Transaction) :
  Forall classifiable l ->
  filterM is_valid_recurring_transaction l = Ok (filter recurring l).
Proof.
  intros H. apply filterM_total. intros x Hx.
  apply classifiable_ok. rewrite Forall_forall in H. apply H. assumption.
Qed.

Lemma count_recurring_ok (l : list Transaction) :
  Forall classifiable l -> count_recurring l = Ok (len (filter recurring l)).
Proof.
  intros H. unfold count_recurring. rewrite (filter_recurring_ok l H). reflexivity.
Qed.

Lemma filter_len_range {A : Type} (p : A -> bool) (l : list A) :
  0 <= len (filter p l) <= len l.
Proof.
  unfold len. pose proof (filter_length_le p l). lia.
Qed.

Lemma recurrence_rate_ok (l : list Transaction) :
  0 < len l ->
  exists rate, Float.int_truediv (len (filter recurring l)) (len l) = Ok rate.
Proof.
  intros Hpos. apply int_truediv_fraction_ok; [apply filter_len_range | assumption].
Qed.

Lemma same_user_vendor_incl (t : Transaction) (all_transactions : list Transaction) :
  incl (same_user_vendor t all_transactions) (same_user t all_transactions).
Proof.
  intros x Hx. unfold same_user_vendor, same_user in *.
  apply filter_In in Hx as [Hin Hb]. apply andb_prop in Hb as [Hu _].
  apply filter_In. split; assumption.
Qed.

(** X21: when every Apple transaction of the target's user has a finite
    amount, the three recurrence-rate scorers return: none of them can
    divide by zero.  [get_user_recurrence_rate] and
    [get_user_specific_features] report the same rate, and from two
    transactions of the user on, the rate is the quotient of the two
    counts that [get_user_specific_features] reports, the recurring
    count being at most the transaction count. *)
Theorem user_recurrence_rates_defined
  (t : Transaction) (all_transactions : list Transaction) :
  Forall classifiable (same_user t all_transactions) ->
  exists d1 d2 d3 rate,
    get_user_recurrence_rate t all_transactions = Ok d1
    /\ get_user_specific_features t all_transactions = Ok d2
    /\ get_user_vendor_recurrence_rate t all_transactions = Ok d3
    /\ dict_get "user_recurrence_rate" d1 = Some (VFloat rate)
    /\ dict_get "user_recurring_transaction_rate" d2 = Some (VFloat rate)
    /\ (2 <= len (same_user t all_transactions) ->
        exists r,
          dict_get "user_transaction_count" d2
          = Some (VInt (len (same_user t all_transactions)))
          /\ dict_get "user_recurring_transaction_count" d2 = Some (VInt r)
          /\ 0 <= r <= len (same_user t all_transactions)
          /\ Float.int_truediv r (len (same_user t all_transactions)) = Ok rate).
Proof.
  intros Hall.
  assert (H3 : exists d3, get_user_vendor_recurrence_rate t all_transactions = Ok d3).
  { unfold get_user_vendor_recurrence_rate. cbv zeta.
    destruct (len (same_user_vendor t all_transactions) <? 1) eqn:L; [eauto |].
    apply Z.ltb_ge in L.
    rewrite count_recurring_ok
      by (apply (incl_Forall (same_user_vendor_incl t all_transactions)); assumption).
    cbn [bind].
    destruct (recurrence_rate_ok (same_user_vendor t all_transactions)) as (x & ->);
      [lia | cbn [bind]; eauto]. }
  destruct H3 as (d3 & H3).
  unfold get_user_recurrence_rate, get_user_specific_features. cbv zeta.
  destruct (len (same_user t all_transactions) <? 2) eqn:L.
  - apply Z.ltb_lt in L. do 2 eexists. exists d3, 0%float.
    repeat (split; [first [reflexivity | assumption] |]). lia.
  - apply Z.ltb_ge in L. rewrite (count_recurring_ok _ Hall). cbn [bind].
    destruct (recurrence_rate_ok (same_user t all_transactions)) as (rate & Hrate); [lia |].
    rewrite Hrate. cbn [bind]. do 2 eexists. exists d3, rate.
    repeat (split; [first [reflexivity | assumption] |]).
    intros _. exists (len (filter recurring (same_user t all_transactions))).
    repeat (split; [first [reflexivity | assumption] |]).
    split; [apply filter_len_range | assumption].
Qed.

Lemma user_recurrence_rates_defined_witness :
  exists d1 d2 d3 rate,
    get_user_recurrence_rate netflix [netflix; brigit_999] = Ok d1
    /\ get_user_specific_features netflix [netflix; brigit_999] = Ok d2
    /\ get_user_vendor_recurrence_rate netflix [netflix; brigit_999] = Ok d3
    /\ dict_get "user_recurrence_rate" d1 = Some (VFloat rate)
    /\ dict_get "user_recurring_transaction_rate" d2 = Some (VFloat rate)
    /\ (2 <= 2 ->
        exists r,
          dict_get "user_transaction_count" d2 = Some (VInt 2)
          /\ dict_get "user_recurring_transaction_count" d2 = Some (VInt r)
          /\ 0 <= r <= 2
          /\ Float.int_truediv r 2 = Ok rate).
Proof.
  apply (user_recurrence_rates_defined netflix [netflix; brigit_999]).
  repeat constructor; discriminate.
Defined.

(** ** Sets of names and counters of amounts *)

Lemma distinct_in (l : list string) (x : string) :
  In x (distinct String.eqb l) <-> In x l.
Proof.
  induction l as [| y l IH]; simpl; [tauto |].
  rewrite filter_In, IH. split.
  - intros [H | [H _]]; [left | right]; assumption.
  - intros [H | H]; [left; assumption |].
    destruct (String.eqb y x) eqn:E.
    + apply String.eqb_eq in E. left. assumption.
    + right. split; [assumption | reflexivity].
Qed.

Lemma distinct_NoDup (l : list string) : NoDup (distinct String.eqb l).
Proof.
  induction l as [| y l IH]; simpl; constructor.
  - rewrite filter_In. intros [_ H]. rewrite String.eqb_refl in H. discriminate H.
  - apply NoDup_filter. assumption.
Qed.

Lemma distinct_len_le (l1 l2 : list string) :
  incl l1 l2 -> len (distinct String.eqb l1) <= len (distinct String.eqb l2).
Proof.
  intros H. unfold len. apply inj_le, NoDup_incl_length; [apply distinct_NoDup |].
  intros x Hx. apply distinct_in. apply H. apply distinct_in. assumption.
Qed.

Lemma distinct_len_range (l : list string) :
  0 <= len (distinct String.eqb l) <= len l.
Proof.
  unfold len. split; [lia |]. apply inj_le, NoDup_incl_length; [apply distinct_NoDup |].
  intros x Hx. apply distinct_in. assumption.
Qed.

Lemma distinct_len_pos (l : list string) :
  l <> [] -> 0 < len (distinct String.eqb l).
Proof.
  destruct l as [| x l]; [contradiction |]. intros _.
  unfold len. simpl List.length. lia.
Qed.

Lemma map_filter_incl {A B : Type} (f : A -> B) (p : A -> bool) (l : list A) :
  incl (map f (filter p l)) (map f l).
Proof.
  intros y Hy. apply in_map_iff in Hy as (x & <- & Hx).
  apply filter_In in Hx as [Hx _]. apply in_map. assumption.
Qed.

Lemma counter_add_counts (k : float) (c : list (float * Z)) :
  Forall (fun kv => 1 <= snd kv) c ->
  Forall (fun kv => 1 <= snd kv) (counter_add k c)
  /\ sum_Z (map snd (counter_add k c)) = sum_Z (map snd c) + 1.
Proof.
  induction c as [| [k' n] c IH]; intros H; cbn [counter_add].
  - split; [constructor; [simpl; lia | constructor] | reflexivity].
  - inversion H as [| ? ? Hn Hc]; subst. cbn [snd] in Hn.
    destruct (PrimFloat.eqb k' k).
    + split; [constructor; [cbn [snd]; lia | assumption] |].
      cbn [map snd]. rewrite !sum_Z_cons. lia.
    + destruct (IH Hc) as [IH1 IH2].
      split; [constructor; assumption |].
      cbn [map snd]. rewrite !sum_Z_cons. lia.
Qed.

Lemma counter_add_nonempty (k : float) (c : list (float * Z)) : counter_add k c <> [].
Proof.
  destruct c as [| [k' n] c]; cbn [counter_add]; [discriminate |].
  destruct (PrimFloat.eqb k' k); discriminate.
Qed.

Lemma Counter_counts (l : list float) :
  Forall (fun kv => 1 <= snd kv) (Counter l)
  /\ sum_Z (map snd (Counter l)) = len l
  /\ (l <> [] -> Counter l <> []).
Proof.
  unfold Counter.
  assert (G : forall acc,
             Forall (fun kv => 1 <= snd kv) acc ->
             Forall (fun kv => 1 <= snd kv) (fold_left (fun c k => counter_add k c) l acc)
             /\ sum_Z (map snd (fold_left (fun c k => counter_add k c) l acc))
                = sum_Z (map snd acc) + len l
             /\ (acc <> [] \/ l <> [] ->
                 fold_left (fun c k => counter_add k c) l acc <> [])).
  { induction l as [| k l IH]; intros acc Hacc; cbn [fold_left].
    - repeat split; [assumption | unfold len; simpl; lia | intros [H | H]; auto].
    - destruct (counter_add_counts k acc Hacc) as [H1 H2].
      destruct (IH _ H1) as (I1 & I2 & I3).
      repeat split; [assumption | |].
      + rewrite I2, H2. unfold len. simpl List.length. lia.
      + intros _. apply I3. left. apply counter_add_nonempty. }
  destruct (G [] (Forall_nil _)) as (G1 & G2 & G3).
  repeat split; [assumption | rewrite G2; reflexivity | intros H; apply G3; right; assumption].
Qed.

Lemma member_le_sum (c : list (float * Z)) (kv : float * Z) :
  Forall (fun kv => 1 <= snd kv) c -> In kv c -> snd kv <= sum_Z (map snd c).
Proof.
  induction c as [| x c IH]; intros H Hin; [contradiction |].
  inversion H as [| ? ? Hx Hc]; subst. cbn [map]. rewrite sum_Z_cons.
  assert (Hnn : 0 <= sum_Z (map snd c)).
  { clear -Hc. induction c as [| y c IH]; [unfold sum_Z; simpl; lia |].
    inversion Hc; subst. cbn [map]. rewrite sum_Z_cons. specialize (IH H2). lia. }
  destruct Hin as [-> | Hin]; [lia |]. specialize (IH Hc Hin). lia.
Qed.

Lemma most_common_first (l : list float) :
  l <> [] ->
  exists top,
    list_get (most_common 1 (Counter l)) 0 = Ok top /\ 1 <= snd top <= len l.
Proof.
  intros Hl. destruct (Counter_counts l) as (Hpos & Hsum & Hne).
  specialize (Hne Hl). unfold most_common.
  destruct (sorted (fun a b => snd b <=? snd a) (Counter l)) as [| top rest] eqn:S.
  - apply (f_equal (@List.length _)) in S. rewrite sorted_length in S.
    destruct (Counter l); [contradiction | discriminate S].
  - exists top. split; [reflexivity |].
    assert (Hin : In top (Counter l)).
    { apply (sorted_in (fun a b => snd b <=? snd a)). rewrite S. left. reflexivity. }
    rewrite Forall_forall in Hpos. split; [apply Hpos; assumption |].
    rewrite <- Hsum. apply member_le_sum; [apply Forall_forall |]; assumption.
Qed.

(** X22: when the history holds a transaction of the target's vendor
    (names compared without case) and every Apple transaction of that
    vendor has a finite amount, [get_vendor_recurrence_profile] returns
    its three features.  Neither quotient can divide by zero and
    [most_common(1)[0]] exists; each numerator is at most its
    denominator: recurring users among the vendor's users, and the count
    of the most frequent amount among the vendor's transactions. *)
Theorem vendor_recurrence_profile_defined
  (t : Transaction) (all_transactions : list Transaction) :
  same_vendor_ignoring_case t all_transactions <> [] ->
  Forall classifiable (same_vendor_ignoring_case t all_transactions) ->
  exists n_recurring top score consistency,
    0 <= n_recurring
      <= len (distinct String.eqb
                (map user_id (same_vendor_ignoring_case t all_transactions)))
    /\ 1 <= top <= len (same_vendor_ignoring_case t all_transactions)
    /\ Float.int_truediv n_recurring
         (len (distinct String.eqb
                 (map user_id (same_vendor_ignoring_case t all_transactions)))) = Ok score
    /\ Float.int_truediv top (len (same_vendor_ignoring_case t all_transactions))
       = Ok consistency
    /\ get_vendor_recurrence_profile t all_transactions
       = Ok (dict_of
               [("vendor_recurrence_score", VFloat score);
                ("vendor_recurrence_consistency", VFloat consistency);
                ("vendor_is_common_recurring",
                 VInt (b2z (str_in (lower (name t)) common_recurring_vendors)))]).
Proof.
  intros Hne Hall.
  set (group := same_vendor_ignoring_case t all_transactions) in *.
  assert (Hlen : 0 < len group).
  { destruct group; [contradiction |]. unfold len. simpl List.length. lia. }
  assert (Hamounts : amounts_of group <> []).
  { destruct group; [contradiction | discriminate]. }
  destruct (most_common_first (amounts_of group) Hamounts) as (top & Htop & Hrange).
  assert (Hrange' : 1 <= snd top <= len group).
  { unfold amounts_of, len in Hrange. rewrite length_map in Hrange. exact Hrange. }
  destruct (Counter_counts (amounts_of group)) as (_ & _ & Hcne). specialize (Hcne Hamounts).
  pose proof (distinct_len_le _ _ (map_filter_incl user_id recurring group)) as Hle.
  pose proof (distinct_len_range (map user_id (filter recurring group))) as [Hnn _].
  assert (Husers : 0 < len (distinct String.eqb (map user_id group))).
  { apply distinct_len_pos. destruct group; [contradiction | discriminate]. }
  destruct (int_truediv_fraction_ok _ _ (conj Hnn Hle) Husers) as (score & Hscore).
  destruct (int_truediv_fraction_ok (snd top) (len group)) as (consistency & Hcons);
    [lia | assumption |].
  exists (len (distinct String.eqb (map user_id (filter recurring group)))),
    (snd top), score, consistency.
  repeat (split; [first [assumption | lia] |]).
  unfold get_vendor_recurrence_profile. cbv zeta.
  fold (same_vendor_ignoring_case t all_transactions). fold group.
  replace (len group =? 0) with false by (symmetry; apply Z.eqb_neq; lia).
  rewrite (filter_recurring_ok group Hall). cbn [bind].
  destruct (Counter (amounts_of group)) eqn:C; [contradiction |].
  rewrite Htop. cbn [bind]. rewrite Hcons. cbn [bind]. rewrite Hscore. reflexivity.
Qed.

Lemma vendor_recurrence_profile_defined_witness :
  exists n_recurring top score consistency,
    0 <= n_recurring <= 2
    /\ 1 <= top <= 2
    /\ Float.int_truediv n_recurring 2 = Ok score
    /\ Float.int_truediv top 2 = Ok consistency
    /\ get_vendor_recurrence_profile netflix [netflix; netflix_other_user; brigit_999]
       = Ok (dict_of
               [("vendor_recurrence_score", VFloat score);
                ("vendor_recurrence_consistency", VFloat consistency);
                ("vendor_is_common_recurring", VInt 1)]).
Proof.
  apply (vendor_recurrence_profile_defined netflix [netflix; netflix_other_user; brigit_999]).
  - discriminate.
  - repeat constructor; discriminate.
Defined.

(** ** Counting recurring vendors and users *)

Lemma distinct_len_zero (l : list string) :
  len (distinct String.eqb l) = 0 <-> l = [].
Proof.
  split; [| intros ->; reflexivity].
  destruct l as [| x l]; [reflexivity |].
  unfold len. simpl List.length. lia.
Qed.

Lemma map_nil_inv {A B : Type} (f : A -> B) (l : list A) : map f l = [] <-> l = [].
Proof. destruct l; simpl; split; (reflexivity || discriminate). Qed.

Lemma filter_incl_Forall {A : Type} (P : A -> Prop) (p : A -> bool) (l : list A) :
  Forall P l -> Forall P (filter p l).
Proof. apply incl_Forall, incl_filter. Qed.

(** X23: when every Apple transaction of the history has a finite
    amount, [get_user_recurring_vendor_count] and
    [get_vendor_recurring_user_count] return.  Each count is at most the
    number of recurring transactions of the group it is taken from (the
    user's transactions, the vendor's transactions) and is zero exactly
    when the group has no recurring transaction. *)
Theorem recurring_set_counts_defined
  (t : Transaction) (all_transactions : list Transaction) :
  Forall classifiable all_transactions ->
  (exists n,
      get_user_recurring_vendor_count t all_transactions
      = Ok (dict_of [("user_recurring_vendor_count", VInt n)])
      /\ 0 <= n <= len (filter recurring (same_user t all_transactions))
      /\ (n = 0 <-> filter recurring (same_user t all_transactions) = []))
  /\ (exists n,
        get_vendor_recurring_user_count t all_transactions
        = Ok (dict_of [("vendor_recurring_user_count", VInt n)])
        /\ 0 <= n <= len (filter recurring (same_vendor t all_transactions))
        /\ (n = 0 <-> filter recurring (same_vendor t all_transactions) = [])).
Proof.
  intros Hall.
  assert (G : forall (f : Transaction -> string) (group : list Transaction),
             0 <= len (distinct String.eqb (map f (filter recurring group)))
               <= len (filter recurring group)
             /\ (len (distinct String.eqb (map f (filter recurring group))) = 0
                 <-> filter recurring group = [])).
  { intros f group. split.
    - pose proof (distinct_len_range (map f (filter recurring group))) as H.
      unfold len in *. rewrite length_map in H. exact H.
    - rewrite distinct_len_zero. apply map_nil_inv. }
  split.
  - eexists. split; [| apply (G name)].
    unfold get_user_recurring_vendor_count. cbv zeta.
    rewrite filter_recurring_ok by (apply filter_incl_Forall; assumption).
    reflexivity.
  - eexists. split; [| apply (G user_id)].
    unfold get_vendor_recurring_user_count. cbv zeta.
    rewrite filter_recurring_ok by (apply filter_incl_Forall; assumption).
    reflexivity.
Qed.

Lemma recurring_set_counts_defined_witness :
  (exists n,
      get_user_recurring_vendor_count netflix [netflix; brigit_999; netflix]
      = Ok (dict_of [("user_recurring_vendor_count", VInt n)])
      /\ 0 <= n <= 3
      /\ (n = 0 <-> [netflix; brigit_999; netflix] = []))
  /\ (exists n,
        get_vendor_recurring_user_count netflix [netflix; brigit_999; netflix]
        = Ok (dict_of [("vendor_recurring_user_count", VInt n)])
        /\ 0 <= n <= 2
        /\ (n = 0 <-> [netflix; netflix] = [])).
Proof.
  apply (recurring_set_counts_defined netflix [netflix; brigit_999; netflix]).
  repeat constructor; discriminate.
Defined.

(** ** Amounts that are not numbers *)

Lemma to_int_error (x : float) (e : exn) :
  Float.to_int x = Err e
  <-> (e = ValueError /\ Prim2SF x = S754_nan)
      \/ (e = OverflowError /\ exists s, Prim2SF x = S754_infinity s).
Proof.
  unfold Float.to_int. destruct (Prim2SF x) as [s | s | | s m ex]; split;
    try discriminate;
    try (intros [[_ H] | [_ [s' H]]]; discriminate H).
  - intros [= <-]. right. eauto.
  - intros [[_ H] | [-> _]]; [discriminate H | reflexivity].
  - intros [= <-]. left. auto.
  - intros [[-> _] | [_ [s' H]]]; [reflexivity | discriminate H].
Qed.

Lemma get_amount_pattern_features_error
  (t : Transaction) (all_transactions : list Transaction) (e : exn) :
  get_amount_pattern_features t all_transactions = Err e
  <-> Float.to_int (amount t) = Err e.
Proof.
  unfold get_amount_pattern_features. cbv zeta.
  destruct (Float.to_int (amount t)) as [i | e'] eqn:E.
  - destruct (Float.mem (amount t) common_recurring_amounts); cbn [bind];
      split; discriminate.
  - destruct (Float.mem (amount t) common_recurring_amounts); cbn [bind];
      split; intros [= ->]; reflexivity.
Qed.

(** X24: [get_amount_pattern_features] raises in one situation only,
    whatever the history: the amount is NaN ([ValueError] from [int]) or
    infinite ([OverflowError]); a common amount such as 9.99 only skips
    the first of its two conversions.  On such an amount
    [get_amount_features] raises the same exception, from [round]. *)
Theorem amount_scorers_raise_on_special_amounts
  (t : Transaction) (all_transactions : list Transaction) (e : exn) :
  (get_amount_pattern_features t all_transactions = Err e
   <-> (e = ValueError /\ Prim2SF (amount t) = S754_nan)
       \/ (e = OverflowError /\ exists s, Prim2SF (amount t) = S754_infinity s))
  /\ ((e = ValueError /\ Prim2SF (amount t) = S754_nan)
      \/ (e = OverflowError /\ exists s, Prim2SF (amount t) = S754_infinity s) ->
      get_amount_features t = Err e).
Proof.
  split.
  - rewrite get_amount_pattern_features_error. apply to_int_error.
  - intros H. apply round_error in H. unfold get_amount_features. rewrite H. reflexivity.
Qed.

(** X25: a target whose amount is NaN or infinite has no features:
    [get_features] raises from every state of the cache, whatever the
    history. *)
Theorem get_features_needs_finite_amount
  (t : Transaction) (all_transactions : list Transaction) :
  finite (amount t) = false -> raises (get_features t all_transactions).
Proof.
  intros H.
  assert (E : exists e, get_amount_pattern_features t all_transactions = Err e).
  { unfold finite in H.
    destruct (Prim2SF (amount t)) as [s | s | | s m ex] eqn:P; try discriminate H.
    - exists OverflowError. apply get_amount_pattern_features_error, to_int_error.
      right. eauto.
    - exists ValueError. apply get_amount_pattern_features_error, to_int_error.
      left. auto. }
  destruct E as (e & E). intros c.
  apply dict_display_raises
    with (item := splat (get_amount_pattern_features t all_transactions)).
  - do 9 right. left. reflexivity.
  - intros c'. exists e. rewrite E. reflexivity.
Qed.

Lemma get_features_needs_finite_amount_witness :
  raises (get_features (mkTransaction 7 "u1" "Netflix" "2024-03-01" infinity) [netflix]).
Proof.
  apply (get_features_needs_finite_amount
           (mkTransaction 7 "u1" "Netflix" "2024-03-01" infinity) [netflix]).
  reflexivity.
Defined.

(** ** The counts of the assembled mapping *)

Lemma dict_get_update_first (k k2 : string) (v v2 : value) (d : dict) :
  String.eqb k2 k = false ->
  dict_get k (dict_update d [(k, v); (k2, v2)]) = Some v.
Proof.
  intros Hk. unfold dict_update. cbn [fold_left fst snd].
  rewrite !dict_get_set, Hk, String.eqb_refl. reflexivity.
Qed.

Lemma get_vendor_features_count
  (t : Transaction) (all_transactions : list Transaction) (d : dict) :
  get_vendor_features t all_transactions = Ok d ->
  exists avg,
    d = [("n_transactions_with_vendor", VInt (len (same_vendor t all_transactions)));
         ("avg_amount_for_vendor", VFloat avg)].
Proof.
  unfold get_vendor_features. cbv zeta. intros E.
  apply bind_ok in E as (avg & _ & E). apply Ok_inj in E. subst d.
  exists avg. reflexivity.
Qed.

Lemma same_user_vendor_within_vendor
  (t : Transaction) (all_transactions : list Transaction) :
  0 <= len (same_user_vendor t all_transactions)
    <= len (same_vendor t all_transactions)
  /\ len (same_vendor t all_transactions) <= len all_transactions.
Proof.
  unfold same_user_vendor, same_vendor, len.
  induction all_transactions as [| x l IH]; simpl; [lia |].
  destruct (String.eqb (name x) (name t)); simpl.
  - destruct (String.eqb (user_id x) (user_id t)); simpl List.length; lia.
  - rewrite andb_false_r. lia.
Qed.

Lemma get_features_group_counts
  (t : Transaction) (all_transactions : list Transaction) (c c' : cache) (d : dict) :
  get_features t all_transactions c = (Ok d, c') ->
  dict_get "user_vendor_transaction_count" d
  = Some (VInt (len (same_user_vendor t all_transactions)))
  /\ dict_get "user_vendor_interaction_count" d
     = Some (VInt (len (same_user_vendor t all_transactions)))
  /\ dict_get "n_transactions_with_vendor" d
     = Some (VInt (len (same_vendor t all_transactions))).
Proof.
  intros E. unfold get_features in E.
  apply dict_display_inv in E as (ds & Hds & ->). invert_items.
  match goal with
  | H : produces (splat (get_vendor_features _ _)) _ |- _ =>
      pose proof (produces_splat _ _ H) as Hvendor
  end.
  apply get_vendor_features_count in Hvendor as (avg & Hvendor).
  repeat match goal with
         | H : produces (splat (Ok (get_user_vendor_transaction_count _ _))) _ |- _ =>
             pose proof (produces_splat _ _ H) as Hcount; apply Ok_inj in Hcount
         | H : produces (splat (Ok (get_user_vendor_interaction_count _ _))) _ |- _ =>
             pose proof (produces_splat _ _ H) as Hinter; apply Ok_inj in Hinter
         end.
  repeat match goal with
         | H : produces (entry _ _) _ |- _ =>
             apply produces_entry in H as (? & ? & ? & ? & ->)
         end.
  repeat match goal with H : produces _ _ |- _ => item_keys H end.
  cbn [fold_left].
  destruct (user_is_known t all_transactions);
    (split; [| split]); skip_later_items.
  all: first
         [ rewrite <- Hcount; apply dict_get_update_single
         | rewrite <- Hinter; apply dict_get_update_single
         | rewrite Hvendor; apply dict_get_update_first; reflexivity ].
Qed.

(** X26: every mapping that [get_features] returns carries the number of
    the user's transactions with the vendor twice, under
    [user_vendor_transaction_count] and [user_vendor_interaction_count],
    and that number is at most [n_transactions_with_vendor], which is at
    most the length of the history. *)
Theorem user_vendor_counts_agree
  (t : Transaction) (all_transactions : list Transaction) (c : cache) (d : dict) :
  fst (get_features t all_transactions c) = Ok d ->
  exists n_user_vendor n_vendor,
    dict_get "user_vendor_transaction_count" d = Some (VInt n_user_vendor)
    /\ dict_get "user_vendor_interaction_count" d = Some (VInt n_user_vendor)
    /\ dict_get "n_transactions_with_vendor" d = Some (VInt n_vendor)
    /\ 0 <= n_user_vendor /\ n_user_vendor <= n_vendor
    /\ n_vendor <= len all_transactions.
Proof.
  intros E. apply run_fst in E as (c' & E).
  destruct (get_features_group_counts _ _ _ _ _ E) as (H1 & H2 & H3).
  pose proof (same_user_vendor_within_vendor t all_transactions) as [[Ha Hb] Hc].
  exists (len (same_user_vendor t all_transactions)),
    (len (same_vendor t all_transactions)).
  repeat (split; [assumption |]). assumption.
Qed.

Lemma user_vendor_counts_agree_witness :
  exists n_user_vendor n_vendor,
    dict_get "user_vendor_transaction_count"
      (match features_of netflix [netflix; netflix_other_user] with
       | Ok d => d | Err _ => [] end) = Some (VInt n_user_vendor)
    /\ dict_get "user_vendor_interaction_count"
         (match features_of netflix [netflix; netflix_other_user] with
          | Ok d => d | Err _ => [] end) = Some (VInt n_user_vendor)
    /\ dict_get "n_transactions_with_vendor"
         (match features_of netflix [netflix; netflix_other_user] with
          | Ok d => d | Err _ => [] end) = Some (VInt n_vendor)
    /\ 0 <= n_user_vendor /\ n_user_vendor <= n_vendor
    /\ n_vendor <= len [netflix; netflix_other_user].
Proof.
  apply (user_vendor_counts_agree netflix [netflix; netflix_other_user] []).
  vm_compute. reflexivity.
Defined.
